(** * Composition of the shared lint configurations

    The packages of this repository are configuration modules: each one
    evaluates an object literal, usually spreading the object exported by the
    package it extends and then listing its own entries.  This development
    embeds those literals, with the semantics JavaScript gives to object and
    array literals, and states the composition properties over them.  What
    the host linter does with the presets (override blocks scoped to files,
    ignore lists, file patterns, conflicts of parsers) is not code of the
    repository: those operations are modelled from the spec and marked so.
    The one program of the repository, its release script, is embedded with
    the events it produces on its host. *)

From Stdlib Require Import Ascii.
From stdpp Require Import gmap strings list fin_maps pretty.

Set Warnings "-register-all,-postfix-notation-not-level-1,-clear-no-such-hyp".
Open Scope string_scope.
Open Scope list_scope.

(** ** JavaScript values and literals *)

Module JS.

(** The values that occur in the configuration modules; the numbers they
    write are small integers. *)
Inductive value : Type :=
| VUndefined
| VNull
| VBool (b : bool)
| VNum (n : Z)
| VStr (s : string)
| VArr (xs : list value)
| VObj (o : gmap string value).

(** An expression either yields a value or throws ([None]); the only
    exceptions the configuration modules can raise are the [TypeError]s of a
    property read on [undefined] or [null] and of spreading a non-iterable
    into an array. *)
Definition expr : Type := option value.

Definition lit (v : value) : expr := Some v.

Coercion VStr : string >-> value.
Coercion lit : value >-> expr.

Definition index_keys (xs : list value) : gmap string value :=
  list_to_map (imap (λ i x, (pretty i, x)) xs).

Definition chars (s : string) : list value :=
  (λ c, VStr (String c EmptyString)) <$> String.list_ascii_of_string s.

(** Own enumerable properties, as object spread copies them. *)
Definition own (v : value) : gmap string value :=
  match v with
  | VObj o => o
  | VArr xs => index_keys xs
  | VStr s => index_keys (chars s)
  | _ => ∅
  end.

(** [v.k] and [v['k']]: a missing property reads as [undefined]; reading
    from [undefined] or [null] throws.  Inherited properties and [length] are
    not modelled; the configuration modules read none. *)
Definition prop (v : value) (k : string) : expr :=
  match v with
  | VUndefined | VNull => None
  | _ => Some (default VUndefined (own v !! k))
  end.

Definition get (e : expr) (k : string) : expr := e ≫= λ v, prop v k.

Definition readable (v : value) : bool :=
  match v with
  | VUndefined | VNull => false
  | _ => true
  end.

(** The value of a property of a value that can be read. *)
Definition field (v : value) (k : string) : value := default VUndefined (own v !! k).

(** Members of an object literal: [k: e] and [...e]. *)
Inductive member : Type :=
| Field (k : string) (e : expr)
| Spread (e : expr).

(** One member applied to the object built so far: members are evaluated in
    source order, a later definition of a key replaces the earlier one. *)
Definition define (acc : option (gmap string value)) (m : member)
  : option (gmap string value) :=
  o ← acc;
  match m with
  | Field k e => v ← e; Some (<[k := v]> o)
  | Spread e => v ← e; Some (own v ∪ o)
  end.

Definition obj_lit (ms : list member) : option (gmap string value) :=
  foldl define (Some ∅) ms.

Definition object (ms : list member) : expr := VObj <$> obj_lit ms.

(** Elements of an array literal: [e] and [...e]. *)
Inductive item : Type :=
| Item (e : expr)
| SpreadItem (e : expr).

Coercion Item : expr >-> item.

Definition iter (v : value) : option (list value) :=
  match v with
  | VArr xs => Some xs
  | VStr s => Some (chars s)
  | _ => None
  end.

Definition push (acc : option (list value)) (i : item) : option (list value) :=
  xs ← acc;
  match i with
  | Item e => v ← e; Some (xs ++ [v])
  | SpreadItem e => v ← e; ys ← iter v; Some (xs ++ ys)
  end.

Definition array (items : list item) : expr :=
  VArr <$> foldl push (Some []) items.

Definition as_string (v : value) : option string :=
  match v with
  | VStr s => Some s
  | _ => None
  end.

(** The strings of an array of strings. *)
Definition strings (v : value) : list string :=
  omap as_string (default [] (iter v)).

(** The value a member writes at key [k], when it writes there. *)
Definition writes (k : string) (m : member) : option value :=
  match m with
  | Field k' e => if decide (k' = k) then e else None
  | Spread e => v ← e; own v !! k
  end.

Definition step_def (k : string) (prev : option value) (m : member) : option value :=
  match writes k m with
  | Some v => Some v
  | None => prev
  end.

(** The value the last member defining [k] gives it. *)
Definition last_def (k : string) (ms : list member) : option value :=
  foldl (step_def k) None ms.

(** A member is defined when its expression does not throw. *)
Definition defined (m : member) : Prop :=
  match m with
  | Field _ e | Spread e => is_Some e
  end.

End JS.

Export JS.

Notation "k ::= e" := (Field k e) (at level 60, no associativity).
Notation "e .[ k ]" := (get e k) (at level 1, left associativity, format "e .[ k ]").
Notation "'arr[' ']'" := (array (@nil item)) (format "arr[ ]").
Notation "'arr[' x ; .. ; y ']'" :=
  (array (@cons item x .. (@cons item y (@nil item)) ..)).

(** ** The configuration modules

    Each module below is one source file; its imports are the variables of
    its section.  Comments of the source are dropped, entries keep their
    order. *)

(** Glob patterns shared by the legacy presets (the module at [src/unnamed/part_001]). *)
Module Globs.

Definition exports : expr :=
  object [
    "tests" ::= arr["test/**"; "**/*.test.*"; "**/*.spec.*"];
    "configs" ::= arr["*config.*"; "**/config/**"; "**/configuration/**"];
    "javascripts" ::= arr["*.js"; ".*.js"; "*.cjs"; ".*.cjs"];
    "esmodules" ::= arr["*.mjs"; ".*.mjs"];
    "typescripts" ::= arr["*.ts"; ".*.ts"; "*.cts"; ".*.cts"; "*.mts"; ".*.mts"; "*.tsx"; ".*.tsx"] ].

End Globs.

(** The base preset: the second module kept in [src/packages/eslint-config-node/style.mjs], lines 57-1802, which the node and TypeScript presets import as [base]. *)
Module EslintConfigBase.

Section Imports.

Variables (stylistic imports eslintPluginUnicorn globals : expr).

(** The [rules] literal of [config], from line 72. *)
Definition rules : list member :=
  [
    "array-callback-return" ::= "error";
    "consistent-return" ::= arr["warn"; object ["treatUndefinedAsUnspecified" ::= VBool true]];
    "for-direction" ::= "error";
    "func-names" ::= arr["warn"; "as-needed"];
    "getter-return" ::= "error";
    "guard-for-in" ::= "error";
    "max-classes-per-file" ::= arr["warn"; VNum 1];
    "max-depth" ::= arr["warn"; VNum 6];
    "no-async-promise-executor" ::= "error";
    "no-await-in-loop" ::= "warn";
    "no-case-declarations" ::= "error";
    "no-compare-neg-zero" ::= "error";
    "no-cond-assign" ::= arr["error"; "except-parens"];
    "no-console" ::= "warn";
    "no-constant-condition" ::= "error";
    "no-control-regex" ::= "error";
    "no-debugger" ::= "error";
    "no-dupe-args" ::= "error";
    "no-dupe-else-if" ::= "error";
    "no-dupe-keys" ::= "error";
    "no-duplicate-case" ::= "error";
    "no-empty-character-class" ::= "error";
    "no-empty" ::= "error";
    "no-empty-function" ::= arr["warn"; object ["allow" ::= arr["constructors"]]];
    "no-eval" ::= "error";
    "no-ex-assign" ::= "error";
    "no-extend-native" ::= "error";
    "no-extra-bind" ::= "error";
    "no-extra-label" ::= "error";
    "@stylistic/no-extra-semi" ::= "error";
    "no-func-assign" ::= "error";
    "no-implied-eval" ::= "error";
    "no-import-assign" ::= "warn";
    "no-inner-declarations" ::= arr["error"; "both"];
    "no-invalid-regexp" ::= "error";
    "no-irregular-whitespace" ::= "error";
    "no-iterator" ::= "error";
    "no-lone-blocks" ::= "error";
    "no-loop-func" ::= "warn";
    "no-misleading-character-class" ::= "error";
    "no-undef-init" ::= "error";
    "no-unreachable-loop" ::= "warn";
    "no-unsafe-negation" ::= "error";
    "no-unused-vars" ::= arr["warn"; object ["argsIgnorePattern" ::= "^_"]];
    "no-use-before-define" ::= arr["error"; object ["functions" ::= VBool false; "classes" ::= VBool false]];
    "no-useless-backreference" ::= "warn";
    "no-new" ::= "error";
    "no-new-func" ::= "error";
    "no-new-object" ::= "warn";
    "no-new-native-nonconstructor" ::= "error";
    "no-new-wrappers" ::= "off";
    "no-obj-calls" ::= "error";
    "no-regex-spaces" ::= "error";
    "no-return-assign" ::= "error";
    "no-script-url" ::= "error";
    "no-self-assign" ::= "error";
    "no-sequences" ::= "error";
    "no-sparse-arrays" ::= "error";
    "no-setter-return" ::= "error";
    "no-template-curly-in-string" ::= "warn";
    "no-unexpected-multiline" ::= "error";
    "no-unmodified-loop-condition" ::= "warn";
    "no-unreachable" ::= "error";
    "no-unsafe-finally" ::= "error";
    "no-unused-labels" ::= "error";
    "no-useless-call" ::= "error";
    "no-useless-catch" ::= "error";
    "no-useless-concat" ::= "warn";
    "no-useless-constructor" ::= "error";
    "no-useless-escape" ::= "error";
    "no-useless-return" ::= "warn";
    "no-var" ::= "error";
    "prefer-rest-params" ::= "error";
    "use-isnan" ::= "error";
    "valid-typeof" ::= "error";
    "constructor-super" ::= "error";
    "no-class-assign" ::= "error";
    "no-const-assign" ::= "error";
    "no-dupe-class-members" ::= "error";
    "no-this-before-super" ::= "error";
    "no-delete-var" ::= "error";
    "no-label-var" ::= "error";
    "no-shadow-restricted-names" ::= "error";
    "no-shadow" ::= arr[
      "error";
      object ["builtinGlobals" ::= VBool true; "hoist" ::= "functions"; "allow" ::= arr["name"]] ];
    "no-undef" ::= arr["error"; object ["typeof" ::= VBool true]];
    "accessor-pairs" ::= "error";
    "default-case" ::= "error";
    "eqeqeq" ::= "error";
    "no-array-constructor" ::= "error";
    "no-caller" ::= "error";
    "no-labels" ::= "error";
    "no-loss-of-precision" ::= "warn";
    "no-empty-pattern" ::= "error";
    "no-fallthrough" ::= "off";
    "no-global-assign" ::= arr["error"; object ["exceptions" ::= arr["Promise"]]];
    "no-octal-escape" ::= "error";
    "no-octal" ::= "error";
    "no-proto" ::= "error";
    "no-redeclare" ::= "error";
    "no-self-compare" ::= "error";
    "no-throw-literal" ::= "error";
    "no-undefined" ::= "off";
    "no-unused-expressions" ::= arr["error"; object ["allowShortCircuit" ::= VBool true; "allowTernary" ::= VBool true]];
    "no-useless-rename" ::= "warn";
    "no-with" ::= "error";
    "prefer-destructuring" ::= arr["off"; object ["object" ::= VBool true; "array" ::= VBool false]];
    "prefer-named-capture-group" ::= "warn";
    "prefer-promise-reject-errors" ::= "error";
    "prefer-spread" ::= "warn";
    "radix" ::= "warn";
    "require-await" ::= "warn";
    "require-unicode-regexp" ::= "error";
    "require-yield" ::= "error";
    "strict" ::= arr["off"; "global"];
    "symbol-description" ::= "warn";
    "vars-on-top" ::= "warn";
    "import/no-unresolved" ::= arr["warn"; object ["commonjs" ::= VBool true]];
    "import/named" ::= "error";
    "import/default" ::= "error";
    "import/first" ::= "error";
    "import/namespace" ::= "error";
    "import/no-absolute-path" ::= "error";
    "import/export" ::= "error";
    "import/no-anonymous-default-export" ::= arr["warn"; object ["allowObject" ::= VBool true; "allowArray" ::= VBool true]];
    "import/no-extraneous-dependencies" ::= "error";
    "import/no-mutable-exports" ::= "error";
    "import/no-named-as-default" ::= "warn";
    "import/no-named-default" ::= "warn";
    "import/no-named-as-default-member" ::= "warn";
    "import/no-self-import" ::= "error";
    "import/no-cycle" ::= arr["error"; object ["maxDepth" ::= VNum 8]];
    "import/no-unassigned-import" ::= "error";
    "no-prototype-builtins" ::= "error";
    "unicorn/better-regex" ::= arr["warn"; object ["sortCharacterClasses" ::= VBool false]];
    "unicorn/consistent-function-scoping" ::= "error";
    "unicorn/custom-error-definition" ::= "off";
    "unicorn/escape-case" ::= "error";
    "unicorn/error-message" ::= "error";
    "unicorn/expiring-todo-comments" ::= "warn";
    "unicorn/new-for-builtins" ::= "error";
    "unicorn/no-abusive-eslint-disable" ::= "error";
    "unicorn/no-anonymous-default-export" ::= "error";
    "unicorn/no-array-callback-reference" ::= "off";
    "unicorn/no-array-for-each" ::= "error";
    "unicorn/no-array-method-this-argument" ::= "off";
    "unicorn/no-array-push-push" ::= "error";
    "unicorn/no-array-reduce" ::= "error";
    "unicorn/no-await-expression-member" ::= "error";
    "unicorn/no-await-in-promise-methods" ::= "error";
    "unicorn/no-document-cookie" ::= "error";
    "unicorn/no-empty-file" ::= "error";
    "unicorn/no-for-loop" ::= "error";
    "unicorn/no-invalid-fetch-options" ::= "error";
    "unicorn/no-invalid-remove-event-listener" ::= "error";
    "unicorn/no-length-as-slice-end" ::= "error";
    "unicorn/no-lonely-if" ::= "error";
    "unicorn/no-magic-array-flat-depth" ::= "error";
    "unicorn/no-negated-condition" ::= "warn";
    "unicorn/no-negation-in-equality-check" ::= "error";
    "unicorn/no-new-array" ::= "error";
    "unicorn/no-new-buffer" ::= "error";
    "unicorn/no-null" ::= "off";
    "unicorn/no-object-as-default-parameter" ::= "error";
    "unicorn/no-single-promise-in-promise-methods" ::= "error";
    "unicorn/no-static-only-class" ::= "off";
    "unicorn/no-thenable" ::= "error";
    "unicorn/no-this-assignment" ::= "error";
    "unicorn/no-typeof-undefined" ::= "error";
    "unicorn/no-unnecessary-await" ::= "error";
    "unicorn/no-unnecessary-polyfills" ::= "error";
    "unicorn/no-unreadable-array-destructuring" ::= "error";
    "unicorn/no-unreadable-iife" ::= "off";
    "unicorn/no-unused-properties" ::= "error";
    "unicorn/no-useless-fallback-in-spread" ::= "error";
    "unicorn/no-useless-length-check" ::= "error";
    "unicorn/no-useless-promise-resolve-reject" ::= "error";
    "unicorn/no-useless-spread" ::= "error";
    "unicorn/no-useless-switch-case" ::= "error";
    "unicorn/no-useless-undefined" ::= "error";
    "unicorn/prefer-add-event-listener" ::= "error";
    "unicorn/prefer-array-find" ::= "error";
    "unicorn/prefer-array-flat" ::= "error";
    "unicorn/prefer-array-flat-map" ::= "error";
    "unicorn/prefer-array-index-of" ::= "error";
    "unicorn/prefer-array-some" ::= "error";
    "unicorn/prefer-at" ::= "error";
    "unicorn/prefer-blob-reading-methods" ::= "error";
    "unicorn/prefer-code-point" ::= "error";
    "unicorn/prefer-date-now" ::= "error";
    "unicorn/prefer-default-parameters" ::= "error";
    "unicorn/prefer-dom-node-append" ::= "error";
    "unicorn/prefer-dom-node-dataset" ::= "error";
    "unicorn/prefer-dom-node-remove" ::= "error";
    "unicorn/prefer-dom-node-text-content" ::= "error";
    "unicorn/prefer-event-target" ::= "error";
    "unicorn/prefer-export-from" ::= "error";
    "unicorn/prefer-global-this" ::= "error";
    "unicorn/prefer-includes" ::= "error";
    "unicorn/prefer-json-parse-buffer" ::= "error";
    "unicorn/prefer-keyboard-event-key" ::= "error";
    "unicorn/prefer-logical-operator-over-ternary" ::= "error";
    "unicorn/prefer-math-min-max" ::= "error";
    "unicorn/prefer-math-trunc" ::= "error";
    "unicorn/prefer-modern-dom-apis" ::= "error";
    "unicorn/prefer-modern-math-apis" ::= "error";
    "unicorn/prefer-module" ::= "off";
    "unicorn/prefer-native-coercion-functions" ::= "error";
    "unicorn/prefer-negative-index" ::= "error";
    "unicorn/prefer-number-properties" ::= "error";
    "unicorn/prefer-prototype-methods" ::= "error";
    "unicorn/prefer-reflect-apply" ::= "error";
    "unicorn/prefer-regexp-test" ::= "error";
    "unicorn/prefer-set-has" ::= "off";
    "unicorn/prefer-string-replace-all" ::= "error";
    "unicorn/prefer-string-slice" ::= "error";
    "unicorn/prefer-string-starts-ends-with" ::= "error";
    "unicorn/prefer-string-trim-start-end" ::= "error";
    "unicorn/prefer-switch" ::= "error";
    "unicorn/prefer-ternary" ::= "error";
    "unicorn/prefer-query-selector" ::= "error";
    "unicorn/prefer-set-size" ::= "error";
    "unicorn/prefer-structured-clone" ::= "error";
    "unicorn/prefer-top-level-await" ::= "off";
    "unicorn/prefer-type-error" ::= "off";
    "unicorn/prevent-abbreviations" ::= "off";
    "unicorn/require-array-join-separator" ::= "error";
    "unicorn/require-number-to-fixed-digits-argument" ::= "error";
    "unicorn/require-post-message-target-origin" ::= "off";
    "unicorn/string-content" ::= "off";
    "unicorn/template-indent" ::= "off";
    "unicorn/throw-new-error" ::= "off" ].

Definition config : expr :=
  object [
    "languageOptions" ::= object ["globals" ::= globals.["builtin"]];
    "plugins" ::= object ["import" ::= imports; "@stylistic" ::= stylistic; "unicorn" ::= eslintPluginUnicorn];
    "rules" ::= object rules ].

End Imports.

End EslintConfigBase.

(** The base style preset (the module at [src/unnamed/part_002]). *)
Module EslintConfigBaseStyle.

Section Imports.

Variables (stylistic imports eslintPluginUnicorn : expr).

(** The [rules] literal of [config], from line 12. *)
Definition rules : list member :=
  [
    "@stylistic/array-bracket-newline" ::= arr["warn"; "consistent"];
    "@stylistic/array-bracket-spacing" ::= arr["warn"; "never"];
    "@stylistic/array-element-newline" ::= arr["warn"; "consistent"];
    "arrow-body-style" ::= arr["warn"; "as-needed"];
    "@stylistic/arrow-parens" ::= arr["warn"; "as-needed"];
    "@stylistic/arrow-spacing" ::= arr["warn"; object ["before" ::= VBool true; "after" ::= VBool true]];
    "@stylistic/block-spacing" ::= arr["warn"; "always"];
    "camelcase" ::= arr["warn"];
    "@stylistic/comma-dangle" ::= arr["warn"; "always-multiline"];
    "@stylistic/comma-spacing" ::= arr["warn"; object ["before" ::= VBool false; "after" ::= VBool true]];
    "@stylistic/comma-style" ::= arr["warn"; "last"];
    "@stylistic/computed-property-spacing" ::= arr["warn"; "never"];
    "consistent-this" ::= arr["warn"; "self"];
    "curly" ::= arr["warn"; "all"];
    "default-case-last" ::= "warn";
    "default-param-last" ::= "off";
    "@stylistic/dot-location" ::= arr["warn"; "property"];
    "dot-notation" ::= "warn";
    "@stylistic/eol-last" ::= arr["warn"; "unix"];
    "@stylistic/func-call-spacing" ::= "warn";
    "func-style" ::= arr["warn"; "declaration"; object ["allowArrowFunctions" ::= VBool true]];
    "func-name-matching" ::= "warn";
    "@stylistic/generator-star-spacing" ::= arr[
      "warn";
      object ["before" ::= VBool false; "after" ::= VBool true; "method" ::= "before"] ];
    "grouped-accessor-pairs" ::= arr["warn"; "getBeforeSet"];
    "id-length" ::= arr[
      "warn";
      object ["min" ::= VNum 2; "exceptions" ::= arr["i"; "_"; "R"; "$"; "e"; "v"; "t"]] ];
    "@stylistic/key-spacing" ::= arr[
      "warn";
      object ["beforeColon" ::= VBool false; "afterColon" ::= VBool true; "mode" ::= "strict"] ];
    "@stylistic/keyword-spacing" ::= arr["warn"; object ["before" ::= VBool true; "after" ::= VBool true]];
    "@stylistic/linebreak-style" ::= arr["error"; "unix"];
    "@stylistic/lines-between-class-members" ::= arr["warn"; "always"; object ["exceptAfterSingleLine" ::= VBool true]];
    "max-params" ::= arr["warn"; VNum 6];
    "max-nested-callbacks" ::= arr["warn"; VNum 4];
    "@stylistic/max-statements-per-line" ::= "warn";
    "@stylistic/multiline-comment-style" ::= arr["warn"; "separate-lines"];
    "@stylistic/newline-per-chained-call" ::= arr["warn"; object ["ignoreChainWithDepth" ::= VNum 3]];
    "new-cap" ::= arr["warn"; object ["newIsCap" ::= VBool true; "capIsNew" ::= VBool false]];
    "@stylistic/new-parens" ::= "warn";
    "@stylistic/nonblock-statement-body-position" ::= arr[
      "warn";
      "below";
      object ["overrides" ::= object ["if" ::= "beside"; "else" ::= "beside"]] ];
    "no-else-return" ::= "warn";
    "no-extra-boolean-cast" ::= "warn";
    "@stylistic/no-floating-decimal" ::= "warn";
    "no-implicit-coercion" ::= "warn";
    "no-inline-comments" ::= "off";
    "no-lonely-if" ::= "warn";
    "@stylistic/no-mixed-spaces-and-tabs" ::= "warn";
    "no-multi-assign" ::= "warn";
    "@stylistic/no-multiple-empty-lines" ::= arr["warn"; object ["max" ::= VNum 2; "maxEOF" ::= VNum 0; "maxBOF" ::= VNum 0]];
    "@stylistic/no-multi-spaces" ::= "warn";
    "no-nested-ternary" ::= "off";
    "@stylistic/no-trailing-spaces" ::= "warn";
    "no-underscore-dangle" ::= "off";
    "no-unneeded-ternary" ::= arr["warn"; object ["defaultAssignment" ::= VBool false]];
    "no-useless-computed-key" ::= "warn";
    "no-warning-comments" ::= arr["warn"; object ["location" ::= "anywhere"]];
    "@stylistic/no-whitespace-before-property" ::= "warn";
    "@stylistic/object-curly-newline" ::= arr["warn"; object ["consistent" ::= VBool true]];
    "@stylistic/object-curly-spacing" ::= arr["warn"; "always"];
    "@stylistic/object-property-newline" ::= arr["warn"; object ["allowAllPropertiesOnSameLine" ::= VBool true]];
    "prefer-numeric-literals" ::= "warn";
    "prefer-object-spread" ::= "warn";
    "prefer-regex-literals" ::= arr["warn"; object ["disallowRedundantWrapping" ::= VBool true]];
    "prefer-template" ::= "warn";
    "@stylistic/quote-props" ::= arr["warn"; "as-needed"];
    "@stylistic/quotes" ::= arr["warn"; "single"; "avoid-escape"];
    "@stylistic/rest-spread-spacing" ::= arr["warn"; "never"];
    "@stylistic/semi-spacing" ::= arr["warn"; object ["before" ::= VBool false; "after" ::= VBool true]];
    "@stylistic/semi-style" ::= arr["warn"; "last"];
    "@stylistic/semi" ::= arr["warn"; "always"];
    "@stylistic/space-before-blocks" ::= arr["warn"; "always"];
    "@stylistic/space-in-parens" ::= arr["warn"; "never"];
    "@stylistic/space-infix-ops" ::= "warn";
    "@stylistic/space-unary-ops" ::= arr["warn"; object ["words" ::= VBool true; "nonwords" ::= VBool false]];
    "@stylistic/spaced-comment" ::= arr["warn"; "always"; object ["markers" ::= arr["/"]]];
    "@stylistic/switch-colon-spacing" ::= "warn";
    "@stylistic/template-curly-spacing" ::= "warn";
    "@stylistic/template-tag-spacing" ::= arr["warn"; "never"];
    "@stylistic/wrap-iife" ::= arr["warn"; "inside"];
    "@stylistic/yield-star-spacing" ::= arr["warn"; "after"];
    "yoda" ::= "warn";
    "import/consistent-type-specifier-style" ::= arr["warn"; "prefer-inline"];
    "import/exports-last" ::= "warn";
    "import/group-exports" ::= "off";
    "import/no-duplicates" ::= "warn";
    "import/no-empty-named-blocks" ::= "warn";
    "import/no-useless-path-segments" ::= arr["warn"; object ["noUselessIndex" ::= VBool false]];
    "import/order" ::= arr[
      "warn";
      object [
        "groups" ::= arr["builtin"; "external"; "internal"; arr["sibling"; "parent"]; "index"; "unknown"];
        "newlines-between" ::= "never";
        "alphabetize" ::= object ["order" ::= "asc"; "caseInsensitive" ::= VBool true] ] ];
    "import/newline-after-import" ::= "warn";
    "@stylistic/padding-line-between-statements" ::= arr[
      "warn";
      object ["blankLine" ::= "always"; "prev" ::= arr["cjs-import"; "directive"]; "next" ::= "*"];
      object [
        "blankLine" ::= "always";
        "prev" ::= "*";
        "next" ::= arr["cjs-export"; "class"; "export"; "function"; "for"; "do"; "switch"; "if"; "try"] ];
      object ["blankLine" ::= "any"; "prev" ::= "export"; "next" ::= "export"];
      object ["blankLine" ::= "never"; "prev" ::= "directive"; "next" ::= "directive"];
      object ["blankLine" ::= "never"; "prev" ::= "cjs-import"; "next" ::= "cjs-import"];
      object ["blankLine" ::= "never"; "prev" ::= "import"; "next" ::= "import"] ];
    "prefer-arrow-callback" ::= arr[
      "error";
      object ["allowNamedFunctions" ::= VBool true; "allowUnboundThis" ::= VBool false] ];
    "prefer-const" ::= arr["error"; object ["destructuring" ::= "all"; "ignoreReadBeforeAssign" ::= VBool true]];
    "@stylistic/brace-style" ::= "off";
    "@stylistic/function-paren-newline" ::= "off";
    "@stylistic/indent" ::= "off";
    "@stylistic/multiline-ternary" ::= "off";
    "@stylistic/max-len" ::= arr[
      "off";
      object [
        "code" ::= VNum 120;
        "ignoreTrailingComments" ::= VBool true;
        "ignoreUrls" ::= VBool true;
        "ignoreStrings" ::= VBool true;
        "ignoreTemplateLiterals" ::= VBool true;
        "ignorePattern" ::= "^import\W.*" ] ];
    "@stylistic/no-extra-parens" ::= "off";
    "@stylistic/no-tabs" ::= "off";
    "@stylistic/no-mixed-operators" ::= "off";
    "@stylistic/operator-linebreak" ::= "off";
    "@stylistic/space-before-function-paren" ::= "off";
    "unicorn/catch-error-name" ::= arr["error"; object ["name" ::= "e"]];
    "unicorn/consistent-destructuring" ::= "off";
    "unicorn/consistent-empty-array-spread" ::= "error";
    "unicorn/consistent-existence-index-check" ::= "error";
    "unicorn/empty-brace-spaces" ::= "error";
    "unicorn/explicit-length-check" ::= "error";
    "unicorn/filename-case" ::= arr["error"; object ["case" ::= "kebabCase"; "multipleFileExtensions" ::= VBool true]];
    "unicorn/no-console-spaces" ::= "error";
    "unicorn/no-hex-escape" ::= "error";
    "unicorn/no-keyword-prefix" ::= "off";
    "unicorn/no-nested-ternary" ::= "off";
    "unicorn/no-zero-fractions" ::= "error";
    "unicorn/number-literal-case" ::= "off";
    "unicorn/numeric-separators-style" ::= "error";
    "unicorn/prefer-object-from-entries" ::= "error";
    "unicorn/prefer-optional-catch-binding" ::= "error";
    "unicorn/prefer-spread" ::= "error";
    "unicorn/prefer-string-raw" ::= "error";
    "unicorn/relative-url-style" ::= "error";
    "unicorn/switch-case-braces" ::= "error" ].

Definition config : expr :=
  object [
    "plugins" ::= object ["import" ::= imports; "@stylistic" ::= stylistic; "unicorn" ::= eslintPluginUnicorn];
    "rules" ::= object rules ].

End Imports.

End EslintConfigBaseStyle.

(** The jsdoc preset: the third module kept in [src/packages/eslint-config-node/style.mjs], lines 1803-1822. *)
Module EslintConfigBaseJsdoc.

Section Imports.

Variables (jsdoc : expr).

(** The [rules] literal of [config], from line 1808. *)
Definition rules : list member :=
  [
    Spread (jsdoc.["configs"].["flat/recommended"].["rules"]);
    "jsdoc/require-jsdoc" ::= "off";
    "jsdoc/require-param" ::= arr["warn"; object ["exemptedBy" ::= arr["inheritdoc"; "private"; "internal"]]];
    "jsdoc/multiline-blocks" ::= arr["warn"; object ["noSingleLineBlocks" ::= VBool true; "singleLineTags" ::= arr["*"]]];
    "jsdoc/require-asterisk-prefix" ::= "warn";
    "jsdoc/require-hyphen-before-param-description" ::= arr["warn"; "never"];
    "jsdoc/tag-lines" ::= arr["warn"; "any"; object ["startLines" ::= VNum 1]];
    "jsdoc/require-returns" ::= VNum 0;
    "jsdoc/no-blank-block-descriptions" ::= VNum 1;
    "jsdoc/no-blank-blocks" ::= VNum 1 ].

Definition config : expr :=
  object [
    "plugins" ::= object ["jsdoc" ::= jsdoc];
    "rules" ::= object rules ].

End Imports.

End EslintConfigBaseJsdoc.

(** The node preset: the second module kept in [src/packages/eslint-config-typescript/index.mjs], lines 639-830. *)
Module EslintConfigNode.

Section Imports.

Variables (base node globals : expr).

(** The [rules] literal of [config], from line 667. *)
Definition rules : list member :=
  [
    Spread (base.["rules"]);
    "no-buffer-constructor" ::= "error";
    "node/callback-return" ::= arr["error"; arr["cb"; "callback"; "next"; "done"]];
    "node/global-require" ::= "warn";
    "node/handle-callback-err" ::= arr["error"; "^.*(e|E)rr(or)?"];
    "node/no-callback-literal" ::= arr["warn"];
    "node/no-exports-assign" ::= "error";
    "node/no-new-require" ::= "error";
    "node/no-path-concat" ::= "error";
    "node/no-process-env" ::= "warn";
    "node/no-process-exit" ::= "error";
    "node/no-sync" ::= arr["warn"; object ["allowAtRootLevel" ::= VBool true]];
    "node/no-unsupported-features/es-builtins" ::= "error";
    "node/no-unsupported-features/es-syntax" ::= "error";
    "node/no-unsupported-features/node-builtins" ::= "error";
    "node/process-exit-as-throw" ::= "error";
    "node/shebang" ::= "warn";
    "node/no-deprecated-api" ::= "warn";
    "unicorn/no-process-exit" ::= "error" ].

Definition config : expr :=
  object [
    Spread base;
    "languageOptions" ::= object [
      Spread (base.["languageOptions"]);
      "globals" ::= object [Spread (base.["languageOptions"].["globals"]); Spread (globals.["node"])] ];
    "plugins" ::= object [Spread (base.["plugins"]); "node" ::= node];
    "settings" ::= object ["import/resolver" ::= object ["typescript" ::= object []]];
    "rules" ::= object rules ].

End Imports.

End EslintConfigNode.

(** The node style preset, [src/packages/eslint-config-node/style.mjs], lines 1-56. *)
Module EslintConfigNodeStyle.

Section Imports.

Variables (base : expr).

(** The [rules] literal of [config], from line 11. *)
Definition rules : list member :=
  [
    Spread (base.["rules"]);
    "unicorn/prefer-node-protocol" ::= "error";
    "unicorn/text-encoding-identifier-case" ::= "error" ].

Definition config : expr :=
  object [
    Spread base;
    "plugins" ::= object [Spread (base.["plugins"])];
    "rules" ::= object rules ].

End Imports.

End EslintConfigNodeStyle.

(** The TypeScript preset, [src/packages/eslint-config-typescript/index.mjs], lines 1-638. *)
Module EslintConfigTypescript.

Section Imports.

Variables (base ts parser : expr).

(** The [rules] literal of [config], from line 24. *)
Definition rules : list member :=
  [
    Spread (base.["rules"]);
    "consistent-return" ::= "off";
    "no-undef" ::= "off";
    "@typescript-eslint/adjacent-overload-signatures" ::= "warn";
    "@typescript-eslint/array-type" ::= arr["warn"; object ["default" ::= "array-simple"; "readonly" ::= "array-simple"]];
    "@typescript-eslint/await-thenable" ::= "warn";
    "@typescript-eslint/ban-ts-comment" ::= arr[
      "warn";
      object [
        "ts-expect-error" ::= "allow-with-description";
        "ts-ignore" ::= "allow-with-description";
        "ts-nocheck" ::= VBool false;
        "ts-check" ::= VBool true ] ];
    "@typescript-eslint/ban-tslint-comment" ::= "warn";
    "@typescript-eslint/class-literal-property-style" ::= arr["warn"; "fields"];
    "@typescript-eslint/consistent-type-assertions" ::= arr["warn"; object ["assertionStyle" ::= "as"; "objectLiteralTypeAssertions" ::= "never"]];
    "@typescript-eslint/consistent-type-definitions" ::= arr["warn"; "interface"];
    "@typescript-eslint/consistent-type-exports" ::= arr["error"; object ["fixMixedExportsWithInlineTypeSpecifier" ::= VBool true]];
    "@typescript-eslint/consistent-type-imports" ::= arr["warn"; object ["prefer" ::= "type-imports"; "fixStyle" ::= "inline-type-imports"]];
    "@typescript-eslint/explicit-member-accessibility" ::= arr[
      "warn";
      object ["accessibility" ::= "explicit"; "overrides" ::= object ["constructors" ::= "no-public"]] ];
    "@typescript-eslint/explicit-module-boundary-types" ::= arr[
      "warn";
      object [
        "allowArgumentsExplicitlyTypedAsAny" ::= VBool true;
        "allowHigherOrderFunctions" ::= VBool true;
        "allowTypedFunctionExpressions" ::= VBool true ] ];
    "@typescript-eslint/member-ordering" ::= arr[
      "warn";
      object [
        "default" ::= arr[
          "static-field";
          "field";
          "constructor";
          "public-static-get";
          "public-static-method";
          "public-get";
          "method";
          "protected-get";
          "private-get";
          "protected-method";
          "private-method" ] ] ];
    "@typescript-eslint/no-array-constructor" ::= base.["rules"].["no-array-constructor"];
    "no-array-constructor" ::= "off";
    "@typescript-eslint/no-base-to-string" ::= "warn";
    "@typescript-eslint/no-dupe-class-members" ::= base.["rules"].["no-dupe-class-members"];
    "no-dupe-class-members" ::= "off";
    "@typescript-eslint/no-duplicate-enum-values" ::= "error";
    "@typescript-eslint/no-duplicate-type-constituents" ::= "warn";
    "@typescript-eslint/no-dynamic-delete" ::= "error";
    "@typescript-eslint/no-empty-interface" ::= "warn";
    "@typescript-eslint/no-explicit-any" ::= "error";
    "@typescript-eslint/no-extraneous-class" ::= arr[
      "warn";
      object [
        "allowConstructorOnly" ::= VBool true;
        "allowWithDecorator" ::= VBool true;
        "allowStaticOnly" ::= VBool true ] ];
    "@typescript-eslint/no-floating-promises" ::= arr["error"; object ["ignoreVoid" ::= VBool true]];
    "@typescript-eslint/no-for-in-array" ::= "error";
    "@typescript-eslint/no-implied-eval" ::= base.["rules"].["no-implied-eval"];
    "no-implied-eval" ::= "off";
    "@typescript-eslint/no-inferrable-types" ::= arr["error"; object ["ignoreProperties" ::= VBool true; "ignoreParameters" ::= VBool true]];
    "@typescript-eslint/no-invalid-this" ::= "error";
    "no-invalid-this" ::= "off";
    "@typescript-eslint/no-invalid-void-type" ::= "warn";
    "@typescript-eslint/no-loop-func" ::= base.["rules"].["no-loop-func"];
    "no-loop-func" ::= "off";
    "@typescript-eslint/no-loss-of-precision" ::= base.["rules"].["no-loss-of-precision"];
    "no-loss-of-precision" ::= "off";
    "@typescript-eslint/no-misused-new" ::= "error";
    "@typescript-eslint/no-misused-promises" ::= "error";
    "@typescript-eslint/no-mixed-enums" ::= "warn";
    "@typescript-eslint/no-namespace" ::= "error";
    "@typescript-eslint/no-non-null-asserted-nullish-coalescing" ::= "warn";
    "@typescript-eslint/no-non-null-asserted-optional-chain" ::= "error";
    "@typescript-eslint/no-non-null-assertion" ::= "warn";
    "@typescript-eslint/parameter-properties" ::= arr["warn"; object ["prefer" ::= "class-property"]];
    "@typescript-eslint/no-redeclare" ::= arr["error"; object ["ignoreDeclarationMerge" ::= VBool true]];
    "no-redeclare" ::= "off";
    "@typescript-eslint/no-redundant-type-constituents" ::= "warn";
    "@typescript-eslint/no-require-imports" ::= "warn";
    "@typescript-eslint/no-shadow" ::= base.["rules"].["no-shadow"];
    "no-shadow" ::= "off";
    "@typescript-eslint/no-this-alias" ::= arr["error"; object ["allowDestructuring" ::= VBool true]];
    "@typescript-eslint/only-throw-error" ::= arr[
      base.["rules"].["no-throw-literal"];
      object ["allowThrowingAny" ::= VBool false; "allowThrowingUnknown" ::= VBool false] ];
    "no-throw-literal" ::= "off";
    "@typescript-eslint/no-unnecessary-condition" ::= "warn";
    "@typescript-eslint/no-unnecessary-qualifier" ::= "warn";
    "@typescript-eslint/no-unnecessary-type-assertion" ::= "warn";
    "@typescript-eslint/no-unnecessary-type-constraint" ::= "warn";
    "@typescript-eslint/no-unsafe-assignment" ::= "warn";
    "@typescript-eslint/no-unsafe-call" ::= "warn";
    "@typescript-eslint/no-unsafe-member-access" ::= "warn";
    "@typescript-eslint/no-unsafe-return" ::= "warn";
    "@typescript-eslint/triple-slash-reference" ::= arr["error"; object ["path" ::= "never"; "types" ::= "never"; "lib" ::= "never"]];
    "@typescript-eslint/no-unused-expressions" ::= base.["rules"].["no-unused-expressions"];
    "no-unused-expressions" ::= "off";
    "@typescript-eslint/no-unused-vars" ::= base.["rules"].["no-unused-vars"];
    "no-unused-vars" ::= "off";
    "@typescript-eslint/no-use-before-define" ::= arr[
      "error";
      object ["functions" ::= VBool false; "classes" ::= VBool false; "typedefs" ::= VBool false] ];
    "no-use-before-define" ::= "off";
    "@typescript-eslint/no-var-requires" ::= "error";
    "@typescript-eslint/no-useless-constructor" ::= base.["rules"].["no-useless-constructor"];
    "no-useless-constructor" ::= "off";
    "@typescript-eslint/prefer-as-const" ::= "warn";
    "@typescript-eslint/prefer-function-type" ::= "error";
    "@typescript-eslint/prefer-literal-enum-member" ::= "warn";
    "@typescript-eslint/prefer-nullish-coalescing" ::= arr["error"; object ["ignorePrimitives" ::= VBool true]];
    "@typescript-eslint/prefer-return-this-type" ::= "warn";
    "@typescript-eslint/require-array-sort-compare" ::= "error";
    "@typescript-eslint/return-await" ::= arr["warn"; "always"];
    "require-await" ::= "off";
    "@typescript-eslint/switch-exhaustiveness-check" ::= arr[
      "error";
      object [
        "allowDefaultCaseForExhaustiveSwitch" ::= VBool true;
        "considerDefaultExhaustiveForUnions" ::= VBool true;
        "requireDefaultForNonUnion" ::= VBool true ] ];
    "@typescript-eslint/unbound-method" ::= arr["error"; object ["ignoreStatic" ::= VBool true]];
    "@typescript-eslint/prefer-readonly-parameter-types" ::= "off";
    "@typescript-eslint/no-confusing-void-expression" ::= "off";
    "@typescript-eslint/explicit-function-return-type" ::= arr[
      "warn";
      object [
        "allowExpressions" ::= VBool true;
        "allowHigherOrderFunctions" ::= VBool true;
        "allowConciseArrowFunctionExpressionsStartingWithVoid" ::= VBool true ] ];
    "@typescript-eslint/no-confusing-non-null-assertion" ::= "error";
    "@typescript-eslint/no-empty-function" ::= arr["error"; object ["allow" ::= arr["constructors"]]];
    "no-empty-function" ::= "off";
    "@typescript-eslint/prefer-readonly" ::= "error" ].

Definition config : expr :=
  object [
    "plugins" ::= object [Spread (base.["plugins"]); "@typescript-eslint" ::= ts];
    "languageOptions" ::= object [
      Spread (base.["languageOptions"]);
      "parser" ::= parser;
      "parserOptions" ::= object ["projectService" ::= VBool true] ];
    "settings" ::= object ["import/resolver" ::= object ["typescript" ::= object []]];
    "rules" ::= object rules ].

End Imports.

End EslintConfigTypescript.

(** The legacy TypeScript preset, [src/packages/eslint-config-typescript/index.js].  [base_path] stands for the result of [require.resolve] on the base package. *)
Module EslintConfigTypescriptLegacy.

Section Imports.

Variables (base globs base_path : expr).

(** The [rules] literal of [exports], from line 50. *)
Definition rules : list member :=
  [
    "valid-jsdoc" ::= "off";
    "no-undef" ::= "off";
    "@typescript-eslint/adjacent-overload-signatures" ::= "error";
    "@typescript-eslint/array-type" ::= arr["error"; object ["default" ::= "array-simple"; "readonly" ::= "array-simple"]];
    "@typescript-eslint/await-thenable" ::= "warn";
    "@typescript-eslint/ban-ts-comment" ::= arr[
      "error";
      object [
        "ts-expect-error" ::= "allow-with-description";
        "ts-ignore" ::= "allow-with-description";
        "ts-nocheck" ::= VBool false;
        "ts-check" ::= VBool true ] ];
    "@typescript-eslint/ban-tslint-comment" ::= "warn";
    "@typescript-eslint/class-literal-property-style" ::= arr["error"; "fields"];
    "@typescript-eslint/consistent-indexed-object-style" ::= arr["error"; "record"];
    "@typescript-eslint/consistent-type-assertions" ::= arr["error"; object ["assertionStyle" ::= "as"; "objectLiteralTypeAssertions" ::= "never"]];
    "@typescript-eslint/consistent-type-definitions" ::= arr["error"; "interface"];
    "@typescript-eslint/consistent-type-imports" ::= arr[
      "error";
      object [
        "prefer" ::= "type-imports";
        "fixStyle" ::= "inline-type-imports";
        "disallowTypeAnnotations" ::= VBool true ] ];
    "@typescript-eslint/explicit-function-return-type" ::= arr[
      "error";
      object [
        "allowExpressions" ::= VBool true;
        "allowHigherOrderFunctions" ::= VBool true;
        "allowConciseArrowFunctionExpressionsStartingWithVoid" ::= VBool true ] ];
    "@typescript-eslint/explicit-member-accessibility" ::= arr[
      "error";
      object [
        "accessibility" ::= "no-public";
        "overrides" ::= object ["parameterProperties" ::= "explicit"] ] ];
    "@typescript-eslint/explicit-module-boundary-types" ::= arr[
      "error";
      object [
        "allowArgumentsExplicitlyTypedAsAny" ::= VBool true;
        "allowHigherOrderFunctions" ::= VBool true;
        "allowTypedFunctionExpressions" ::= VBool true ] ];
    "init-declarations" ::= "off";
    "@typescript-eslint/init-declarations" ::= arr["off"];
    "@typescript-eslint/member-ordering" ::= arr[
      "error";
      object [
        "default" ::= arr[
          "static-field";
          "field";
          "constructor";
          "public-static-get";
          "public-static-method";
          "public-get";
          "method";
          "protected-get";
          "private-get";
          "protected-method";
          "private-method" ] ] ];
    "@typescript-eslint/no-array-constructor" ::= base.["rules"].["no-array-constructor"];
    "no-array-constructor" ::= "off";
    "@typescript-eslint/no-base-to-string" ::= "error";
    "@typescript-eslint/no-confusing-non-null-assertion" ::= "error";
    "@typescript-eslint/no-dynamic-delete" ::= "error";
    "@typescript-eslint/no-dupe-class-members" ::= base.["rules"].["no-dupe-class-members"];
    "no-dupe-class-members" ::= "off";
    "@typescript-eslint/no-empty-function" ::= arr["error"; object ["allow" ::= arr["constructors"]]];
    "no-empty-function" ::= "off";
    "@typescript-eslint/no-empty-interface" ::= "error";
    "@typescript-eslint/no-explicit-any" ::= "error";
    "@typescript-eslint/no-extra-semi" ::= base.["rules"].["no-extra-semi"];
    "no-extra-semi" ::= "off";
    "@typescript-eslint/no-extraneous-class" ::= arr[
      "error";
      object ["allowConstructorOnly" ::= VBool true; "allowWithDecorator" ::= VBool true] ];
    "@typescript-eslint/no-floating-promises" ::= arr["error"; object ["ignoreVoid" ::= VBool true]];
    "@typescript-eslint/no-for-in-array" ::= "error";
    "@typescript-eslint/no-implied-eval" ::= base.["rules"].["no-implied-eval"];
    "no-implied-eval" ::= "off";
    "@typescript-eslint/no-inferrable-types" ::= arr["error"; object ["ignoreProperties" ::= VBool true; "ignoreParameters" ::= VBool true]];
    "@typescript-eslint/no-invalid-this" ::= "error";
    "no-invalid-this" ::= "off";
    "@typescript-eslint/no-invalid-void-type" ::= "error";
    "@typescript-eslint/no-loop-func" ::= base.["rules"].["no-loop-func"];
    "no-loop-func" ::= "off";
    "@typescript-eslint/no-loss-of-precision" ::= base.["rules"].["no-loss-of-precision"];
    "no-loss-of-precision" ::= "off";
    "@typescript-eslint/no-misused-new" ::= "error";
    "@typescript-eslint/no-misused-promises" ::= "error";
    "@typescript-eslint/no-namespace" ::= "error";
    "@typescript-eslint/no-non-null-asserted-nullish-coalescing" ::= "error";
    "@typescript-eslint/no-non-null-asserted-optional-chain" ::= "error";
    "@typescript-eslint/no-non-null-assertion" ::= "off";
    "@typescript-eslint/no-parameter-properties" ::= "off";
    "@typescript-eslint/no-redeclare" ::= arr["error"; object ["ignoreDeclarationMerge" ::= VBool true]];
    "no-redeclare" ::= "off";
    "@typescript-eslint/no-redundant-type-constituents" ::= "off";
    "@typescript-eslint/no-require-imports" ::= "error";
    "@typescript-eslint/no-shadow" ::= base.["rules"].["no-shadow"];
    "no-shadow" ::= "off";
    "@typescript-eslint/no-this-alias" ::= arr["error"; object ["allowDestructuring" ::= VBool true]];
    "@typescript-eslint/no-throw-literal" ::= arr[
      base.["rules"].["no-throw-literal"];
      object ["allowThrowingAny" ::= VBool false; "allowThrowingUnknown" ::= VBool true] ];
    "no-throw-literal" ::= "off";
    "@typescript-eslint/no-unnecessary-condition" ::= "warn";
    "@typescript-eslint/no-unnecessary-qualifier" ::= "error";
    "@typescript-eslint/no-unnecessary-type-assertion" ::= "error";
    "@typescript-eslint/no-unnecessary-type-arguments" ::= "warn";
    "@typescript-eslint/no-unnecessary-type-constraint" ::= "error";
    "@typescript-eslint/no-unsafe-assignment" ::= "error";
    "@typescript-eslint/no-unsafe-call" ::= "error";
    "@typescript-eslint/no-unsafe-member-access" ::= "error";
    "@typescript-eslint/no-unsafe-return" ::= "error";
    "@typescript-eslint/triple-slash-reference" ::= arr["error"; object ["path" ::= "never"; "types" ::= "never"; "lib" ::= "always"]];
    "@typescript-eslint/no-unused-expressions" ::= base.["rules"].["no-unused-expressions"];
    "no-unused-expressions" ::= "off";
    "@typescript-eslint/no-unused-vars" ::= base.["rules"].["no-unused-vars"];
    "no-unused-vars" ::= "off";
    "@typescript-eslint/no-use-before-define" ::= "error";
    "no-use-before-define" ::= "off";
    "@typescript-eslint/no-var-requires" ::= "error";
    "@typescript-eslint/no-useless-constructor" ::= base.["rules"].["no-useless-constructor"];
    "no-useless-constructor" ::= "off";
    "@typescript-eslint/no-useless-empty-export" ::= "warn";
    "@typescript-eslint/prefer-as-const" ::= "error";
    "@typescript-eslint/prefer-for-of" ::= "warn";
    "@typescript-eslint/prefer-function-type" ::= "error";
    "@typescript-eslint/prefer-literal-enum-member" ::= "warn";
    "@typescript-eslint/prefer-nullish-coalescing" ::= "error";
    "@typescript-eslint/prefer-namespace-keyword" ::= "error";
    "@typescript-eslint/prefer-readonly" ::= "error";
    "@typescript-eslint/prefer-reduce-type-parameter" ::= "warn";
    "@typescript-eslint/prefer-return-this-type" ::= "warn";
    "@typescript-eslint/promise-function-async" ::= "error";
    "@typescript-eslint/require-array-sort-compare" ::= arr["error"; object ["ignoreStringArrays" ::= VBool true]];
    "@typescript-eslint/require-await" ::= base.["rules"].["require-await"];
    "require-await" ::= "off";
    "@typescript-eslint/restrict-plus-operands" ::= arr["error"; object ["skipCompoundAssignments" ::= VBool false]];
    "@typescript-eslint/restrict-template-expressions" ::= "off";
    "@typescript-eslint/return-await" ::= arr["error"; "always"];
    "@typescript-eslint/switch-exhaustiveness-check" ::= "error";
    "@typescript-eslint/unbound-method" ::= arr["error"; object ["ignoreStatic" ::= VBool true]];
    "@typescript-eslint/prefer-readonly-parameter-types" ::= "off";
    "@typescript-eslint/no-confusing-void-expression" ::= "off";
    "consistent-return" ::= "off" ].

Definition exports : expr :=
  object [
    "extends" ::= base_path;
    "settings" ::= object [
      "import/resolver" ::= object [
        "node" ::= object [
          "extensions" ::= arr[
            ".ts";
            ".tsx";
            ".d.ts";
            ".cts";
            ".mts";
            ".d.cts";
            ".d.mts";
            SpreadItem (base.["settings"].["import/resolver"].["node"].["extensions"]) ] ];
        "typescript" ::= object [] ] ];
    "parser" ::= "@typescript-eslint/parser";
    "parserOptions" ::= object ["ecmaVersion" ::= VNum 2018; "sourceType" ::= "module"];
    "plugins" ::= arr["@typescript-eslint"];
    "env" ::= object ["es6" ::= VBool true];
    "rules" ::= object rules;
    "overrides" ::= arr[
      object ["files" ::= arr["*.d.ts"]; "rules" ::= object ["import/no-unused-modules" ::= "off"]];
      object ["files" ::= globs.["configs"]; "rules" ::= object ["node/no-process-env" ::= "off"]] ] ].

End Imports.

End EslintConfigTypescriptLegacy.

(** The flat configuration of the repository itself (the module at [src/unnamed/part_000]). *)
Module EslintConfig.

Section Imports.

Variables (jsdoc node style : expr).

Definition config : expr :=
  arr[
    object [
      "linterOptions" ::= object ["reportUnusedDisableDirectives" ::= VBool true];
      "ignores" ::= arr["node_modules"; "!.*.js"];
      "languageOptions" ::= object ["globals" ::= object ["console" ::= VBool true; "process" ::= VBool true]] ];
    jsdoc;
    node;
    style;
    object [
      "files" ::= arr["**/*.mjs"];
      "languageOptions" ::= object ["sourceType" ::= "module"];
      "rules" ::= object [
        "import/no-unresolved" ::= "off";
        "unicorn/no-process-exit" ::= "off";
        "unicorn/no-await-expression-member" ::= "off" ] ];
    object [
      "files" ::= arr["**/*.js"; "**/*.cjs"];
      "languageOptions" ::= object ["sourceType" ::= "commonjs"] ] ].

End Imports.

End EslintConfig.

(** The legacy configuration of the repository itself, [src/.eslintrc.js]. *)
Module Eslintrc.

(** The [rules] literal of [exports], from line 12. *)
Definition rules : list member :=
  [
    "no-warning-comments" ::= VNum 0;
    "node/no-unsupported-features/es-syntax" ::= arr["error"; object ["version" ::= ">=20"]];
    "jsdoc/check-values" ::= arr["warn"; object ["allowedLicenses" ::= VBool true]] ].

Definition exports : expr :=
  object [
    "reportUnusedDisableDirectives" ::= VBool true;
    "ignorePatterns" ::= arr["node_modules"; "!.*.js"];
    "extends" ::= arr[
      "./packages/eslint-config-node";
      "./packages/eslint-config-node/optional";
      "./packages/eslint-config-node/style" ];
    "rules" ::= object rules ].

End Eslintrc.
(** ** Rule entries *)

Module Rule.

(** The severities the presets write: ['off'], ['warn'], ['error'], or the
    numbers 0, 1, 2. *)
Inductive Level : Type := Off | Warn | Error.

Definition to_level (v : value) : option Level :=
  match v with
  | VStr "off" | VNum 0 => Some Off
  | VStr "warn" | VNum 1 => Some Warn
  | VStr "error" | VNum 2 => Some Error
  | _ => None
  end.

(** A rule entry is a severity or an array that starts with one. *)
Definition severity (v : value) : option Level :=
  match v with
  | VArr (s :: _) => to_level s
  | _ => to_level v
  end.

Definition on (v : value) : bool :=
  match severity v with
  | Some Warn | Some Error => true
  | _ => false
  end.

Definition is_off (v : value) : bool :=
  match v with
  | VStr "off" => true
  | _ => false
  end.

Fixpoint strip_prefix (p s : string) : option string :=
  match p with
  | EmptyString => Some s
  | String a p' =>
      match s with
      | String b s' => if Ascii.eqb a b then strip_prefix p' s' else None
      | EmptyString => None
      end
  end.

(** The rule of the TypeScript plugin that has the name of a rule of the
    linter. *)
Definition namesake (X : string) : string := "@typescript-eslint/" +:+ X.

(** An entry of a TypeScript preset that reads a setting of the base preset:
    [target: base.rules[source]], or [target: [base.rules[source], options]]
    when the preset adds options of its own. *)
Record reading : Type := Reading {
  source : string;
  target : string;
  options : option value
}.

(** The entry written for a setting read. *)
Definition entry (r : reading) (setting : value) : value :=
  match options r with
  | None => setting
  | Some opts => VArr [setting; opts]
  end.

Definition throwing (any unknown : bool) : value :=
  VObj (<["allowThrowingUnknown" := VBool unknown]> {["allowThrowingAny" := VBool any]}).

(** The entries of the flat TypeScript preset that read the base preset,
    [index.mjs] lines 182, 198, 275, 306, 315, 404, 419-422, 492, 500 and
    523.  The rule that takes over from [no-throw-literal] has another
    name. *)
Definition derived : list reading :=
  [Reading "no-array-constructor" "@typescript-eslint/no-array-constructor" None;
   Reading "no-dupe-class-members" "@typescript-eslint/no-dupe-class-members" None;
   Reading "no-implied-eval" "@typescript-eslint/no-implied-eval" None;
   Reading "no-loop-func" "@typescript-eslint/no-loop-func" None;
   Reading "no-loss-of-precision" "@typescript-eslint/no-loss-of-precision" None;
   Reading "no-shadow" "@typescript-eslint/no-shadow" None;
   Reading "no-throw-literal" "@typescript-eslint/only-throw-error"
     (Some (throwing false false));
   Reading "no-unused-expressions" "@typescript-eslint/no-unused-expressions" None;
   Reading "no-unused-vars" "@typescript-eslint/no-unused-vars" None;
   Reading "no-useless-constructor" "@typescript-eslint/no-useless-constructor" None].

(** The same for the legacy preset, [index.js] lines 195, 214, 234, 267, 289,
    293, 354, 372-378, 429, 435, 452 and 512. *)
Definition derived_legacy : list reading :=
  [Reading "no-array-constructor" "@typescript-eslint/no-array-constructor" None;
   Reading "no-dupe-class-members" "@typescript-eslint/no-dupe-class-members" None;
   Reading "no-extra-semi" "@typescript-eslint/no-extra-semi" None;
   Reading "no-implied-eval" "@typescript-eslint/no-implied-eval" None;
   Reading "no-loop-func" "@typescript-eslint/no-loop-func" None;
   Reading "no-loss-of-precision" "@typescript-eslint/no-loss-of-precision" None;
   Reading "no-shadow" "@typescript-eslint/no-shadow" None;
   Reading "no-throw-literal" "@typescript-eslint/no-throw-literal"
     (Some (throwing false true));
   Reading "no-unused-expressions" "@typescript-eslint/no-unused-expressions" None;
   Reading "no-unused-vars" "@typescript-eslint/no-unused-vars" None;
   Reading "no-useless-constructor" "@typescript-eslint/no-useless-constructor" None;
   Reading "require-await" "@typescript-eslint/require-await" None].

(** The rules of the plugin that stand in for the rule [X] of the linter in
    a preset with the readings [rs]: the namesake of [X], and the rules to
    which the preset gives the setting it reads for [X]. *)
Definition counterparts (rs : list reading) (X : string) : list string :=
  namesake X :: omap (λ r, if decide (source r = X) then Some (target r) else None) rs.

(** The rules of the linter that the rule [Y] of the plugin stands in for. *)
Definition originals (rs : list reading) (Y : string) : list string :=
  option_list (strip_prefix "@typescript-eslint/" Y)
    ++ omap (λ r, if decide (target r = Y) then Some (source r) else None) rs.

(** Every rule of the linter that has an entry of its own in [m] and a
    counterpart among the entries of [m] is off there, and the counterpart
    satisfies [ok]. *)
Definition superseded_off (rs : list reading) (ok : value → bool) (m : gmap string value)
  : bool :=
  forallb (λ kv : string * value,
             forallb (λ X, match m !! X with
                           | Some s => is_off s && ok kv.2
                           | None => true
                           end)
                     (originals rs kv.1))
          (map_to_list m).

End Rule.
(** ** File patterns *)

Module Glob.

Local Open Scope char_scope.

(** Modelled from the spec: the glob matcher of section 4.1, which the
    repository leaves to the host linter (the sources only list patterns).
    [*] matches any run of characters except the path separator, [**] matches
    across path separators, [?] matches one character, [[...]] a character
    class and [{a,b}] alternatives; a [**/] at the start of a path component
    matches at any depth, everything else is matched from the root of the
    path.  As in shell globbing [?] and a class do not match the separator. *)
Inductive glob : Type :=
| Empty
| Lit (c : ascii)
| AnyChar
| Star
| GlobStar
| Dirs
| Class (negated : bool) (ranges : list (ascii * ascii))
| Seq (g1 g2 : glob)
| Alt (g1 g2 : glob).

Definition is_sep (c : ascii) : bool := bool_decide (c = "/").

Fixpoint star (k : list ascii → bool) (s : list ascii) : bool :=
  k s || match s with
         | c :: s' => negb (is_sep c) && star k s'
         | [] => false
         end.

Fixpoint globstar (k : list ascii → bool) (s : list ascii) : bool :=
  k s || match s with
         | _ :: s' => globstar k s'
         | [] => false
         end.

(** Zero or more whole directories: the skipped prefix is empty or ends with
    a separator. *)
Fixpoint dirs (k : list ascii → bool) (boundary : bool) (s : list ascii) : bool :=
  (boundary && k s) || match s with
                       | c :: s' => dirs k (is_sep c) s'
                       | [] => false
                       end.

Definition in_range (c : ascii) (r : ascii * ascii) : bool :=
  (N_of_ascii r.1 <=? N_of_ascii c)%N && (N_of_ascii c <=? N_of_ascii r.2)%N.

Definition in_class (negated : bool) (ranges : list (ascii * ascii)) (c : ascii) : bool :=
  negb (is_sep c) && xorb negated (existsb (in_range c) ranges).

(** [run g k s]: some prefix of [s] matches [g] and [k] accepts the rest. *)
Fixpoint run (g : glob) (k : list ascii → bool) (s : list ascii) : bool :=
  match g with
  | Empty => k s
  | Lit c =>
      match s with
      | c' :: s' => bool_decide (c = c') && k s'
      | [] => false
      end
  | AnyChar =>
      match s with
      | c' :: s' => negb (is_sep c') && k s'
      | [] => false
      end
  | Star => star k s
  | GlobStar => globstar k s
  | Dirs => dirs k true s
  | Class negated ranges =>
      match s with
      | c' :: s' => in_class negated ranges c' && k s'
      | [] => false
      end
  | Seq g1 g2 => run g1 (run g2 k) s
  | Alt g1 g2 => run g1 k s || run g2 k s
  end.

Definition at_end (s : list ascii) : bool :=
  match s with
  | [] => true
  | _ => false
  end.

Definition glob_matches (g : glob) (path : string) : bool :=
  run g at_end (String.list_ascii_of_string path).

(** *** Reading a pattern *)

Fixpoint ranges_of (cs : list ascii) : list (ascii * ascii) :=
  match cs with
  | a :: "-" :: b :: rest => (a, b) :: ranges_of rest
  | a :: rest => (a, a) :: ranges_of rest
  | [] => []
  end.

Definition class_of (body : list ascii) : glob :=
  match body with
  | "!" :: cs | "^" :: cs => Class true (ranges_of cs)
  | cs => Class false (ranges_of cs)
  end.

Fixpoint alt_of (gs : list glob) : glob :=
  match gs with
  | [] => Empty
  | [g] => g
  | g :: gs' => Alt g (alt_of gs')
  end.

(** An open brace group: the sequence read before it and the alternatives
    completed so far, last first.  [opened] tells that a path component
    starts where the group opens, so that each alternative starts one;
    [closed] that every alternative completed so far ends where a path
    component starts. *)
Record frame : Type := Frame {
  outer : glob;
  alts : list glob;
  opened : bool;
  closed : bool
}.

(** The reader's state: [cls] holds the characters of an open class, last
    first; [stars] counts the asterisks just read (at most two are kept);
    [boundary] tells that a path component started before them; [cur] is the
    sequence read so far at this nesting depth, [stack] the open brace
    groups. *)
Record state : Type := State {
  cls : option (list ascii);
  boundary : bool;
  stars : nat;
  cur : glob;
  stack : list frame
}.

Definition start : state := State None true 0 Empty [].

(** The asterisks read before an ordinary character or the end. *)
Definition flush (n : nat) (g : glob) : glob :=
  match n with
  | 0 => g
  | 1 => Seq g Star
  | _ => Seq g GlobStar
  end.

(** An ordinary character, the pending asterisks already flushed; [b] tells
    that a path component starts before the character.  A comma of a brace
    group starts the next alternative where the group opened; after the
    group a path component starts when it does after every alternative. *)
Definition ordinary (b : bool) (g : glob) (st : list frame) (c : ascii) : option state :=
  if bool_decide (c = "?") then Some (State None false 0 (Seq g AnyChar) st)
  else if bool_decide (c = "[") then Some (State (Some []) false 0 g st)
  else if bool_decide (c = "{") then Some (State None b 0 Empty (Frame g [] b true :: st))
  else if bool_decide (c = ",") then
    match st with
    | [] => Some (State None false 0 (Seq g (Lit c)) st)
    | Frame o gs op cl :: st' =>
        Some (State None op 0 Empty (Frame o (g :: gs) op (cl && b) :: st'))
    end
  else if bool_decide (c = "}") then
    match st with
    | [] => None
    | Frame o gs op cl :: st' =>
        Some (State None (cl && b) 0 (Seq o (alt_of (rev (g :: gs)))) st')
    end
  else Some (State None (is_sep c) 0 (Seq g (Lit c)) st).

Definition step (s : state) (c : ascii) : option state :=
  match cls s with
  | Some body =>
      if bool_decide (c = "]")
      then Some (State None false 0 (Seq (cur s) (class_of (rev body))) (stack s))
      else Some (State (Some (c :: body)) false 0 (cur s) (stack s))
  | None =>
      if bool_decide (c = "*")
      then Some (State None (boundary s) (Nat.min 2 (S (stars s))) (cur s) (stack s))
      else if is_sep c && boundary s && bool_decide (stars s = 2)
      then Some (State None true 0 (Seq (cur s) Dirs) (stack s))
      else ordinary (bool_decide (stars s = 0) && boundary s)
                    (flush (stars s) (cur s)) (stack s) c
  end.

(** A pattern with an unclosed class or unbalanced braces has no reading (the
    spec's [PatternSyntaxError]). *)
Definition finish (s : state) : option glob :=
  match cls s, stack s with
  | None, [] => Some (flush (stars s) (cur s))
  | _, _ => None
  end.

Definition read (cs : list ascii) (s : state) : option state :=
  foldl (λ acc c, s' ← acc; step s' c) (Some s) cs.

Definition parse (pattern : string) : option glob :=
  read (String.list_ascii_of_string pattern) start ≫= finish.

(** [graft p g] puts [p] in front of the sequence [g]. *)
Fixpoint graft (p g : glob) : glob :=
  match g with
  | Empty => p
  | Seq g1 g2 => Seq (graft p g1) g2
  | _ => Seq p g
  end.

Fixpoint graft_stack (p : glob) (st : list frame) : list frame :=
  match st with
  | [] => []
  | [Frame o gs op cl] => [Frame (graft p o) gs op cl]
  | f :: st' => f :: graft_stack p st'
  end.

Definition graft_state (p : glob) (s : state) : state :=
  match stack s with
  | [] => State (cls s) (boundary s) (stars s) (graft p (cur s)) []
  | st => State (cls s) (boundary s) (stars s) (cur s) (graft_stack p st)
  end.

(** Modelled from the spec: the predicate [matches(path, pattern)] of section
    4.1, missing from the sources.  A pattern without reading gives no
    answer: [None] is the [PatternSyntaxError] of section 7, which is never
    taken for a pattern that does not match. *)
Definition matches (path pattern : string) : option bool :=
  (λ g, glob_matches g path) <$> parse pattern.

(** A path lies at the root when it has no separator. *)
Definition root_level (path : string) : bool :=
  forallb (λ c, negb (is_sep c)) (String.list_ascii_of_string path).

(** The patterns that never leave the root: no separator, no [**]. *)
Fixpoint flat (g : glob) : bool :=
  match g with
  | Empty | AnyChar | Star | Class _ _ => true
  | Lit c => negb (is_sep c)
  | GlobStar | Dirs => false
  | Seq g1 g2 | Alt g1 g2 => flat g1 && flat g2
  end.

(** The characters of a pattern made of plain characters only. *)
Fixpoint literal (g : glob) : option (list ascii) :=
  match g with
  | Empty => Some []
  | Lit c => Some [c]
  | Seq g1 g2 => cs1 ← literal g1; cs2 ← literal g2; Some (cs1 ++ cs2)
  | _ => None
  end.

(** The plain characters a pattern starts with, up to its first wildcard,
    class or group: [test/] for [test/**], nothing for [*config.*]. *)
Fixpoint anchor (g : glob) : list ascii :=
  match g with
  | Lit c => [c]
  | Seq g1 g2 =>
      match literal g1 with
      | Some cs => cs ++ anchor g2
      | None => anchor g1
      end
  | _ => []
  end.

(** *** Ignore lists *)



End Glob.
(** ** The composer *)

Module Composer.

Import Glob Rule.

(** Modelled from the spec: the data model of section 3 ([RuleSetting],
    [ConfigLayer], [OverrideBlock], [EffectiveConfig]).  The repository has
    no composer of its own: the presets are merged by the object spreads
    embedded above, and what is scoped to files is left to the host linter. *)
Inductive RuleSetting : Type :=
| Bare (l : Level)
| WithOptions (l : Level) (payload : value).

Record ConfigLayer : Type := Layer {
  layer_name : string;
  layer_rules : gmap string RuleSetting;
  layer_plugins : gset string;
  layer_settings : gmap string value;
  layer_languageOptions : gmap string value
}.

Record OverrideBlock : Type := Block {
  patterns : list glob;
  block_rules : gmap string RuleSetting
}.

Record EffectiveConfig : Type := Effective {
  rules : gmap string RuleSetting;
  plugins : gset string;
  settings : gmap string value;
  languageOptions : gmap string value
}.

(** Step 1: the empty accumulator. *)
Definition initial : EffectiveConfig := Effective ∅ ∅ ∅ ∅.

Definition globals_of (options : gmap string value) : gmap string value :=
  match options !! "globals" with
  | Some g => own g
  | None => ∅
  end.

(** Step 2c for [languageOptions]: top-level keys are overwritten, the
    [globals] mapping is united key by key, later entries winning. *)
Definition merge_languageOptions (acc new : gmap string value) : gmap string value :=
  match acc !! "globals", new !! "globals" with
  | Some a, Some n => <["globals" := VObj (own n ∪ own a)]> (new ∪ acc)
  | _, _ => new ∪ acc
  end.

(** Step 2 for one layer. *)
Definition apply_layer (acc : EffectiveConfig) (l : ConfigLayer) : EffectiveConfig :=
  {| rules := layer_rules l ∪ rules acc;
     plugins := plugins acc ∪ layer_plugins l;
     settings := layer_settings l ∪ settings acc;
     languageOptions := merge_languageOptions (languageOptions acc) (layer_languageOptions l) |}.

Definition applies (b : OverrideBlock) (path : string) : bool :=
  existsb (λ g, glob_matches g path) (patterns b).

(** Step 3 for one override block. *)
Definition apply_override (path : string) (acc : EffectiveConfig) (b : OverrideBlock)
  : EffectiveConfig :=
  if applies b path
  then {| rules := block_rules b ∪ rules acc;
          plugins := plugins acc;
          settings := settings acc;
          languageOptions := languageOptions acc |}
  else acc.

(** The parser a mapping of language options names. *)
Definition parser_of (options : gmap string value) : option string :=
  match options !! "parser" with
  | Some (VStr p) => Some p
  | _ => None
  end.

(** What the host asks for when two layers name different parsers. *)
Inductive ParserPolicy : Type := LastWins | SingleParser.

Inductive error : Type := ConfigConflict.

Inductive result : Type :=
| Ok (config : EffectiveConfig)
| Failed (e : error).

Definition conflicts (acc : EffectiveConfig) (l : ConfigLayer) : bool :=
  match parser_of (languageOptions acc), parser_of (layer_languageOptions l) with
  | Some p, Some q => bool_decide (p ≠ q)
  | _, _ => false
  end.

Definition enforced (policy : ParserPolicy) : bool :=
  match policy with
  | SingleParser => true
  | LastWins => false
  end.

(** One layer, aborting on a conflict of parsers under [SingleParser]. *)
Definition add_layer (policy : ParserPolicy) (acc : result) (l : ConfigLayer) : result :=
  match acc with
  | Failed e => Failed e
  | Ok c => if enforced policy && conflicts c l then Failed ConfigConflict else Ok (apply_layer c l)
  end.

(** Modelled from the spec: the operation [compose] of section 4.1, missing
    from the sources.  Steps 1 to 4 of the algorithm: the layers in listed
    order, then the override blocks that apply to the file; the composition
    fails with [ConfigConflict] as the paragraph on errors says. *)
Definition compose (policy : ParserPolicy) (layers : list ConfigLayer)
    (overrides : list OverrideBlock) (filePath : string) : result :=
  match foldl (add_layer policy) (Ok initial) layers with
  | Failed e => Failed e
  | Ok c => Ok (foldl (apply_override filePath) c overrides)
  end.

(** Two layers, the second later in the list, name different parsers. *)
Definition parser_clash (ls : list ConfigLayer) : Prop :=
  ∃ i j li lj p q,
    i < j ∧ ls !! i = Some li ∧ ls !! j = Some lj ∧
    parser_of (layer_languageOptions li) = Some p ∧
    parser_of (layer_languageOptions lj) = Some q ∧ p ≠ q.

(** Modelled from the spec: steps 1 to 4 without the check of parsers. *)
Definition merged (layers : list ConfigLayer) (overrides : list OverrideBlock)
    (filePath : string) : EffectiveConfig :=
  foldl (apply_override filePath) (foldl apply_layer initial layers) overrides.

(** *** Reading the presets as layers *)

(** A rule entry of a preset: a severity, or an array of a severity and
    options. *)
Definition to_setting (v : value) : option RuleSetting :=
  match v with
  | VArr (s :: options) => l ← to_level s; Some (WithOptions l (VArr options))
  | _ => Bare <$> to_level v
  end.

(** Plugins are the keys of an object (flat presets) or the names in an array
    (legacy presets). *)
Definition plugin_ids (v : value) : gset string :=
  match v with
  | VArr _ => list_to_set (strings v)
  | _ => dom (own v)
  end.

(** Entries that are not rule settings are left out. *)
Definition layer_of (name : string) (preset : value) : ConfigLayer :=
  {| layer_name := name;
     layer_rules := omap to_setting (own (field preset "rules"));
     layer_plugins := plugin_ids (field preset "plugins");
     layer_settings := own (field preset "settings");
     layer_languageOptions := own (field preset "languageOptions") |}.

(** A file-scoped entry as an override block; [None] when a pattern has no
    reading. *)
Definition block_of (entry : value) : option OverrideBlock :=
  gs ← mapM parse (strings (field entry "files"));
  Some {| patterns := gs; block_rules := omap to_setting (own (field entry "rules")) |}.

End Composer.

(** ** A concrete environment *)

(** Stand-ins for the third-party packages the presets import, to evaluate
    the presets on a concrete input; the presets of the repository are the
    embedded ones. *)
Module Sample.

Definition plugin (name : string) : expr := object ["meta" ::= object ["name" ::= name]].

Definition globals : expr :=
  object [
    "builtin" ::= object ["Array" ::= VBool false; "Promise" ::= VBool false];
    "node" ::= object ["process" ::= VBool false; "Buffer" ::= VBool false; "Array" ::= VBool true] ].

Definition jsdoc : expr :=
  object [
    "configs" ::= object [
      "flat/recommended" ::= object [
        "rules" ::= object ["jsdoc/require-jsdoc" ::= "warn"; "jsdoc/check-types" ::= "warn"] ] ] ].

Definition parser : expr := "@typescript-eslint/parser".

Definition base : expr :=
  EslintConfigBase.config (plugin "@stylistic") (plugin "import") (plugin "unicorn") globals.

Definition base_style : expr :=
  EslintConfigBaseStyle.config (plugin "@stylistic") (plugin "import") (plugin "unicorn").

Definition base_jsdoc : expr := EslintConfigBaseJsdoc.config jsdoc.

Definition node : expr := EslintConfigNode.config base (plugin "n") globals.

Definition node_style : expr := EslintConfigNodeStyle.config base_style.

Definition typescript : expr :=
  EslintConfigTypescript.config base (plugin "@typescript-eslint") parser.

(** A legacy base preset, which is not among the sources. *)
Definition legacy_base : expr :=
  object [
    "settings" ::= object [
      "import/resolver" ::= object ["node" ::= object ["extensions" ::= arr[".js"; ".json"]]] ];
    "rules" ::= object ["no-shadow" ::= "warn"; "require-await" ::= "error"] ].

Definition typescript_legacy : expr :=
  EslintConfigTypescriptLegacy.exports legacy_base Globs.exports
    "/node_modules/@stimulcross/eslint-config-base/index.js".

Definition root : expr := EslintConfig.config base_jsdoc node node_style.

(** The value of an expression that does not throw. *)
Definition the (e : expr) : value := default VUndefined e.

Definition succeeds (e : expr) : bool :=
  match e with
  | Some _ => true
  | None => false
  end.

(** The scenario of override gating: a layer that sets a rule to an error,
    and a block that turns it off for test files. *)
Definition strict_layer : Composer.ConfigLayer :=
  Composer.Layer "strict" {["no-console" := Composer.Bare Rule.Error]} ∅ ∅ ∅.

Definition test_block : Composer.OverrideBlock :=
  Composer.Block (omap Glob.parse ["*.test.*"]) {["no-console" := Composer.Bare Rule.Off]}.

(** Two layers that name different parsers. *)
Definition espree_layer : Composer.ConfigLayer :=
  Composer.Layer "espree" ∅ ∅ ∅ {["parser" := VStr "espree"]}.

Definition typescript_layer : Composer.ConfigLayer :=
  Composer.layer_of "typescript" (the typescript).

(** The override blocks of the legacy TypeScript preset. *)
Definition legacy_blocks : list Composer.OverrideBlock :=
  omap Composer.block_of (default [] (iter (field (the typescript_legacy) "overrides"))).

(** The repository's own flat configuration: its entries without [files]
    as layers, those with [files] as override blocks. *)
Definition root_entries : list value := default [] (iter (the root)).

Definition scoped (entry : value) : bool :=
  match own entry !! "files" with
  | Some _ => true
  | None => false
  end.

Definition root_layers : list Composer.ConfigLayer :=
  Composer.layer_of "entry" <$> filter (λ entry, negb (scoped entry)) root_entries.

Definition root_blocks : list Composer.OverrideBlock :=
  omap Composer.block_of (filter (λ entry, scoped entry) root_entries).


End Sample.

(** ** The release script *)

(** [src/publish.mjs] runs commands one after the other and stops at the
    first one that fails.  Its effects are those of the host: starting a
    child process, reading the output of a command, writing to the console,
    ending the process.  A run is described by the events it produces, in
    order, and by the way it ends; what the host answers to a command may
    depend on everything that happened before. *)
Module Publish.

(** What a child process started by [spawn] reports: the code of its [exit]
    event, which is [null] ([None]) when a signal ended the child; or an
    [error] event when the child could not be started, for which the script
    registers no listener. *)
Inductive child : Type :=
| Exit (code : option Z)
| SpawnError.

(** The events of a run.  [Execed] carries the standard output of the
    command, or [None] when the promise of [exec] is rejected. *)
Inductive event : Type :=
| Spawned (cmd : string) (args : list string) (answer : child)
| Execed (cmdline : string) (stdout : option string)
| Logged (v : value)
| Errored (msg : string).

(** The host: [process.platform], [process.argv], the answers of
    [child_process] given the events so far, and [String.prototype.trimEnd]. *)
Record Host : Type := {
  platform : string;
  argv : list string;
  spawn_answer : list event → string → list string → child;
  exec_answer : list event → string → option string;
  trimEnd : string → string }.

(** A run ends when the module has been evaluated to its end, when
    [process.exit] is called, or with an uncaught exception. *)
Inductive outcome (A : Type) : Type :=
| Done (a : A)
| Exited (code : Z)
| Thrown.

Arguments Done {A} a.
Arguments Exited {A} code.
Arguments Thrown {A}.

(** A computation of the script extends the events so far. *)
Definition script (A : Type) : Type := list event → list event * outcome A.

#[export] Instance script_ret : MRet script := λ A a t, (t, Done a).

#[export] Instance script_bind : MBind script := λ A B f m t,
  match m t with
  | (t', Done a) => f a t'
  | (t', Exited code) => (t', Exited code)
  | (t', Thrown) => (t', Thrown)
  end.

Definition console_log (v : value) : script unit := λ t, (t ++ [Logged v], Done tt).

Definition console_error (msg : string) : script unit := λ t, (t ++ [Errored msg], Done tt).

Definition process_exit {A : Type} (code : Z) : script A := λ t, (t, Exited code).

(** [if (code)]: a number other than zero. *)
Definition truthy (code : option Z) : bool :=
  match code with
  | Some n => negb (n =? 0)%Z
  | None => false
  end.

(** [${code}]; the exit codes of processes are small integers. *)
Definition show (code : option Z) : string :=
  match code with
  | Some n => pretty n
  | None => "null"
  end.

(** A string between double quotes. *)
Definition quoted (s : string) : string := String "034" (s +:+ String "034" EmptyString).

(** The three commands whose output the script compares, lines 30-32. *)
Definition local_rev : string := "git rev-parse " +:+ quoted "@".

Definition remote_rev : string := "git rev-parse " +:+ quoted "@{u}".

Definition merge_base : string := "git merge-base " +:+ quoted "@" +:+ " " +:+ quoted "@{u}".

Section Script.

Variable h : Host.

(** [spawn(cmd, args, { stdio: 'inherit' })] followed by the [exit] event of
    the child: the code its listener receives. *)
Definition spawn (cmd : string) (args : list string) : script (option Z) := λ t,
  let answer := spawn_answer h t cmd args in
  (t ++ [Spawned cmd args answer],
   match answer with
   | Exit code => Done code
   | SpawnError => Thrown
   end).

(** [(await exec(cmdline)).stdout], [exec] being [util.promisify(_exec)]. *)
Definition exec (cmdline : string) : script string := λ t,
  let answer := exec_answer h t cmdline in
  (t ++ [Execed cmdline answer],
   match answer with
   | Some stdout => Done stdout
   | None => Thrown
   end).

(** The message of line 20. *)
Definition exit_message (code : option Z) (cmd : string) (args : list string) : string :=
  "subprocess exited with code " +:+ show code +:+ "; cmdline: "
    +:+ String.concat " " (cmd :: args).

(** Lines 13-27. *)
Definition runAndPassOutput (cmd : string) (args : list string) : script unit :=
  code ← spawn cmd args;
  if truthy code
  then console_error (exit_message code cmd args);; process_exit 1
  else mret tt.

(** Lines 8-11. *)
Definition runYarn (args : list string) : script unit :=
  let isWindows := String.prefix "win" (platform h) in
  runAndPassOutput (if isWindows then "yarn.cmd" else "yarn") args.

Definition out_of_date : string := "Your local repository is out of date; please pull".

(** The arguments of line 45, for a version type. *)
Definition version_args (versionType : string) : list string :=
  ["lerna"; "version"; "--no-push"; "--no-commit-hooks"; "--force-publish"; "--preid"; "pre";
   versionType; "-m"; "build: release version %v"].

(** The statements of the module, lines 29-60. *)
Definition main : script unit :=
  runAndPassOutput "git" ["remote"; "update"];;
  localOut ← exec local_rev;
  let localRev := trimEnd h localOut in
  remoteOut ← exec remote_rev;
  let remoteRev := trimEnd h remoteOut in
  baseOut ← exec merge_base;
  let baseRev := trimEnd h baseOut in
  (if negb (String.eqb localRev remoteRev) && negb (String.eqb remoteRev baseRev)
   then
     console_log (VObj (<["baseRev" := VStr baseRev]>
                          (<["remoteRev" := VStr remoteRev]> {["localRev" := VStr localRev]})));;
     console_error out_of_date;;
     process_exit 1
   else mret tt);;
  runYarn ["lint"];;
  runYarn ["format:check"];;
  let versionType := default "patch" (argv h !! 2%nat) in
  runYarn (version_args versionType);;
  if String.prefix "pre" versionType
  then runYarn ["lerna"; "publish"; "from-package"; "--dist-tag"; "next"]
  else runYarn ["lerna"; "publish"; "from-package"].

(** A whole run: the events and the end of the script started with no event
    behind it. *)
Definition run : list event * outcome unit := main [].

End Script.

(** A command the host reports as failed: a child with an exit code other
    than zero, a child that did not start, a rejected [exec]. *)
Definition failed (e : event) : bool :=
  match e with
  | Spawned _ _ (Exit code) => truthy code
  | Spawned _ _ SpawnError => true
  | Execed _ None => true
  | _ => false
  end.

End Publish.

(** Hosts to run the release script on. *)
Module SampleHost.

Import Publish.

Definition is_space (c : ascii) : bool :=
  match c with
  | " "%char | "009"%char | "010"%char | "011"%char | "012"%char | "013"%char => true
  | _ => false
  end.

(** [trimEnd] on strings of ASCII characters. *)
Fixpoint trim_end (s : string) : string :=
  match s with
  | EmptyString => EmptyString
  | String c s' =>
      match trim_end s' with
      | EmptyString => if is_space c then EmptyString else String c EmptyString
      | rest => String c rest
      end
  end.

Definition newline : string := String "010" EmptyString.

(** A host on which every command succeeds and the local revision is the
    remote one. *)
Definition clean : Host :=
  {| platform := "linux";
     argv := ["node"; "publish.mjs"];
     spawn_answer := λ _ _ _, Exit (Some 0%Z);
     exec_answer := λ _ _, Some ("4f2a9c1" +:+ newline);
     trimEnd := trim_end |}.

(** A host whose remote branch has commits the local one lacks. *)
Definition behind : Host :=
  {| platform := "linux";
     argv := ["node"; "publish.mjs"];
     spawn_answer := λ _ _ _, Exit (Some 0%Z);
     exec_answer := λ _ cmdline,
       Some (if String.eqb cmdline remote_rev then "9d01b7e" +:+ newline
             else "4f2a9c1" +:+ newline);
     trimEnd := trim_end |}.

(** A Windows host on which the linter reports errors, asked for a
    prerelease. *)
Definition lint_fails : Host :=
  {| platform := "win32";
     argv := ["node"; "publish.mjs"; "prerelease"];
     spawn_answer := λ _ _ args,
       if decide (args = ["lint"]) then Exit (Some 2%Z) else Exit (Some 0%Z);
     exec_answer := λ _ _, Some ("4f2a9c1" +:+ newline);
     trimEnd := trim_end |}.

(** A host on which a signal ends every child, asked for a prerelease. *)
Definition signalled : Host :=
  {| platform := "darwin";
     argv := ["node"; "publish.mjs"; "preminor"];
     spawn_answer := λ _ _ _, Exit None;
     exec_answer := λ _ _, Some ("4f2a9c1" +:+ newline);
     trimEnd := trim_end |}.

End SampleHost.
(** * Properties *)

(** ** Object literals *)

Section ObjectLiterals.

Implicit Types (ms : list member) (m : member) (o acc : gmap string value).
Implicit Types (k : string) (v : value) (e : expr).

Lemma define_None ms : foldl define None ms = None.
Proof. induction ms as [|m ms IH]; [done | apply IH]. Qed.

Lemma define_lookup acc m o k :
  define (Some acc) m = Some o → o !! k = step_def k (acc !! k) m.
Proof.
  unfold step_def. destruct m as [k' e|e]; simpl.
  - destruct e as [v|]; simpl; [|done]. intros [= <-].
    rewrite lookup_insert. destruct (decide (k' = k)) as [->|]; by simplify_option_eq.
  - destruct e as [v|]; simpl; [|done]. intros [= <-].
    rewrite lookup_union. destruct (own v !! k), (acc !! k); done.
Qed.

Lemma define_defined acc m o : define (Some acc) m = Some o → defined m.
Proof. destruct m as [k e|e]; simpl; destruct e; simpl; intros; by eauto. Qed.

Lemma define_total acc m : defined m → is_Some (define (Some acc) m).
Proof. destruct m as [k e|e]; simpl; intros [v ->]; simpl; eauto. Qed.

Lemma foldl_define_lookup ms acc o k :
  foldl define (Some acc) ms = Some o →
  o !! k = foldl (step_def k) (acc !! k) ms.
Proof.
  revert acc. induction ms as [|m ms IH]; intros acc; cbn [foldl].
  - by intros [= ->].
  - destruct (define (Some acc) m) as [acc'|] eqn:Hm.
    + intros Ho. rewrite (IH _ Ho). by rewrite (define_lookup _ _ _ _ Hm).
    + by rewrite define_None.
Qed.

(** The value of a key in an object literal is the one its last defining
    member gives it. *)
Lemma obj_lit_lookup ms o k : obj_lit ms = Some o → o !! k = last_def k ms.
Proof.
  intros Ho. rewrite (foldl_define_lookup _ _ _ k Ho). by rewrite lookup_empty.
Qed.

Lemma obj_lit_defined ms o : obj_lit ms = Some o → Forall defined ms.
Proof.
  unfold obj_lit. generalize (∅ : gmap string value). induction ms as [|m ms IH]; intros acc; cbn [foldl].
  - constructor.
  - destruct (define (Some acc) m) as [acc'|] eqn:Hm.
    + intros Ho. constructor; [by eapply define_defined | by eapply IH].
    + by rewrite define_None.
Qed.

(** An object literal whose member expressions do not throw has a value. *)
Lemma obj_lit_total ms : Forall defined ms → is_Some (obj_lit ms).
Proof.
  unfold obj_lit. generalize (∅ : gmap string value). induction ms as [|m ms IH]; intros acc; cbn [foldl].
  - eauto.
  - intros [Hm Hms]%Forall_cons. destruct (define_total acc m Hm) as [acc' ->]. by apply IH.
Qed.

Lemma foldl_step_def_app k prev ms1 ms2 :
  foldl (step_def k) prev (ms1 ++ ms2) = foldl (step_def k) (foldl (step_def k) prev ms1) ms2.
Proof. apply foldl_app. Qed.

Lemma foldl_step_def_silent k prev ms :
  Forall (λ m, writes k m = None) ms → foldl (step_def k) prev ms = prev.
Proof.
  revert prev. induction ms as [|m ms IH]; intros prev; cbn [foldl]; [done|].
  intros [Hm Hms]%Forall_cons. rewrite IH; [|done]. unfold step_def. by rewrite Hm.
Qed.

Lemma last_def_last k ms1 m ms2 v :
  writes k m = Some v → Forall (λ m', writes k m' = None) ms2 →
  last_def k (ms1 ++ m :: ms2) = Some v.
Proof.
  intros Hm Hms. unfold last_def.
  rewrite foldl_step_def_app. cbn [foldl]. rewrite foldl_step_def_silent; [|done].
  unfold step_def. by rewrite Hm.
Qed.

Lemma last_def_None k ms :
  Forall (λ m, writes k m = None) ms → last_def k ms = None.
Proof. intros H. unfold last_def. by apply foldl_step_def_silent. Qed.

End ObjectLiterals.

(** ** Reading the presets *)

Section PresetFacts.

Implicit Types (ms : list member) (m : member) (o : gmap string value).
Implicit Types (k : string) (v : value) (e : expr).

Lemma object_Some ms v : object ms = Some v → ∃ o, obj_lit ms = Some o ∧ v = VObj o.
Proof. unfold object. destruct (obj_lit ms) as [o|]; [|done]. intros [= <-]. eauto. Qed.

Lemma prop_Some b k v : prop b k = Some v → v = field b k.
Proof. unfold prop, field. destruct b; by intros [= <-]. Qed.

Lemma get_Some e k v : e.[k] = Some v → ∃ b, e = Some b ∧ v = field b k.
Proof. destruct e as [b|]; [|done]. cbn. intros ?%prop_Some. eauto. Qed.

Lemma foldl_step_def_prev k prev ms :
  foldl (step_def k) prev ms = match last_def k ms with Some v => Some v | None => prev end.
Proof.
  unfold last_def. revert prev. induction ms as [|m ms IH]; intros prev; cbn [foldl]; [done|].
  rewrite IH, (IH (step_def k None m)). unfold step_def.
  destruct (foldl _ None ms), (writes k m); done.
Qed.

Lemma last_def_cons k m ms :
  last_def k (m :: ms) = match last_def k ms with Some v => Some v | None => writes k m end.
Proof.
  unfold last_def at 1. cbn [foldl]. rewrite foldl_step_def_prev.
  unfold step_def. by destruct (writes k m).
Qed.

Lemma writes_other k k' e : k' ≠ k → writes k (Field k' e) = None.
Proof. intros. cbn. by case_decide. Qed.

Lemma writes_same k e : writes k (Field k e) = e.
Proof. cbn. by case_decide. Qed.

(** The member that defines [k] last gives the property its value. *)
Lemma obj_lit_field ms1 k e ms2 o :
  obj_lit (ms1 ++ Field k e :: ms2) = Some o →
  Forall (λ m, writes k m = None) ms2 →
  ∃ v, e = Some v ∧ o !! k = Some v.
Proof.
  intros Ho Hms. pose proof (obj_lit_defined _ _ Ho) as Hdef.
  apply Forall_app in Hdef as [_ [[v ->] _]%Forall_cons]. exists v. split; [done|].
  rewrite (obj_lit_lookup _ _ k Ho). apply last_def_last; [apply writes_same | done].
Qed.

Lemma the_Some e : Sample.succeeds e = true → e = Some (Sample.the e).
Proof. by destruct e. Qed.

Lemma succeeds_is_Some e : Sample.succeeds e = true → is_Some e.
Proof. destruct e; [eauto | done]. Qed.

Lemma field_VObj o k v : o !! k = Some v → field (VObj o) k = v.
Proof. unfold field. cbn. by intros ->. Qed.

End PresetFacts.

(** Discharges that none of the listed members writes a key. *)
Ltac silent :=
  repeat first [ apply Forall_nil_2 | apply Forall_cons_2; [by apply writes_other|] ].

Section Presets.

(** The [rules] of the TypeScript preset are the value of its [rules]
    literal. *)
Lemma typescript_rules base ts parser cfg :
  EslintConfigTypescript.config base ts parser = Some cfg →
  ∃ o, obj_lit (EslintConfigTypescript.rules base) = Some o ∧ field cfg "rules" = VObj o.
Proof.
  intros (top & Htop & ->)%object_Some.
  destruct (obj_lit_field [_; _; _] "rules" _ [] _ Htop ltac:(silent)) as (v & Hv & Hr).
  destruct (object_Some _ _ Hv) as (o & Ho & ->).
  exists o. split; [done|]. by apply field_VObj.
Qed.

Lemma typescript_plugins base ts parser cfg :
  EslintConfigTypescript.config base ts parser = Some cfg →
  ∃ bp t, base.["plugins"] = Some bp ∧ ts = Some t ∧
    field cfg "plugins" = VObj (<["@typescript-eslint" := t]> (own bp)).
Proof.
  intros (top & Htop & ->)%object_Some.
  destruct (obj_lit_field [] "plugins" _ [_; _; _] _ Htop ltac:(silent)) as (v & Hv & Hr).
  rewrite (field_VObj _ _ _ Hr). clear Htop Hr.
  destruct (base.["plugins"]) as [bp|] eqn:Hbp; [|done].
  destruct ts as [t|]; [|done].
  exists bp, t. repeat split. cbn in Hv. injection Hv as <-.
  by rewrite !(right_id_L ∅ (∪)).
Qed.

Lemma typescript_languageOptions base ts parser cfg :
  EslintConfigTypescript.config base ts parser = Some cfg →
  ∃ blo p, base.["languageOptions"] = Some blo ∧ parser = Some p ∧
    field cfg "languageOptions" =
    VObj (<["parserOptions" := VObj {["projectService" := VBool true]}]>
            (<["parser" := p]> (own blo))).
Proof.
  intros (top & Htop & ->)%object_Some.
  destruct (obj_lit_field [_] "languageOptions" _ [_; _] _ Htop ltac:(silent)) as (v & Hv & Hr).
  rewrite (field_VObj _ _ _ Hr). clear Htop Hr.
  destruct (base.["languageOptions"]) as [blo|] eqn:Hblo; [|done].
  destruct parser as [p|]; [|done].
  exists blo, p. repeat split. cbn in Hv. injection Hv as <-.
  by rewrite !(right_id_L ∅ (∪)), insert_empty.
Qed.

Lemma typescript_settings base ts parser cfg :
  EslintConfigTypescript.config base ts parser = Some cfg →
  field cfg "settings" = VObj {["import/resolver" := VObj {["typescript" := VObj ∅]}]}.
Proof.
  intros (top & Htop & ->)%object_Some.
  destruct (obj_lit_field [_; _] "settings" _ [_] _ Htop ltac:(silent)) as (v & Hv & Hr).
  rewrite (field_VObj _ _ _ Hr). cbn in Hv. injection Hv as <-.
  by rewrite !insert_empty.
Qed.

Lemma node_languageOptions base node globals cfg :
  EslintConfigNode.config base node globals = Some cfg →
  ∃ blo bg gn,
    base.["languageOptions"] = Some blo ∧ prop blo "globals" = Some bg ∧
    globals.["node"] = Some gn ∧
    field cfg "languageOptions" = VObj (<["globals" := VObj (own gn ∪ own bg)]> (own blo)).
Proof.
  intros (top & Htop & ->)%object_Some.
  destruct (obj_lit_field [_] "languageOptions" _ [_; _; _] _ Htop ltac:(silent)) as (v & Hv & Hr).
  rewrite (field_VObj _ _ _ Hr). clear Htop Hr.
  destruct (base.["languageOptions"]) as [blo|] eqn:Hblo; [|done].
  cbn [get mbind option_bind] in Hv.
  destruct (prop blo "globals") as [bg|] eqn:Hbg; [|done].
  destruct (globals.["node"]) as [gn|] eqn:Hgn; [|done].
  exists blo, bg, gn. repeat split; try done.
  cbn in Hv. injection Hv as <-. by rewrite !(right_id_L ∅ (∪)).
Qed.

Lemma node_settings base node globals cfg :
  EslintConfigNode.config base node globals = Some cfg →
  field cfg "settings" = VObj {["import/resolver" := VObj {["typescript" := VObj ∅]}]}.
Proof.
  intros (top & Htop & ->)%object_Some.
  destruct (obj_lit_field [_; _; _] "settings" _ [_] _ Htop ltac:(silent)) as (v & Hv & Hr).
  rewrite (field_VObj _ _ _ Hr). cbn in Hv. injection Hv as <-.
  by rewrite !insert_empty.
Qed.

Lemma node_style_rules base cfg :
  EslintConfigNodeStyle.config base = Some cfg →
  ∃ o, obj_lit (EslintConfigNodeStyle.rules base) = Some o ∧ field cfg "rules" = VObj o.
Proof.
  intros (top & Htop & ->)%object_Some.
  destruct (obj_lit_field [_; _] "rules" _ [] _ Htop ltac:(silent)) as (v & Hv & Hr).
  destruct (object_Some _ _ Hv) as (o & Ho & ->).
  exists o. split; [done|]. by apply field_VObj.
Qed.

Lemma node_style_plugins base cfg :
  EslintConfigNodeStyle.config base = Some cfg →
  ∃ bp, base.["plugins"] = Some bp ∧ field cfg "plugins" = VObj (own bp).
Proof.
  intros (top & Htop & ->)%object_Some.
  destruct (obj_lit_field [_] "plugins" _ [_] _ Htop ltac:(silent)) as (v & Hv & Hr).
  rewrite (field_VObj _ _ _ Hr). clear Htop Hr.
  destruct (base.["plugins"]) as [bp|] eqn:Hbp; [|done].
  exists bp. split; [done|]. cbn in Hv. injection Hv as <-.
  by rewrite !(right_id_L ∅ (∪)).
Qed.

Lemma typescript_legacy_settings base globs base_path cfg :
  EslintConfigTypescriptLegacy.exports base globs base_path = Some cfg →
  ∃ ev exts,
    base.["settings"].["import/resolver"].["node"].["extensions"] = Some ev ∧
    iter ev = Some exts ∧
    field cfg "settings" =
    VObj {["import/resolver" :=
             VObj (<["typescript" := VObj ∅]>
                     {["node" :=
                         VObj {["extensions" :=
                                  VArr ([VStr ".ts"; VStr ".tsx"; VStr ".d.ts"; VStr ".cts";
                                         VStr ".mts"; VStr ".d.cts"; VStr ".d.mts"] ++ exts)]}]})]}.
Proof.
  intros (top & Htop & ->)%object_Some.
  destruct (obj_lit_field [_] "settings" _ [_; _; _; _; _; _] _ Htop ltac:(silent))
    as (v & Hv & Hr).
  rewrite (field_VObj _ _ _ Hr). clear Htop Hr.
  destruct (base.["settings"].["import/resolver"].["node"].["extensions"]) as [ev|]; [|done].
  destruct (iter ev) as [exts|] eqn:Hexts; [|by cbn in Hv; rewrite Hexts in Hv].
  exists ev, exts. repeat split; [done|].
  cbn in Hv. rewrite Hexts in Hv. cbn in Hv. injection Hv as <-.
  by rewrite !insert_empty.
Qed.

(** The TypeScript preset over the base preset of the repository evaluates
    whenever the packages they import do. *)
Lemma typescript_total stylistic imports unicorn globals ts parser :
  is_Some stylistic → is_Some imports → is_Some unicorn → is_Some (globals.["builtin"]) →
  is_Some ts → is_Some parser →
  is_Some (EslintConfigTypescript.config
             (EslintConfigBase.config stylistic imports unicorn globals) ts parser).
Proof.
  intros [s ->] [i ->] [u ->] [g Hg] [t ->] [p ->].
  unfold EslintConfigBase.config. rewrite Hg.
  apply succeeds_is_Some. vm_compute. reflexivity.
Qed.

Lemma define_dom (acc o : gmap string value) m : define (Some acc) m = Some o → dom acc ⊆ dom o.
Proof.
  destruct m as [k [v|]|[v|]]; cbn; intros [= <-]; set_solver.
Qed.

Lemma foldl_define_dom ms (acc o : gmap string value) :
  foldl define (Some acc) ms = Some o → dom acc ⊆ dom o.
Proof.
  revert acc. induction ms as [|m ms IH]; intros acc; cbn [foldl].
  - by intros [= ->].
  - destruct (define (Some acc) m) as [acc'|] eqn:Hm; [|by rewrite define_None].
    intros Ho. etrans; [by eapply define_dom | by eapply IH].
Qed.

End Presets.
(** ** The composer: layers and overrides *)

Section ComposerFacts.

Import Glob Composer.

Implicit Types (l : ConfigLayer) (ls : list ConfigLayer).
Implicit Types (b : OverrideBlock) (os : list OverrideBlock).
Implicit Types (c cfg : EffectiveConfig) (policy : ParserPolicy).
Implicit Types (acc new : gmap string value).
Implicit Types (R : string) (s : RuleSetting) (path : string).

Lemma add_layer_Failed policy e ls : foldl (add_layer policy) (Failed e) ls = Failed e.
Proof. induction ls as [|l ls IH]; [done | apply IH]. Qed.

Lemma add_layer_Ok policy ls c c' :
  foldl (add_layer policy) (Ok c) ls = Ok c' → c' = foldl apply_layer c ls.
Proof.
  revert c. induction ls as [|l ls IH]; intros c; cbn [foldl].
  - by intros [= ->].
  - unfold add_layer at 2. destruct (enforced policy && conflicts c l).
    + by rewrite add_layer_Failed.
    + apply IH.
Qed.

Lemma add_layer_LastWins ls c :
  foldl (add_layer LastWins) (Ok c) ls = Ok (foldl apply_layer c ls).
Proof. revert c. induction ls as [|l ls IH]; intros c; [done | apply IH]. Qed.

(** A composition that succeeds returns the merge of steps 1 to 4. *)
Lemma compose_Ok policy ls os path cfg :
  compose policy ls os path = Ok cfg → cfg = merged ls os path.
Proof.
  unfold compose, merged.
  destruct (foldl (add_layer policy) (Ok initial) ls) as [c|e] eqn:Hc; [|done].
  intros [= <-]. by rewrite (add_layer_Ok _ _ _ _ Hc).
Qed.

Lemma compose_LastWins ls os path : compose LastWins ls os path = Ok (merged ls os path).
Proof. unfold compose, merged. by rewrite add_layer_LastWins. Qed.

(** *** Rules *)

Lemma rules_apply_layer c l R :
  rules (apply_layer c l) !! R =
  match layer_rules l !! R with Some s => Some s | None => rules c !! R end.
Proof. cbn. rewrite lookup_union. destruct (layer_rules l !! R), (rules c !! R); done. Qed.

Lemma rules_apply_override path c b R :
  rules (apply_override path c b) !! R =
  match (if applies b path then block_rules b !! R else None) with
  | Some s => Some s
  | None => rules c !! R
  end.
Proof.
  unfold apply_override. destruct (applies b path); [|done].
  cbn. rewrite lookup_union. destruct (block_rules b !! R), (rules c !! R); done.
Qed.

Lemma rules_layers_silent c ls R :
  Forall (λ l, layer_rules l !! R = None) ls →
  rules (foldl apply_layer c ls) !! R = rules c !! R.
Proof.
  revert c. induction ls as [|l ls IH]; intros c; cbn [foldl]; [done|].
  intros [Hl Hls]%Forall_cons. rewrite IH; [|done]. by rewrite rules_apply_layer, Hl.
Qed.

Lemma rules_overrides_silent path c os R :
  Forall (λ b, applies b path = true → block_rules b !! R = None) os →
  rules (foldl (apply_override path) c os) !! R = rules c !! R.
Proof.
  revert c. induction os as [|b os IH]; intros c; cbn [foldl]; [done|].
  intros [Hb Hos]%Forall_cons. rewrite IH; [|done]. rewrite rules_apply_override.
  destruct (applies b path); [by rewrite Hb | done].
Qed.

Lemma rules_layers_last c ls1 l ls2 R s :
  layer_rules l !! R = Some s →
  Forall (λ l', layer_rules l' !! R = None) ls2 →
  rules (foldl apply_layer c (ls1 ++ l :: ls2)) !! R = Some s.
Proof.
  intros Hl Hls. rewrite foldl_app. cbn [foldl].
  rewrite rules_layers_silent; [|done]. by rewrite rules_apply_layer, Hl.
Qed.

Lemma rules_overrides_last path c os1 b os2 R s :
  applies b path = true → block_rules b !! R = Some s →
  Forall (λ b', applies b' path = true → block_rules b' !! R = None) os2 →
  rules (foldl (apply_override path) c (os1 ++ b :: os2)) !! R = Some s.
Proof.
  intros Hb HR Hos. rewrite foldl_app. cbn [foldl].
  rewrite rules_overrides_silent; [|done]. by rewrite rules_apply_override, Hb, HR.
Qed.

(** *** Plugins, settings and language options *)

Lemma plugins_overrides path c os : plugins (foldl (apply_override path) c os) = plugins c.
Proof.
  revert c. induction os as [|b os IH]; intros c; cbn [foldl]; [done|].
  rewrite IH. unfold apply_override. by destruct (applies b path).
Qed.

Lemma settings_overrides path c os : settings (foldl (apply_override path) c os) = settings c.
Proof.
  revert c. induction os as [|b os IH]; intros c; cbn [foldl]; [done|].
  rewrite IH. unfold apply_override. by destruct (applies b path).
Qed.

Lemma languageOptions_overrides path c os :
  languageOptions (foldl (apply_override path) c os) = languageOptions c.
Proof.
  revert c. induction os as [|b os IH]; intros c; cbn [foldl]; [done|].
  rewrite IH. unfold apply_override. by destruct (applies b path).
Qed.

Lemma plugins_layers c ls :
  plugins (foldl apply_layer c ls) = plugins c ∪ ⋃ (layer_plugins <$> ls).
Proof.
  revert c. induction ls as [|l ls IH]; intros c; cbn [foldl].
  - cbn. set_solver.
  - rewrite IH. cbn. set_solver.
Qed.

Lemma settings_apply_layer c l k :
  settings (apply_layer c l) !! k =
  match layer_settings l !! k with Some v => Some v | None => settings c !! k end.
Proof. cbn. rewrite lookup_union. destruct (layer_settings l !! k), (settings c !! k); done. Qed.

Lemma settings_layers_silent c ls k :
  Forall (λ l, layer_settings l !! k = None) ls →
  settings (foldl apply_layer c ls) !! k = settings c !! k.
Proof.
  revert c. induction ls as [|l ls IH]; intros c; cbn [foldl]; [done|].
  intros [Hl Hls]%Forall_cons. rewrite IH; [|done]. by rewrite settings_apply_layer, Hl.
Qed.

Lemma merge_languageOptions_other acc new k :
  k ≠ "globals" →
  merge_languageOptions acc new !! k =
  match new !! k with Some v => Some v | None => acc !! k end.
Proof.
  intros Hk. unfold merge_languageOptions.
  destruct (acc !! "globals"), (new !! "globals");
    rewrite ?lookup_insert_ne by done; rewrite lookup_union;
    destruct (new !! k), (acc !! k); done.
Qed.

Lemma merge_languageOptions_globals acc new :
  globals_of (merge_languageOptions acc new) = globals_of new ∪ globals_of acc.
Proof.
  unfold merge_languageOptions, globals_of.
  destruct (acc !! "globals") as [a|] eqn:Ha, (new !! "globals") as [n|] eqn:Hn.
  - by rewrite lookup_insert_eq.
  - rewrite lookup_union, Ha, Hn. cbn. by rewrite (left_id_L ∅ (∪)).
  - rewrite lookup_union, Ha, Hn. cbn. by rewrite (right_id_L ∅ (∪)).
  - rewrite lookup_union, Ha, Hn. cbn. by rewrite (left_id_L ∅ (∪)).
Qed.

Lemma languageOptions_layers_silent c ls k :
  k ≠ "globals" →
  Forall (λ l, layer_languageOptions l !! k = None) ls →
  languageOptions (foldl apply_layer c ls) !! k = languageOptions c !! k.
Proof.
  intros Hk. revert c. induction ls as [|l ls IH]; intros c; cbn [foldl]; [done|].
  intros [Hl Hls]%Forall_cons. rewrite IH; [|done]. cbn.
  by rewrite merge_languageOptions_other, Hl.
Qed.

Lemma globals_layers_silent c ls g :
  Forall (λ l, globals_of (layer_languageOptions l) !! g = None) ls →
  globals_of (languageOptions (foldl apply_layer c ls)) !! g = globals_of (languageOptions c) !! g.
Proof.
  revert c. induction ls as [|l ls IH]; intros c; cbn [foldl]; [done|].
  intros [Hl Hls]%Forall_cons. rewrite IH; [|done]. cbn.
  rewrite merge_languageOptions_globals, lookup_union, Hl.
  by destruct (globals_of (languageOptions c) !! g).
Qed.

(** *** Parsers *)

Lemma parser_of_merge acc new p :
  parser_of (merge_languageOptions acc new) = Some p →
  parser_of new = Some p ∨ parser_of acc = Some p.
Proof.
  unfold parser_of. rewrite merge_languageOptions_other by done.
  destruct (new !! "parser"); auto.
Qed.

Lemma parser_of_layers ls p :
  parser_of (languageOptions (foldl apply_layer initial ls)) = Some p →
  ∃ i l, ls !! i = Some l ∧ parser_of (layer_languageOptions l) = Some p.
Proof.
  induction ls as [|l ls IH] using rev_ind.
  - done.
  - rewrite foldl_app. cbn. intros [Hl|Hacc]%parser_of_merge.
    + exists (length ls), l. by rewrite lookup_app_r, Nat.sub_diag by done.
    + destruct (IH Hacc) as (i & l' & Hi & Hp). exists i, l'.
      by rewrite lookup_app_l by (by eapply lookup_lt_Some).
Qed.

End ComposerFacts.

(** ** File patterns: reading and matching *)

Section GlobFacts.

Import Glob.
Local Open Scope char_scope.

Implicit Types (g p : glob) (k : list ascii → bool) (s cs : list ascii) (c : ascii).
Implicit Types (st : state) (fs : list frame).

Lemma run_graft p g k s : run (graft p g) k s = run p (run g k) s.
Proof. revert k s. induction g; intros k s; cbn [graft run]; first [done | apply IHg1]. Qed.

Lemma flush_graft p n g : flush n (graft p g) = graft p (flush n g).
Proof. by destruct n as [|[|n]]. Qed.

Lemma graft_stack_cons p f f' fs : graft_stack p (f :: f' :: fs) = f :: graft_stack p (f' :: fs).
Proof. by destruct f. Qed.

Lemma graft_state_nil p b n o g :
  graft_state p (State o b n g []) = State o b n (graft p g) [].
Proof. done. Qed.

Lemma graft_state_cons p b n o g f fs :
  graft_state p (State o b n g (f :: fs)) = State o b n g (graft_stack p (f :: fs)).
Proof. done. Qed.

Lemma graft_state_push p b n o g g' gs op cl fs :
  graft_state p (State o b n g' (Frame g gs op cl :: fs)) =
  State o b n g' (Frame (match fs with [] => graft p g | _ => g end) gs op cl
                    :: match fs with [] => [] | _ => graft_stack p fs end).
Proof. by destruct fs as [|[]]. Qed.

Lemma ordinary_graft p b g fs c :
  ordinary b (match fs with [] => graft p g | _ => g end)
             (match fs with [] => [] | _ => graft_stack p fs end) c
  = graft_state p <$> ordinary b g fs c.
Proof.
  unfold ordinary. repeat case_bool_decide; destruct fs as [|[o gs op cl] [|f' fs]]; try done.
Qed.

Lemma step_graft p st c : step (graft_state p st) c = graft_state p <$> step st c.
Proof.
  destruct st as [o b n g fs]. unfold step.
  assert (graft_state p (State o b n g fs) =
          State o b n (match fs with [] => graft p g | _ => g end)
                      (match fs with [] => [] | _ => graft_stack p fs end)) as ->
    by (by destruct fs).
  cbn [cls cur stack stars boundary]. destruct o as [body|].
  - case_bool_decide; destruct fs; done.
  - case_bool_decide; [by destruct fs|].
    destruct (is_sep c && b && bool_decide (n = 2)); [by destruct fs|].
    rewrite <- ordinary_graft. by destruct fs; rewrite ?flush_graft.
Qed.

Lemma read_graft p cs st : read cs (graft_state p st) = graft_state p <$> read cs st.
Proof.
  unfold read. revert st. induction cs as [|c cs IH]; intros st; cbn [foldl]; [done|].
  cbn [mbind option_bind]. rewrite step_graft. destruct (step st c) as [st'|]; cbn.
  - apply IH.
  - clear. by induction cs.
Qed.

Lemma finish_graft p st : finish (graft_state p st) = graft p <$> finish st.
Proof.
  destruct st as [o b n g fs]. destruct fs as [|[o' gs op cl] fs]; destruct o; cbn; try done.
  - by rewrite flush_graft.
  - by destruct fs.
Qed.

Lemma list_ascii_of_string_app (a b : string) :
  String.list_ascii_of_string (a +:+ b)
  = String.list_ascii_of_string a ++ String.list_ascii_of_string b.
Proof. induction a as [|c a IH]; [done|]. cbn. by rewrite <- IH. Qed.

(** A pattern that starts with [**/] reads as the rest of the pattern behind
    any number of directories. *)
Lemma parse_dirs rest : parse ("**/" +:+ rest) = graft (Seq Empty Dirs) <$> parse rest.
Proof.
  unfold parse. rewrite list_ascii_of_string_app.
  change (read (String.list_ascii_of_string "**/" ++ String.list_ascii_of_string rest) start)
    with (read (String.list_ascii_of_string rest) (graft_state (Seq Empty Dirs) start)).
  rewrite read_graft. destruct (read _ start) as [st|]; [|done]. apply finish_graft.
Qed.

Lemma dirs_here k s : k s = true → dirs k true s = true.
Proof. intros Hk. destruct s; cbn; by rewrite Hk. Qed.

Lemma dirs_below k b d s : k s = true → dirs k b (d ++ "/" :: s) = true.
Proof.
  intros Hk. revert b. induction d as [|c d IH]; intros b; cbn [app dirs].
  - change (is_sep "/") with true. rewrite (dirs_here _ _ Hk). apply orb_true_r.
  - rewrite IH. apply orb_true_r.
Qed.

Lemma star_flat k s :
  star k s = true → ∃ s1 s2, s = s1 ++ s2 ∧ forallb (λ c, negb (is_sep c)) s1 = true ∧ k s2 = true.
Proof.
  induction s as [|c s IH]; cbn [star].
  - rewrite orb_false_r. intros Hk. by exists [], [].
  - intros [Hk|[Hc Hs]%andb_prop]%orb_prop.
    + by exists [], (c :: s).
    + destruct (IH Hs) as (s1 & s2 & -> & H1 & H2). exists (c :: s1), s2.
      cbn. by rewrite Hc, H1.
Qed.

(** A pattern without separator and without [**] consumes no separator. *)
Lemma run_flat g k s :
  flat g = true → run g k s = true →
  ∃ s1 s2, s = s1 ++ s2 ∧ forallb (λ c, negb (is_sep c)) s1 = true ∧ k s2 = true.
Proof.
  revert k s. induction g as [|c| | | | |neg rs|g1 IH1 g2 IH2|g1 IH1 g2 IH2];
    intros k s Hflat Hrun; cbn [flat run] in *; try done.
  - by exists [], s.
  - destruct s as [|c' s]; [done|]. apply andb_prop in Hrun as [->%bool_decide_eq_true Hk].
    exists [c'], s. cbn. by rewrite Hflat.
  - destruct s as [|c' s]; [done|]. apply andb_prop in Hrun as [Hc Hk].
    exists [c'], s. cbn. by rewrite Hc.
  - by apply star_flat.
  - destruct s as [|c' s]; [done|]. apply andb_prop in Hrun as [Hc Hk].
    unfold in_class in Hc. apply andb_prop in Hc as [Hc _].
    exists [c'], s. cbn. by rewrite Hc.
  - apply andb_prop in Hflat as [H1 H2].
    destruct (IH1 _ _ H1 Hrun) as (s1 & s' & -> & Hs1 & Hrun2).
    destruct (IH2 _ _ H2 Hrun2) as (s2 & s3 & -> & Hs2 & Hk).
    exists (s1 ++ s2), s3. rewrite forallb_app, Hs1, Hs2. by rewrite (assoc_L (++)).
  - apply andb_prop in Hflat as [H1 H2]. apply orb_prop in Hrun as [Hrun|Hrun]; eauto.
Qed.

(** A pattern of plain characters matches these characters. *)
Lemma run_literal g cs k s :
  literal g = Some cs → run g k s = true → ∃ s', s = cs ++ s' ∧ k s' = true.
Proof.
  revert cs k s. induction g as [|c| | | | |neg rs|g1 IH1 g2 IH2|g1 IH1 g2 IH2];
    intros cs k s Hcs Hrun; cbn [literal run] in *; try done.
  - injection Hcs as <-. by exists s.
  - injection Hcs as <-. destruct s as [|c' s]; [done|].
    apply andb_prop in Hrun as [->%bool_decide_eq_true Hk]. by exists s.
  - destruct (literal g1) as [cs1|]; [|done]. destruct (literal g2) as [cs2|]; [|done].
    injection Hcs as <-.
    destruct (IH1 _ _ _ eq_refl Hrun) as (s1 & -> & Hrun2).
    destruct (IH2 _ _ _ eq_refl Hrun2) as (s2 & -> & Hk).
    exists s2. by rewrite (assoc_L (++)).
Qed.

(** A path that a pattern matches starts with the plain characters the
    pattern starts with. *)
Lemma run_anchor g k s : run g k s = true → anchor g `prefix_of` s.
Proof.
  revert k s. induction g as [|c| | | | |neg rs|g1 IH1 g2 IH2|g1 IH1 g2 IH2];
    intros k s Hrun; cbn [anchor]; try apply prefix_nil.
  - cbn [run] in Hrun. destruct s as [|c' s]; [done|].
    apply andb_prop in Hrun as [->%bool_decide_eq_true _]. by exists s.
  - cbn [run] in Hrun. destruct (literal g1) as [cs|] eqn:Hcs.
    + destruct (run_literal _ _ _ _ Hcs Hrun) as (s' & -> & Hrun2).
      apply prefix_app, (IH2 _ _ Hrun2).
    + by eapply IH1.
Qed.

Lemma glob_matches_anchor g path :
  glob_matches g path = true → anchor g `prefix_of` String.list_ascii_of_string path.
Proof. apply run_anchor. Qed.

Lemma glob_matches_flat g path :
  flat g = true → glob_matches g path = true → root_level path = true.
Proof.
  unfold glob_matches, root_level. intros Hflat Hrun.
  destruct (run_flat _ _ _ Hflat Hrun) as (s1 & s2 & -> & Hs1 & Hend).
  destruct s2; [|done]. by rewrite (right_id_L [] (++)).
Qed.

(** *** Ignore lists *)




End GlobFacts.
(** ** Layering in the presets *)

Section Layering.

Implicit Types (ms : list member) (m : member) (o : gmap string value).
Implicit Types (R k : string) (v : value) (base ts parser cfg : expr).

(** C1. Last-wins layering.  The presets layer their rules over those of the
    preset they extend by an object literal, [{...base.rules, own entries}]:
    a key of such a literal has the value of the last member that defines it.
    So every rule the TypeScript preset or the node style preset lists itself
    has the preset's setting in the composed rules, whatever the base preset
    says about it.  The presets carry no file scope: what is stated holds of
    every file path. *)
Theorem last_wins_layering :
  (∀ ms1 m ms2 o R v,
      obj_lit (ms1 ++ m :: ms2) = Some o →
      writes R m = Some v →
      Forall (λ m', writes R m' = None) ms2 →
      o !! R = Some v)
  ∧
  (∀ base ts parser c R v,
      EslintConfigTypescript.config base ts parser = Some c →
      last_def R (tail (EslintConfigTypescript.rules base)) = Some v →
      own (field c "rules") !! R = Some v)
  ∧
  (∀ base c R v,
      EslintConfigNodeStyle.config base = Some c →
      last_def R (tail (EslintConfigNodeStyle.rules base)) = Some v →
      own (field c "rules") !! R = Some v).
Proof.
  split; [|split].
  - intros ms1 m ms2 o R v Ho Hm Hms.
    rewrite (obj_lit_lookup _ _ R Ho). by apply last_def_last.
  - intros base ts parser c R v (o & Ho & ->)%typescript_rules Hown. cbn [own].
    rewrite (obj_lit_lookup _ _ R Ho). unfold EslintConfigTypescript.rules in *.
    rewrite last_def_cons. cbn [tail] in Hown. by rewrite Hown.
  - intros base c R v (o & Ho & ->)%node_style_rules Hown. cbn [own].
    rewrite (obj_lit_lookup _ _ R Ho). unfold EslintConfigNodeStyle.rules in *.
    rewrite last_def_cons. cbn [tail] in Hown. by rewrite Hown.
Qed.

(** The base preset sets [no-undef] to an error, the TypeScript preset turns
    it off: it is off in the composed rules. *)
Lemma last_wins_layering_witness :
  own (field (Sample.the Sample.base) "rules") !! "no-undef"
    = Some (VArr [VStr "error"; VObj {["typeof" := VBool true]}])
  ∧ own (field (Sample.the Sample.typescript) "rules") !! "no-undef" = Some (VStr "off").
Proof.
  split; [vm_compute; reflexivity|].
  apply (proj1 (proj2 last_wins_layering)
           Sample.base (Sample.plugin "@typescript-eslint") Sample.parser).
  - apply the_Some. vm_compute; reflexivity.
  - vm_compute; reflexivity.
Defined.

(** C7. No invented defaults.  An object literal has no key that none of its
    members defines; a rule that neither the base preset nor the TypeScript
    preset's own entries mention is absent from the composed rules (it is not
    given the value ['off']). *)
Theorem no_invented_defaults :
  (∀ ms o R,
      obj_lit ms = Some o →
      Forall (λ m, writes R m = None) ms →
      o !! R = None)
  ∧
  (∀ base ts parser c R,
      EslintConfigTypescript.config base ts parser = Some c →
      writes R (Spread (base.["rules"])) = None →
      last_def R (tail (EslintConfigTypescript.rules base)) = None →
      own (field c "rules") !! R = None).
Proof.
  split.
  - intros ms o R Ho Hms. rewrite (obj_lit_lookup _ _ R Ho). by apply last_def_None.
  - intros base ts parser c R (o & Ho & ->)%typescript_rules Hbase Hown. cbn [own].
    rewrite (obj_lit_lookup _ _ R Ho). unfold EslintConfigTypescript.rules in *.
    rewrite last_def_cons. cbn [tail] in Hown. by rewrite Hown.
Qed.

Lemma no_invented_defaults_witness :
  own (field (Sample.the Sample.typescript) "rules") !! "no-alert" = None.
Proof.
  apply (proj2 no_invented_defaults
           Sample.base (Sample.plugin "@typescript-eslint") Sample.parser).
  - apply the_Some. vm_compute; reflexivity.
  - vm_compute; reflexivity.
  - vm_compute; reflexivity.
Defined.

End Layering.

(** ** Plugins, settings and language options in the presets *)

Section PluginsAndOptions.

Implicit Types (ms : list member) (o : gmap string value) (p : value).

(** C5. Plugin accumulation.  The presets compose their plugins by spreading:
    [{...P1, ...P2}] declares the union of the two sets of identifiers;
    spreading the same plugins twice gives what spreading them once gives,
    and is no error; members added to a literal never remove a key.  The
    TypeScript preset declares the plugins of its base and its own, the node
    style preset declares again exactly those of its base. *)
Theorem plugin_accumulation :
  (∀ p1 p2, ∃ o, obj_lit [Spread p1; Spread p2] = Some o ∧ dom o = dom (own p1) ∪ dom (own p2))
  ∧
  (∀ p, obj_lit [Spread p; Spread p] = obj_lit [Spread p])
  ∧
  (∀ ms1 ms2 o1 o, obj_lit ms1 = Some o1 → obj_lit (ms1 ++ ms2) = Some o → dom o1 ⊆ dom o)
  ∧
  (∀ base ts parser c,
      EslintConfigTypescript.config base ts parser = Some c →
      ∃ bp, base.["plugins"] = Some bp ∧
        dom (own (field c "plugins")) = dom (own bp) ∪ {["@typescript-eslint"]})
  ∧
  (∀ base c,
      EslintConfigNodeStyle.config base = Some c →
      ∃ bp, base.["plugins"] = Some bp ∧ own (field c "plugins") = own bp).
Proof.
  repeat split.
  - intros p1 p2. eexists. split; [reflexivity|]. set_solver.
  - intros p. cbn. f_equal. by rewrite (assoc_L (∪)), (idemp_L (∪)).
  - intros ms1 ms2 o1 o Ho1. unfold obj_lit. rewrite foldl_app. fold (obj_lit ms1).
    rewrite Ho1. apply foldl_define_dom.
  - intros base ts parser c (bp & t & Hbp & _ & ->)%typescript_plugins.
    exists bp. split; [done|]. cbn [own]. set_solver.
  - intros base c (bp & Hbp & ->)%node_style_plugins. eauto.
Qed.

(** The TypeScript preset over the base preset of the repository. *)
Lemma plugin_accumulation_witness :
  ∃ bp, Sample.base.["plugins"] = Some bp ∧
    dom (own (field (Sample.the Sample.typescript) "plugins"))
      = dom (own bp) ∪ {["@typescript-eslint"]}.
Proof.
  apply (proj1 (proj2 (proj2 (proj2 plugin_accumulation)))
           Sample.base (Sample.plugin "@typescript-eslint") Sample.parser).
  apply the_Some. vm_compute; reflexivity.
Defined.

(** C6. Shallow merge with one additive exception.  The node preset copies
    the language options of its base key by key and unites the [globals] of
    the base with those of the node environment, the later names winning; its
    [settings] replace those of the base as a whole.  The TypeScript preset
    replaces [parserOptions] as a whole and leaves the globals of its base
    alone.  Nothing merges nested values: the legacy preset has to splice the
    resolver extensions of its base into its own list. *)
Theorem shallow_merge_additive_globals :
  (∀ base node globals c,
      EslintConfigNode.config base node globals = Some c →
      ∃ blo gn,
        base.["languageOptions"] = Some blo ∧ globals.["node"] = Some gn ∧
        (∀ g, own (field (field c "languageOptions") "globals") !! g =
              match own gn !! g with
              | Some x => Some x
              | None => own (field blo "globals") !! g
              end) ∧
        (∀ k, k ≠ "globals" → own (field c "languageOptions") !! k = own blo !! k) ∧
        field c "settings" = VObj {["import/resolver" := VObj {["typescript" := VObj ∅]}]})
  ∧
  (∀ base ts parser c,
      EslintConfigTypescript.config base ts parser = Some c →
      ∃ blo,
        base.["languageOptions"] = Some blo ∧
        field (field c "languageOptions") "parserOptions"
          = VObj {["projectService" := VBool true]} ∧
        field (field c "languageOptions") "globals" = field blo "globals" ∧
        field c "settings" = VObj {["import/resolver" := VObj {["typescript" := VObj ∅]}]})
  ∧
  (∀ base globs base_path c,
      EslintConfigTypescriptLegacy.exports base globs base_path = Some c →
      ∃ ev exts,
        base.["settings"].["import/resolver"].["node"].["extensions"] = Some ev ∧
        iter ev = Some exts ∧
        field (field (field (field c "settings") "import/resolver") "node") "extensions"
          = VArr ([VStr ".ts"; VStr ".tsx"; VStr ".d.ts"; VStr ".cts"; VStr ".mts";
                   VStr ".d.cts"; VStr ".d.mts"] ++ exts)).
Proof.
  split; [|split].
  - intros base node globals c Hc.
    destruct (node_languageOptions _ _ _ _ Hc) as (blo & bg & gn & Hblo & Hbg & Hgn & Hlo).
    exists blo, gn. repeat split; [done..| | |by eapply node_settings].
    + intros g. rewrite Hlo. unfold field at 1. cbn [own]. rewrite lookup_insert_eq. cbn.
      rewrite lookup_union, (prop_Some _ _ _ Hbg).
      by destruct (own gn !! g), (own (field blo "globals") !! g).
    + intros k Hk. rewrite Hlo. cbn [own]. by rewrite lookup_insert_ne.
  - intros base ts parser c Hc.
    destruct (typescript_languageOptions _ _ _ _ Hc) as (blo & p & Hblo & _ & Hlo).
    exists blo. repeat split; [done| | |by eapply typescript_settings].
    + rewrite Hlo. unfold field at 1. cbn [own]. by rewrite lookup_insert_eq.
    + rewrite Hlo. unfold field. cbn [own].
      by rewrite !lookup_insert_ne by done.
  - intros base globs base_path c Hc.
    destruct (typescript_legacy_settings _ _ _ _ Hc) as (ev & exts & Hev & Hexts & Hs).
    exists ev, exts. repeat split; [done..|]. rewrite Hs. unfold field. cbn [own].
    rewrite lookup_singleton_eq. cbn. rewrite lookup_insert_ne by done.
    rewrite lookup_singleton_eq. cbn. by rewrite lookup_singleton_eq.
Qed.

(** The node preset over the base preset of the repository. *)
Lemma shallow_merge_additive_globals_witness :
  ∃ blo gn,
    Sample.base.["languageOptions"] = Some blo ∧ Sample.globals.["node"] = Some gn ∧
    (∀ g, own (field (field (Sample.the Sample.node) "languageOptions") "globals") !! g =
          match own gn !! g with
          | Some x => Some x
          | None => own (field blo "globals") !! g
          end) ∧
    (∀ k, k ≠ "globals" →
          own (field (Sample.the Sample.node) "languageOptions") !! k = own blo !! k) ∧
    field (Sample.the Sample.node) "settings"
      = VObj {["import/resolver" := VObj {["typescript" := VObj ∅]}]}.
Proof.
  apply (proj1 shallow_merge_additive_globals Sample.base (Sample.plugin "n") Sample.globals).
  apply the_Some. vm_compute; reflexivity.
Defined.

End PluginsAndOptions.

(** ** The TypeScript presets and the rules they supersede *)

Section Counterparts.

Import Rule.

Lemma strip_prefix_app p X : strip_prefix p (p +:+ X) = Some X.
Proof.
  induction p as [|a p IH]; [done|].
  change (String a p +:+ X) with (String a (p +:+ X)). cbn [strip_prefix].
  by rewrite Ascii.eqb_refl.
Qed.

Lemma is_off_eq v : is_off v = true → v = VStr "off".
Proof.
  destruct v as [| | | |s| |]; try done. cbn.
  repeat (match goal with |- context [match ?x with _ => _ end] => destruct x end; try done).
Qed.

Lemma counterparts_originals rs X Y : Y ∈ counterparts rs X → X ∈ originals rs Y.
Proof.
  unfold counterparts, originals. rewrite elem_of_cons, elem_of_app.
  intros [->|(r & Hr & Hsome)%list_elem_of_omap].
  - left. unfold namesake. rewrite strip_prefix_app. cbn. by apply list_elem_of_singleton.
  - right. apply list_elem_of_omap. exists r. split; [done|].
    case_decide; [|done]. simplify_eq. by rewrite decide_True.
Qed.

Lemma superseded_off_sound rs ok (m : gmap string value) X Y v s :
  superseded_off rs ok m = true →
  Y ∈ counterparts rs X →
  m !! Y = Some v → m !! X = Some s →
  s = VStr "off" ∧ ok v = true.
Proof.
  unfold superseded_off. rewrite forallb_forall.
  intros Hall HY%counterparts_originals Hv Hs.
  assert (In (Y, v) (map_to_list m)) as Hin
    by apply list_elem_of_In, elem_of_map_to_list, Hv.
  specialize (Hall (Y, v) Hin). cbn [fst snd] in Hall. rewrite forallb_forall in Hall.
  assert (In X (originals rs Y)) as HX by by apply list_elem_of_In.
  specialize (Hall X HX). rewrite Hs in Hall.
  apply andb_prop in Hall as [Hoff Hok]. split; [by apply is_off_eq | done].
Qed.

(** Two lists of members that write a key alike, member by member, define
    it alike. *)
Lemma last_def_ext k ms ms' :
  Forall2 (λ m m', writes k m = writes k m') ms ms' → last_def k ms = last_def k ms'.
Proof.
  intros H. unfold last_def. generalize (@None value).
  induction H as [|m m' ms ms' Hm _ IH]; intros prev; cbn [foldl]; [done|].
  replace (step_def k prev m') with (step_def k prev m) by (unfold step_def; by rewrite Hm).
  apply IH.
Qed.

Lemma prop_readable v k : prop v k = if readable v then Some (field v k) else None.
Proof. by destruct v. Qed.

(** The rules of the base preset do not depend on what it imports. *)
Lemma base_rules stylistic imports unicorn globals b :
  (EslintConfigBase.config stylistic imports unicorn globals).["rules"] = Some b →
  b = VObj (default ∅ (obj_lit EslintConfigBase.rules)).
Proof.
  intros (bv & (top & Htop & ->)%object_Some & ->)%get_Some.
  destruct (obj_lit_field [_; _] "rules" _ [] _ Htop ltac:(silent)) as (v & Hv & Hr).
  rewrite (field_VObj _ _ _ Hr).
  destruct (object_Some _ _ Hv) as (o & Ho & ->). by rewrite Ho.
Qed.

Lemma typescript_legacy_rules base globs base_path cfg :
  EslintConfigTypescriptLegacy.exports base globs base_path = Some cfg →
  ∃ o, obj_lit (EslintConfigTypescriptLegacy.rules base) = Some o ∧ field cfg "rules" = VObj o.
Proof.
  intros (top & Htop & ->)%object_Some.
  destruct (obj_lit_field [_; _; _; _; _; _] "rules" _ [_] _ Htop ltac:(silent))
    as (v & Hv & Hr).
  destruct (object_Some _ _ Hv) as (o & Ho & ->).
  exists o. split; [done|]. by apply field_VObj.
Qed.

Lemma typescript_superseded stylistic imports unicorn globals ts parser c X Y v s :
  EslintConfigTypescript.config
    (EslintConfigBase.config stylistic imports unicorn globals) ts parser = Some c →
  Y ∈ counterparts derived X →
  own (field c "rules") !! Y = Some v →
  own (field c "rules") !! X = Some s →
  s = VStr "off" ∧ on v = true.
Proof.
  intros (o & Ho & ->)%typescript_rules. cbn [own].
  apply superseded_off_sound.
  unfold EslintConfigTypescript.rules in Ho.
  destruct ((EslintConfigBase.config stylistic imports unicorn globals).["rules"])
    as [b|] eqn:Hb.
  - apply base_rules in Hb as ->.
    assert (o = default ∅ (Some o)) as -> by done. rewrite <- Ho.
    vm_compute. reflexivity.
  - vm_compute in Ho. done.
Qed.

Lemma typescript_derived base ts parser c r :
  EslintConfigTypescript.config base ts parser = Some c →
  r ∈ derived →
  own (field c "rules") !! target r = entry r <$> base.["rules"].[source r] ∧
  own (field c "rules") !! source r = Some (VStr "off").
Proof.
  intros (o & Ho & ->)%typescript_rules Hr. cbn [own].
  rewrite !(obj_lit_lookup _ _ _ Ho).
  unfold EslintConfigTypescript.rules in *.
  destruct (base.["rules"]) as [b|].
  - cbn [get mbind option_bind] in *. rewrite !prop_readable in *.
    destruct (readable b).
    + clear Ho. generalize (field b). intros f.
      unfold derived in Hr. rewrite !elem_of_cons, elem_of_nil in Hr.
      destruct Hr as [->|[->|[->|[->|[->|[->|[->|[->|[->|[->|[]]]]]]]]]]];
        vm_compute; split; reflexivity.
    + vm_compute in Ho. done.
  - vm_compute in Ho. done.
Qed.

(** The entries of the flat preset other than the targets of its readings
    are the same over every base. *)
Lemma typescript_independent base base' R :
  R ∉ target <$> derived →
  last_def R (tail (EslintConfigTypescript.rules base))
  = last_def R (tail (EslintConfigTypescript.rules base')).
Proof.
  intros HR. unfold derived in HR. cbn [fmap list_fmap target] in HR.
  rewrite !not_elem_of_cons in HR. destruct_and!.
  apply last_def_ext. unfold EslintConfigTypescript.rules. cbn [tail].
  repeat (constructor; [first [reflexivity | by rewrite !writes_other]|]).
  constructor.
Qed.

Lemma typescript_legacy_superseded base globs base_path c X Y v s :
  EslintConfigTypescriptLegacy.exports base globs base_path = Some c →
  Y ∈ counterparts derived_legacy X →
  own (field c "rules") !! Y = Some v →
  own (field c "rules") !! X = Some s →
  s = VStr "off".
Proof.
  intros (o & Ho & ->)%typescript_legacy_rules. cbn [own]. intros HY Hv Hs.
  apply (superseded_off_sound derived_legacy (λ _, true) o X Y v s); [|done..].
  unfold EslintConfigTypescriptLegacy.rules in Ho.
  destruct (base.["rules"]) as [b|].
  - cbn [get mbind option_bind] in Ho. rewrite !prop_readable in Ho.
    destruct (readable b).
    + generalize dependent (field b). intros f Ho.
      assert (o = default ∅ (Some o)) as -> by done. rewrite <- Ho.
      vm_compute. reflexivity.
    + vm_compute in Ho. done.
  - vm_compute in Ho. done.
Qed.

Lemma typescript_legacy_derived base globs base_path c r :
  EslintConfigTypescriptLegacy.exports base globs base_path = Some c →
  r ∈ derived_legacy →
  own (field c "rules") !! target r = entry r <$> base.["rules"].[source r] ∧
  own (field c "rules") !! source r = Some (VStr "off").
Proof.
  intros (o & Ho & ->)%typescript_legacy_rules Hr. cbn [own].
  rewrite !(obj_lit_lookup _ _ _ Ho).
  unfold EslintConfigTypescriptLegacy.rules in *.
  destruct (base.["rules"]) as [b|].
  - cbn [get mbind option_bind] in *. rewrite !prop_readable in *.
    destruct (readable b).
    + clear Ho. generalize (field b). intros f.
      unfold derived_legacy in Hr. rewrite !elem_of_cons, elem_of_nil in Hr.
      destruct Hr as [->|[->|[->|[->|[->|[->|[->|[->|[->|[->|[->|[->|[]]]]]]]]]]]]];
        vm_compute; split; reflexivity.
    + vm_compute in Ho. done.
  - vm_compute in Ho. done.
Qed.

Lemma typescript_legacy_independent base base' R :
  R ∉ target <$> derived_legacy →
  last_def R (EslintConfigTypescriptLegacy.rules base)
  = last_def R (EslintConfigTypescriptLegacy.rules base').
Proof.
  intros HR. unfold derived_legacy in HR. cbn [fmap list_fmap target] in HR.
  rewrite !not_elem_of_cons in HR. destruct_and!.
  apply last_def_ext. unfold EslintConfigTypescriptLegacy.rules.
  repeat (constructor; [first [reflexivity | by rewrite !writes_other]|]).
  constructor.
Qed.

(** C10. The TypeScript presets and the rules they supersede.  A rule of the
    plugin stands in for a rule of the linter when it has its name under
    [@typescript-eslint/], or when the preset gives it the setting it reads
    from the base preset for that rule, as [@typescript-eslint/only-throw-error]
    for [no-throw-literal].  In the rules of the flat TypeScript preset
    composed over the base preset of the repository, every rule that has both
    an entry of its own and such a counterpart is ['off'] while the
    counterpart is on, so the two are never enabled together.  Over any base,
    every rule whose setting the preset reads from its base is ['off'], its
    counterpart has the base's setting (in front of the preset's options,
    where it adds some), and no other entry of the preset depends on the
    base.  The same holds of the legacy preset, where a rule with a
    counterpart is ['off']. *)
Theorem typescript_counterparts :
  (∀ stylistic imports unicorn globals ts parser c X Y v s,
      EslintConfigTypescript.config
        (EslintConfigBase.config stylistic imports unicorn globals) ts parser = Some c →
      Y ∈ counterparts derived X →
      own (field c "rules") !! Y = Some v →
      own (field c "rules") !! X = Some s →
      s = VStr "off" ∧ on s = false ∧ on v = true)
  ∧
  (∀ base ts parser c r,
      EslintConfigTypescript.config base ts parser = Some c →
      r ∈ derived →
      own (field c "rules") !! target r = entry r <$> base.["rules"].[source r] ∧
      own (field c "rules") !! source r = Some (VStr "off"))
  ∧
  (∀ base base' R,
      R ∉ target <$> derived →
      last_def R (tail (EslintConfigTypescript.rules base))
      = last_def R (tail (EslintConfigTypescript.rules base')))
  ∧
  (∀ base globs base_path c X Y v s,
      EslintConfigTypescriptLegacy.exports base globs base_path = Some c →
      Y ∈ counterparts derived_legacy X →
      own (field c "rules") !! Y = Some v →
      own (field c "rules") !! X = Some s →
      s = VStr "off" ∧ on s = false)
  ∧
  (∀ base globs base_path c r,
      EslintConfigTypescriptLegacy.exports base globs base_path = Some c →
      r ∈ derived_legacy →
      own (field c "rules") !! target r = entry r <$> base.["rules"].[source r] ∧
      own (field c "rules") !! source r = Some (VStr "off"))
  ∧
  (∀ base base' R,
      R ∉ target <$> derived_legacy →
      last_def R (EslintConfigTypescriptLegacy.rules base)
      = last_def R (EslintConfigTypescriptLegacy.rules base')).
Proof.
  repeat apply conj.
  - intros stylistic imports unicorn globals ts parser c X Y v s Hc HY Hv Hs.
    destruct (typescript_superseded _ _ _ _ _ _ _ _ _ _ _ Hc HY Hv Hs) as [-> Hon]. done.
  - apply typescript_derived.
  - apply typescript_independent.
  - intros base globs base_path c X Y v s Hc HY Hv Hs.
    by rewrite (typescript_legacy_superseded _ _ _ _ _ _ _ _ Hc HY Hv Hs).
  - apply typescript_legacy_derived.
  - apply typescript_legacy_independent.
Qed.

(** [no-throw-literal] in the flat preset over the base preset of the
    repository: the base preset makes it an error, the preset turns it off
    and gives [@typescript-eslint/only-throw-error] its severity. *)
Lemma typescript_counterparts_witness :
  own (field (Sample.the Sample.typescript) "rules") !! "@typescript-eslint/only-throw-error"
    = Some (VArr [VStr "error"; throwing false false])
  ∧ VStr "off" = VStr "off" ∧ on (VStr "off") = false
  ∧ on (VArr [VStr "error"; throwing false false]) = true.
Proof.
  assert (own (field (Sample.the Sample.typescript) "rules")
            !! "@typescript-eslint/only-throw-error"
          = Some (VArr [VStr "error"; throwing false false])) as Hv
    by (vm_compute; reflexivity).
  split; [exact Hv|].
  apply (proj1 typescript_counterparts
           (Sample.plugin "@stylistic") (Sample.plugin "import") (Sample.plugin "unicorn")
           Sample.globals (Sample.plugin "@typescript-eslint") Sample.parser
           (Sample.the Sample.typescript)
           "no-throw-literal" "@typescript-eslint/only-throw-error").
  - apply the_Some. vm_compute; reflexivity.
  - apply list_elem_of_In. vm_compute. right. left. reflexivity.
  - exact Hv.
  - vm_compute; reflexivity.
Defined.

End Counterparts.
(** ** Overrides, ignore lists and patterns in the composer *)

Section Overrides.

Import Glob Rule Composer.

Implicit Types (l : ConfigLayer) (ls : list ConfigLayer).
Implicit Types (b : OverrideBlock) (os : list OverrideBlock).
Implicit Types (cfg : EffectiveConfig) (policy : ParserPolicy).
Implicit Types (R path : string) (s : RuleSetting).

(** The composer layers rules as the presets do. *)
Lemma compose_last_wins policy ls1 l ls2 os path R s cfg :
  compose policy (ls1 ++ l :: ls2) os path = Ok cfg →
  layer_rules l !! R = Some s →
  Forall (λ l', layer_rules l' !! R = None) ls2 →
  Forall (λ b, applies b path = true → block_rules b !! R = None) os →
  rules cfg !! R = Some s.
Proof.
  intros Hcfg Hl Hls Hos. rewrite (compose_Ok _ _ _ _ _ Hcfg). unfold merged.
  rewrite rules_overrides_silent by done. by apply rules_layers_last.
Qed.

Lemma compose_no_defaults policy ls os path R cfg :
  compose policy ls os path = Ok cfg →
  Forall (λ l, layer_rules l !! R = None) ls →
  Forall (λ b, applies b path = true → block_rules b !! R = None) os →
  rules cfg !! R = None.
Proof.
  intros Hcfg Hls Hos. rewrite (compose_Ok _ _ _ _ _ Hcfg). unfold merged.
  rewrite rules_overrides_silent, rules_layers_silent by done. apply lookup_empty.
Qed.

Lemma compose_plugins policy ls os path cfg :
  compose policy ls os path = Ok cfg → plugins cfg = ⋃ (layer_plugins <$> ls).
Proof.
  intros Hcfg. rewrite (compose_Ok _ _ _ _ _ Hcfg). unfold merged.
  rewrite plugins_overrides, plugins_layers. cbn. set_solver.
Qed.

(** C2. Override gating.  A block applies to a path when one of its patterns
    matches it.  The last applying block that sets [R] decides the entry of
    [R], whatever the layers and earlier blocks say; when no applying block
    sets [R], in particular when the path matches no pattern of the blocks,
    the entry is the one of the last layer that sets [R], and there is none
    when no layer sets it. *)
Theorem override_gating :
  (∀ b path, applies b path = true ↔ ∃ g, g ∈ patterns b ∧ glob_matches g path = true)
  ∧
  (∀ policy ls os1 b os2 path R s cfg,
      compose policy ls (os1 ++ b :: os2) path = Ok cfg →
      applies b path = true →
      block_rules b !! R = Some s →
      Forall (λ b', applies b' path = true → block_rules b' !! R = None) os2 →
      rules cfg !! R = Some s)
  ∧
  (∀ policy ls1 l ls2 os path R s cfg,
      compose policy (ls1 ++ l :: ls2) os path = Ok cfg →
      layer_rules l !! R = Some s →
      Forall (λ l', layer_rules l' !! R = None) ls2 →
      Forall (λ b, applies b path = true → block_rules b !! R = None) os →
      rules cfg !! R = Some s)
  ∧
  (∀ policy ls os path R cfg,
      compose policy ls os path = Ok cfg →
      Forall (λ l, layer_rules l !! R = None) ls →
      Forall (λ b, applies b path = true → block_rules b !! R = None) os →
      rules cfg !! R = None).
Proof.
  split; [|split; [|split]].
  - intros b path. unfold applies. rewrite existsb_exists.
    split; intros (g & Hg & Hm); exists g; by rewrite ?list_elem_of_In in *.
  - intros policy ls os1 b os2 path R s cfg Hcfg Hb HR Hos.
    rewrite (compose_Ok _ _ _ _ _ Hcfg). unfold merged. by apply rules_overrides_last.
  - apply compose_last_wins.
  - apply compose_no_defaults.
Qed.

(** The scenario of the spec: the rule is off for [foo.test.js] and stays an
    error for [foo.js]. *)
Lemma override_gating_witness :
  compose LastWins [Sample.strict_layer] [Sample.test_block] "foo.test.js"
    = Ok (merged [Sample.strict_layer] [Sample.test_block] "foo.test.js")
  ∧ rules (merged [Sample.strict_layer] [Sample.test_block] "foo.test.js") !! "no-console"
    = Some (Bare Off)
  ∧ compose LastWins [Sample.strict_layer] [Sample.test_block] "foo.js"
    = Ok (merged [Sample.strict_layer] [Sample.test_block] "foo.js")
  ∧ rules (merged [Sample.strict_layer] [Sample.test_block] "foo.js") !! "no-console"
    = Some (Bare Error).
Proof.
  assert (∀ path, compose LastWins [Sample.strict_layer] [Sample.test_block] path
                  = Ok (merged [Sample.strict_layer] [Sample.test_block] path)) as Hok
    by (intros path; apply compose_LastWins).
  split; [apply Hok|]. split; [|split; [apply Hok|]].
  - apply (proj1 (proj2 override_gating) LastWins [Sample.strict_layer]
             [] Sample.test_block [] "foo.test.js");
      [apply Hok | vm_compute; reflexivity | vm_compute; reflexivity | constructor].
  - apply (proj1 (proj2 (proj2 override_gating)) LastWins [] Sample.strict_layer []
             [Sample.test_block] "foo.js");
      [apply Hok | vm_compute; reflexivity | constructor |].
    repeat constructor. vm_compute. discriminate.
Defined.

(** The override blocks of the legacy TypeScript preset over the node preset:
    [node/no-process-env] is off in configuration files and keeps the
    setting of the layer elsewhere. *)
Example legacy_blocks_scoped :
  let layers := [layer_of "node" (Sample.the Sample.node)] in
  rules (merged layers Sample.legacy_blocks "jest.config.js") !! "node/no-process-env"
    = Some (Bare Off)
  ∧ rules (merged layers Sample.legacy_blocks "src/config/index.js") !! "node/no-process-env"
    = Some (Bare Off)
  ∧ rules (merged layers Sample.legacy_blocks "src/index.js") !! "node/no-process-env"
    = Some (Bare Warn).
Proof. repeat split; vm_compute; reflexivity. Qed.

(** The repository's own flat configuration: [unicorn/no-process-exit] is an
    error by the node preset and off in [.mjs] files. *)
Example root_blocks_scoped :
  length Sample.root_layers = 4 ∧ length Sample.root_blocks = 2
  ∧ rules (merged Sample.root_layers Sample.root_blocks "publish.mjs")
      !! "unicorn/no-process-exit" = Some (Bare Off)
  ∧ rules (merged Sample.root_layers Sample.root_blocks "packages/eslint-config-node/index.js")
      !! "unicorn/no-process-exit" = Some (Bare Error).
Proof. repeat split; vm_compute; reflexivity. Qed.




End Overrides.

(** ** Depth and anchoring of patterns *)

Section Patterns.

Import Glob.

(** C4, as stated, fails: [test/**], one of the test patterns of the
    repository, has no leading [/] or [**/] and matches a path two
    directories below the root. *)
Lemma glob_anchoring_counterexample :
  strings (field (Sample.the Globs.exports) "tests") = ["test/**"; "**/*.test.*"; "**/*.spec.*"]
  ∧ String.prefix "/" "test/**" = false
  ∧ String.prefix "**/" "test/**" = false
  ∧ matches "test/unit/a.js" "test/**" = Some true
  ∧ root_level "test/unit/a.js" = false.
Proof. repeat split; vm_compute; reflexivity. Qed.

(** C4, amended.  A pattern that starts with [**/] matches, at the root and
    below any directory, every path the rest of the pattern matches; a
    pattern without separator and without [**] matches paths at the root
    only; and every pattern is matched from the root of the path: a path it
    matches starts with the plain characters the pattern starts with.  So
    [**/*.spec.*] matches [a/b/c/foo.spec.ts], [*.spec.*] does not match
    [a/foo.spec.ts], [*config.*] matches [eslint.config.js] only at the
    root, and [test/**] matches the paths below the directory [test] of the
    root and no path below a directory [test] elsewhere. *)
Theorem glob_depth_and_anchoring :
  (∀ rest dir path,
      matches path rest = Some true →
      matches path ("**/" +:+ rest) = Some true ∧
      matches (dir +:+ "/" +:+ path) ("**/" +:+ rest) = Some true)
  ∧
  (∀ pattern g path,
      parse pattern = Some g → flat g = true →
      matches path pattern = Some true → root_level path = true)
  ∧
  (∀ pattern g path,
      parse pattern = Some g →
      matches path pattern = Some true →
      anchor g `prefix_of` String.list_ascii_of_string path)
  ∧ matches "a/b/c/foo.spec.ts" "**/*.spec.*" = Some true
  ∧ matches "a/foo.spec.ts" "*.spec.*" = Some false
  ∧ flat <$> parse "*.spec.*" = Some true
  ∧ flat <$> parse "*config.*" = Some true
  ∧ matches "eslint.config.js" "*config.*" = Some true
  ∧ matches "packages/eslint.config.js" "*config.*" = Some false
  ∧ anchor <$> parse "test/**" = Some (String.list_ascii_of_string "test/")
  ∧ matches "test/unit/a.js" "test/**" = Some true
  ∧ matches "a/b/test/x.js" "test/**" = Some false
  ∧ matches "src/test/x.js" "test/**" = Some false.
Proof.
  split; [|split; [|split; [|repeat split; vm_compute; reflexivity]]].
  - intros rest dir path. unfold matches. rewrite parse_dirs.
    destruct (parse rest) as [g|]; [|done]. cbn [fmap option_fmap option_map].
    unfold glob_matches. intros [= Hg]. rewrite !run_graft. cbn [run]. split; f_equal.
    + by apply dirs_here.
    + rewrite !list_ascii_of_string_app. by apply dirs_below.
  - intros pattern g path Hg Hflat. unfold matches. rewrite Hg.
    intros [= Hm]. by apply (glob_matches_flat g).
  - intros pattern g path Hg. unfold matches. rewrite Hg.
    intros [= Hm]. by apply glob_matches_anchor.
Qed.

Lemma glob_depth_and_anchoring_witness :
  matches "foo.spec.ts" ("**/" +:+ "*.spec.*") = Some true
  ∧ matches ("a/b/c" +:+ "/" +:+ "foo.spec.ts") ("**/" +:+ "*.spec.*") = Some true.
Proof.
  apply (proj1 glob_depth_and_anchoring "*.spec.*" "a/b/c" "foo.spec.ts").
  vm_compute; reflexivity.
Defined.

End Patterns.

(** ** Errors of the composer *)

Section Errors.

Import Glob Rule Composer.

Implicit Types (l : ConfigLayer) (ls : list ConfigLayer).
Implicit Types (os : list OverrideBlock) (policy : ParserPolicy).

Lemma conflicts_clash ls l :
  conflicts (foldl apply_layer initial ls) l = true → parser_clash (ls ++ [l]).
Proof.
  unfold conflicts.
  destruct (parser_of (languageOptions _)) as [p|] eqn:Hp; [|done].
  destruct (parser_of (layer_languageOptions l)) as [q|] eqn:Hq; [|done].
  intros Hpq%bool_decide_eq_true.
  destruct (parser_of_layers _ _ Hp) as (i & li & Hi & Hli).
  pose proof (lookup_lt_Some _ _ _ Hi) as Hlt.
  exists i, (length ls), li, l, p, q.
  split; [done|]. split; [by rewrite lookup_app_l|].
  split; [by rewrite lookup_app_r, Nat.sub_diag|]. done.
Qed.

Lemma parser_clash_app ls l : parser_clash ls → parser_clash (ls ++ [l]).
Proof.
  intros (i & j & li & lj & p & q & Hij & Hi & Hj & Hrest).
  pose proof (lookup_lt_Some _ _ _ Hi). pose proof (lookup_lt_Some _ _ _ Hj).
  exists i, j, li, lj, p, q. by rewrite !lookup_app_l.
Qed.

Lemma add_layers_Failed policy ls e :
  foldl (add_layer policy) (Ok initial) ls = Failed e →
  e = ConfigConflict ∧ policy = SingleParser ∧ parser_clash ls.
Proof.
  induction ls as [|l ls IH] using rev_ind; [done|].
  rewrite foldl_app. cbn [foldl].
  destruct (foldl (add_layer policy) (Ok initial) ls) as [c|e'] eqn:Hc; cbn [add_layer].
  - destruct (enforced policy && conflicts c l) eqn:Hconf; [|done].
    apply andb_prop in Hconf as [Hpol Hconf]. intros [= <-].
    rewrite (add_layer_Ok _ _ _ _ Hc) in Hconf.
    split; [done|]. split; [by destruct policy | by apply conflicts_clash].
  - intros [= ->]. destruct (IH eq_refl) as (-> & -> & Hclash).
    split; [done|]. split; [done|]. by apply parser_clash_app.
Qed.

(** C9. Error behaviour.  [compose] fails only with [ConfigConflict], only
    under the policy of a single parser and only when two layers name
    different parsers; under the last-wins policy, and whenever no two layers
    name different parsers, it returns a configuration; an error is returned
    in place of a configuration, and every configuration returned is the
    complete merge of all layers and applying overrides.  In the flat
    TypeScript preset the parser of the preset replaces the one of its base,
    and the preset over the base preset of the repository evaluates whenever
    the packages they import do: the presets themselves raise no conflict. *)
Theorem error_behaviour :
  (∀ policy ls os path e,
      compose policy ls os path = Failed e →
      e = ConfigConflict ∧ policy = SingleParser ∧ parser_clash ls)
  ∧
  (∀ ls os path, compose LastWins ls os path = Ok (merged ls os path))
  ∧
  (∀ policy ls os path,
      ¬ parser_clash ls → compose policy ls os path = Ok (merged ls os path))
  ∧
  (∀ policy ls os path cfg,
      compose policy ls os path = Ok cfg → cfg = merged ls os path)
  ∧
  (∀ base ts parser c,
      EslintConfigTypescript.config base ts parser = Some c →
      Some (field (field c "languageOptions") "parser") = parser)
  ∧
  (∀ stylistic imports unicorn globals ts parser,
      is_Some stylistic → is_Some imports → is_Some unicorn →
      is_Some (globals.["builtin"]) → is_Some ts → is_Some parser →
      is_Some (EslintConfigTypescript.config
                 (EslintConfigBase.config stylistic imports unicorn globals) ts parser)).
Proof.
  repeat apply conj.
  - intros policy ls os path e. unfold compose.
    destruct (foldl (add_layer policy) (Ok initial) ls) as [c|e'] eqn:Hc; [done|].
    intros [= ->]. by apply add_layers_Failed.
  - apply compose_LastWins.
  - intros policy ls os path Hclash.
    destruct (compose policy ls os path) as [cfg|e] eqn:Hcfg.
    + by rewrite (compose_Ok _ _ _ _ _ Hcfg).
    + unfold compose in Hcfg.
      destruct (foldl (add_layer policy) (Ok initial) ls) as [c|e'] eqn:Hc; [done|].
      by destruct (add_layers_Failed _ _ _ Hc) as (_ & _ & ?).
  - apply compose_Ok.
  - intros base ts parser c (blo & p & _ & -> & Hlo)%typescript_languageOptions.
    rewrite Hlo. unfold field. cbn [own].
    by rewrite lookup_insert_ne, lookup_insert_eq by done.
  - apply typescript_total.
Qed.

(** Under the policy of a single parser, a layer that names [espree] before
    the TypeScript preset is a conflict; under last-wins the parser of the
    preset is the effective one. *)
Lemma error_behaviour_witness :
  compose SingleParser [Sample.espree_layer; Sample.typescript_layer] [] "src/index.ts"
    = Failed ConfigConflict
  ∧ parser_clash [Sample.espree_layer; Sample.typescript_layer]
  ∧ compose LastWins [Sample.espree_layer; Sample.typescript_layer] [] "src/index.ts"
    = Ok (merged [Sample.espree_layer; Sample.typescript_layer] [] "src/index.ts").
Proof.
  assert (compose SingleParser [Sample.espree_layer; Sample.typescript_layer] [] "src/index.ts"
          = Failed ConfigConflict) as Hfailed by (vm_compute; reflexivity).
  split; [exact Hfailed|]. split.
  - exact (proj2 (proj2 (proj1 error_behaviour _ _ _ _ _ Hfailed))).
  - apply (proj1 (proj2 error_behaviour)).
Defined.

End Errors.

(** ** What the presets keep, add and require *)

Section PresetShape.

Import Rule.

Implicit Types (ms : list member) (m : member) (o : gmap string value).
Implicit Types (R k : string) (v b : value) (e base ts parser : expr).

Lemma is_Some_computed {A} (x : option A) :
  match x with Some _ => true | None => false end = true → is_Some x.
Proof. destruct x; [by eexists | done]. Qed.

Lemma get_is_Some e k : is_Some (e.[k]) ↔ ∃ b, e = Some b ∧ readable b = true.
Proof.
  destruct e as [b|]; cbn.
  - rewrite prop_readable. destruct (readable b) eqn:Hb; split.
    + intros _. by exists b.
    + intros _. by eexists.
    + by intros [? ?].
    + intros (b' & [= <-] & Hb'). congruence.
  - split; [by intros [? ?] | by intros (? & ? & _)].
Qed.

Lemma get_field b k : readable b = true → (Some b).[k] = Some (field b k).
Proof. intros Hb. cbn. by rewrite prop_readable, Hb. Qed.

Lemma object_is_Some ms : is_Some (object ms) → Forall defined ms.
Proof. intros [v (o & Ho & _)%object_Some]. by eapply obj_lit_defined. Qed.

(** A property of every value that a member writes at [k] holds of the
    value the literal gives [k]. *)
Lemma last_def_Forall (P : value → Prop) k ms v :
  Forall (λ m, ∀ v', writes k m = Some v' → P v') ms →
  last_def k ms = Some v → P v.
Proof.
  intros Hms. unfold last_def.
  assert (∀ prev, (∀ v', prev = Some v' → P v') →
                  foldl (step_def k) prev ms = Some v → P v) as Hgen.
  { induction Hms as [|m ms Hm _ IH]; intros prev Hprev; cbn [foldl]; [by apply Hprev|].
    apply IH. unfold step_def. destruct (writes k m) as [w|] eqn:Hw.
    - intros v' [= <-]. by apply Hm.
    - done. }
  by apply Hgen.
Qed.

Lemma typescript_base_rules base o :
  obj_lit (EslintConfigTypescript.rules base) = Some o →
  ∃ b, base = Some b ∧ readable b = true ∧ readable (field b "rules") = true.
Proof.
  intros Ho. unfold EslintConfigTypescript.rules in Ho.
  destruct (base.["rules"]) as [r|] eqn:Hr; [|vm_compute in Ho; done].
  cbn [get mbind option_bind] in Ho. rewrite !prop_readable in Ho.
  destruct (readable r) eqn:Hrd; [|vm_compute in Ho; done].
  destruct (proj1 (get_is_Some base "rules")) as (b & -> & Hb); [by rewrite Hr|].
  exists b. repeat split; [done|]. rewrite get_field in Hr by done. by injection Hr as ->.
Qed.

(** X1. The flat TypeScript preset has the four keys it lists and no other:
    unlike the node presets it does not spread its base, so a key of the
    base preset such as [files], [ignores] or [linterOptions] is not passed
    on. *)
Theorem typescript_keys base ts parser c k :
  EslintConfigTypescript.config base ts parser = Some c →
  is_Some (own c !! k) ↔ k ∈ ["plugins"; "languageOptions"; "settings"; "rules"].
Proof.
  intros (top & Htop & ->)%object_Some. cbn [own].
  rewrite (obj_lit_lookup _ _ k Htop).
  pose proof (obj_lit_defined _ _ Htop) as Hdef.
  apply Forall_cons in Hdef as [[v1 H1] Hdef]. apply Forall_cons in Hdef as [[v2 H2] Hdef].
  apply Forall_cons in Hdef as [[v3 H3] Hdef]. apply Forall_cons in Hdef as [[v4 H4] _].
  rewrite H1, H2, H3, H4. clear.
  unfold last_def. cbn [foldl]. unfold step_def, writes.
  rewrite !elem_of_cons, elem_of_nil.
  repeat case_decide; subst; (split; [intros [? ?]|intros ?]);
    first [done | by destruct_or!; subst | eexists; reflexivity | auto 6].
Qed.

(** The base preset of the repository has a key [languageOptions]; a key
    [files] is in neither preset. *)
Lemma typescript_keys_witness :
  is_Some (own (Sample.the Sample.typescript) !! "files")
  ↔ "files" ∈ ["plugins"; "languageOptions"; "settings"; "rules"].
Proof.
  apply (typescript_keys Sample.base (Sample.plugin "@typescript-eslint") Sample.parser).
  apply the_Some. vm_compute. reflexivity.
Defined.

(** X2. When the flat TypeScript preset can be evaluated.  The module throws
    exactly when one of its imports does, when its base is [undefined] or
    [null], or when the base has no [rules] (the preset reads single rules
    from them); a base without [plugins] or [languageOptions] is accepted,
    since spreading [undefined] adds nothing. *)
Theorem typescript_loads base ts parser :
  is_Some (EslintConfigTypescript.config base ts parser) ↔
  is_Some ts ∧ is_Some parser ∧
  ∃ b, base = Some b ∧ readable b = true ∧ readable (field b "rules") = true.
Proof.
  split.
  - intros [c Hc].
    destruct (typescript_plugins _ _ _ _ Hc) as (_ & t & _ & -> & _).
    destruct (typescript_languageOptions _ _ _ _ Hc) as (_ & p & _ & -> & _).
    destruct (typescript_rules _ _ _ _ Hc) as (o & Ho & _).
    split; [by eexists|]. split; [by eexists|]. by eapply typescript_base_rules.
  - intros ([t ->] & [p ->] & b & -> & Hb & Hr).
    unfold EslintConfigTypescript.config, EslintConfigTypescript.rules.
    rewrite !get_field by done.
    generalize (field (field b "rules")). intros f. clear Hr.
    generalize (field b). intros g.
    apply is_Some_computed. vm_compute. reflexivity.
Qed.

(** Every entry of the list outside the plugin's namespace is ['off']. *)
Ltac only_off Hpre :=
  repeat (apply Forall_cons_2;
          [ let v' := fresh "v" in let Hw := fresh "Hw" in let Hk := fresh "Hk" in
            intros v' Hw; cbn [writes] in Hw; case_decide as Hk; [|done];
            first [ by (rewrite <- Hk in Hpre; vm_compute in Hpre)
                  | by injection Hw as <- ]
          | ]);
  apply Forall_nil_2.

(** X3. Outside the namespace of its plugin the TypeScript presets only turn
    rules off: in the rules of the flat preset a rule that is not under
    [@typescript-eslint/] is ['off'] or is as the base preset has it, in the
    rules of the legacy preset it is ['off'] or has no entry.  The presets
    never enable or reconfigure a rule of the linter or of another
    plugin. *)
Theorem typescript_only_turns_off :
  (∀ base ts parser c b R,
      EslintConfigTypescript.config base ts parser = Some c →
      base.["rules"] = Some b →
      strip_prefix "@typescript-eslint/" R = None →
      own (field c "rules") !! R = Some (VStr "off")
      ∨ own (field c "rules") !! R = own b !! R)
  ∧
  (∀ base globs base_path c R,
      EslintConfigTypescriptLegacy.exports base globs base_path = Some c →
      strip_prefix "@typescript-eslint/" R = None →
      own (field c "rules") !! R = Some (VStr "off")
      ∨ own (field c "rules") !! R = None).
Proof.
  split.
  - intros base ts parser c b R (o & Ho & ->)%typescript_rules Hb Hpre. cbn [own].
    rewrite (obj_lit_lookup _ _ R Ho). unfold EslintConfigTypescript.rules.
    rewrite last_def_cons.
    match goal with |- context [last_def R ?ms] => destruct (last_def R ms) as [v|] eqn:Hv end.
    + left. f_equal. revert Hv. apply (last_def_Forall (λ v, v = VStr "off")).
      clear -Hpre. only_off Hpre.
    + right. by rewrite Hb.
  - intros base globs base_path c R (o & Ho & ->)%typescript_legacy_rules Hpre. cbn [own].
    rewrite (obj_lit_lookup _ _ R Ho). unfold EslintConfigTypescriptLegacy.rules.
    match goal with |- context [last_def R ?ms] => destruct (last_def R ms) as [v|] eqn:Hv end.
    + left. f_equal. revert Hv. apply (last_def_Forall (λ v, v = VStr "off")).
      clear -Hpre. only_off Hpre.
    + by right.
Qed.

(** Over the base preset of the repository, [guard-for-in] keeps the
    setting of the base preset. *)
Lemma typescript_only_turns_off_witness :
  own (field (Sample.the Sample.typescript) "rules") !! "guard-for-in" = Some (VStr "off")
  ∨ own (field (Sample.the Sample.typescript) "rules") !! "guard-for-in"
    = own (Sample.the (Sample.base.["rules"])) !! "guard-for-in".
Proof.
  apply (proj1 typescript_only_turns_off
           Sample.base (Sample.plugin "@typescript-eslint") Sample.parser).
  - apply the_Some. vm_compute. reflexivity.
  - apply the_Some. vm_compute. reflexivity.
  - vm_compute. reflexivity.
Defined.

Lemma node_rules base node globals cfg :
  EslintConfigNode.config base node globals = Some cfg →
  ∃ o, obj_lit (EslintConfigNode.rules base) = Some o ∧ field cfg "rules" = VObj o.
Proof.
  intros (top & Htop & ->)%object_Some.
  destruct (obj_lit_field [_; _; _; _] "rules" _ [] _ Htop ltac:(silent)) as (v & Hv & Hr).
  destruct (object_Some _ _ Hv) as (o & Ho & ->).
  exists o. split; [done|]. by apply field_VObj.
Qed.

Lemma node_plugin base node globals cfg :
  EslintConfigNode.config base node globals = Some cfg → is_Some node.
Proof.
  intros (top & Htop & ->)%object_Some.
  destruct (obj_lit_field [_; _] "plugins" _ [_; _] _ Htop ltac:(silent)) as (v & Hv & _).
  assert (is_Some (object [Spread (base.["plugins"]); "node" ::= node])) as Hdef
    by (rewrite Hv; by eexists).
  apply object_is_Some in Hdef.
  by apply Forall_cons in Hdef as [_ [Hnode _]%Forall_cons].
Qed.

(** X4. The node presets pass their base on: every key of the base preset
    other than the ones the preset writes itself has the value of the base
    in the preset. *)
Theorem base_keys_pass_through :
  (∀ base node globals c b k,
      EslintConfigNode.config base node globals = Some c →
      base = Some b →
      k ∉ ["languageOptions"; "plugins"; "settings"; "rules"] →
      own c !! k = own b !! k)
  ∧
  (∀ base c b k,
      EslintConfigNodeStyle.config base = Some c →
      base = Some b →
      k ∉ ["plugins"; "rules"] →
      own c !! k = own b !! k).
Proof.
  split.
  - intros base node globals c b k (top & Htop & ->)%object_Some -> Hk. cbn [own].
    rewrite (obj_lit_lookup _ _ k Htop), last_def_cons.
    rewrite !not_elem_of_cons in Hk. destruct_and!.
    rewrite last_def_None; [done|].
    repeat (apply Forall_cons_2; [by apply writes_other|]). apply Forall_nil_2.
  - intros base c b k (top & Htop & ->)%object_Some -> Hk. cbn [own].
    rewrite (obj_lit_lookup _ _ k Htop), last_def_cons.
    rewrite !not_elem_of_cons in Hk. destruct_and!.
    rewrite last_def_None; [done|].
    repeat (apply Forall_cons_2; [by apply writes_other|]). apply Forall_nil_2.
Qed.

(** The globals of the base preset are language options; the node style
    preset over the base preset keeps them. *)
Lemma base_keys_pass_through_witness :
  own (Sample.the (EslintConfigNodeStyle.config Sample.base)) !! "languageOptions"
  = own (Sample.the Sample.base) !! "languageOptions".
Proof.
  apply (proj2 base_keys_pass_through Sample.base).
  - apply the_Some. vm_compute. reflexivity.
  - apply the_Some. vm_compute. reflexivity.
  - rewrite !not_elem_of_cons. repeat split; try discriminate. apply not_elem_of_nil.
Defined.

(** X5. When the node presets can be evaluated.  The node preset throws
    exactly when one of its imports does, when its base or [globals] is
    [undefined] or [null], or when the base has no [languageOptions] (the
    preset reads their [globals]); the node style preset needs nothing of
    its base but that it is not [undefined] or [null]. *)
Theorem node_loads :
  (∀ base node globals,
      is_Some (EslintConfigNode.config base node globals) ↔
      is_Some node ∧ (∃ g, globals = Some g ∧ readable g = true) ∧
      ∃ b, base = Some b ∧ readable b = true ∧
           readable (field b "languageOptions") = true)
  ∧
  (∀ base,
      is_Some (EslintConfigNodeStyle.config base) ↔
      ∃ b, base = Some b ∧ readable b = true).
Proof.
  split.
  - intros base node globals. split.
    + intros [c Hc]. split; [by eapply node_plugin|].
      destruct (node_languageOptions _ _ _ _ Hc) as (blo & bg & gn & Hblo & Hbg & Hgn & _).
      split; [apply (get_is_Some globals "node"); by rewrite Hgn|].
      destruct (proj1 (get_is_Some base "languageOptions")) as (b & -> & Hb);
        [by rewrite Hblo|].
      exists b. repeat split; [done|].
      rewrite get_field in Hblo by done. injection Hblo as <-.
      rewrite prop_readable in Hbg. by destruct (readable (field b "languageOptions")).
    + intros ([n ->] & (g & -> & Hg) & b & -> & Hb & Hlo).
      unfold EslintConfigNode.config, EslintConfigNode.rules.
      rewrite !get_field by done.
      generalize (field (field b "languageOptions")) (field g) (field b) (own b).
      intros f1 f2 f3 o. apply is_Some_computed. vm_compute. reflexivity.
  - intros base. split.
    + intros [c (top & Htop & ->)%object_Some].
      destruct (obj_lit_field [_] "plugins" _ [_] _ Htop ltac:(silent)) as (v & Hv & _).
      assert (is_Some (object [Spread (base.["plugins"])])) as Hdef
        by (rewrite Hv; by eexists).
      apply object_is_Some in Hdef. apply Forall_cons in Hdef as [Hp _].
      by apply (get_is_Some base "plugins").
    + intros (b & -> & Hb).
      unfold EslintConfigNodeStyle.config, EslintConfigNodeStyle.rules.
      rewrite !get_field by done.
      generalize (field b) (own b). intros f o.
      apply is_Some_computed. vm_compute. reflexivity.
Qed.

(** No entry of the list writes a rule of the base preset of the
    repository. *)
Ltac not_in_base Hbase :=
  repeat (apply Forall_cons_2;
          [ let v' := fresh "v" in let Hw := fresh "Hw" in let Hk := fresh "Hk" in
            intros v' Hw; cbn [writes] in Hw; case_decide as Hk; [|done];
            rewrite <- Hk in Hbase; vm_compute in Hbase; discriminate Hbase
          | ]);
  apply Forall_nil_2.

(** X6. The rules of the node preset: an entry of the preset's own list wins,
    every other rule is as the base has it.  Over the base preset of the
    repository the preset only adds rules: none of its own entries is a rule
    of the base preset, so every rule of the base keeps its setting. *)
Theorem node_rules_layering :
  (∀ base node globals c br R,
      EslintConfigNode.config base node globals = Some c →
      base.["rules"] = Some br →
      own (field c "rules") !! R =
      match last_def R (tail (EslintConfigNode.rules base)) with
      | Some v => Some v
      | None => own br !! R
      end)
  ∧
  (∀ stylistic imports unicorn builtin node globals c br R v,
      EslintConfigNode.config
        (EslintConfigBase.config stylistic imports unicorn builtin) node globals = Some c →
      (EslintConfigBase.config stylistic imports unicorn builtin).["rules"] = Some br →
      own br !! R = Some v →
      own (field c "rules") !! R = Some v).
Proof.
  assert (∀ base node globals c br R,
      EslintConfigNode.config base node globals = Some c →
      base.["rules"] = Some br →
      own (field c "rules") !! R =
      match last_def R (tail (EslintConfigNode.rules base)) with
      | Some v => Some v
      | None => own br !! R
      end) as Hlayer.
  { intros base node globals c br R (o & Ho & ->)%node_rules Hbr. cbn [own].
    rewrite (obj_lit_lookup _ _ R Ho). unfold EslintConfigNode.rules.
    rewrite last_def_cons. cbn [tail]. by rewrite Hbr. }
  split; [exact Hlayer|].
  intros stylistic imports unicorn builtin node globals c br R v Hc Hbr Hv.
  rewrite (Hlayer _ _ _ _ _ R Hc Hbr).
  apply base_rules in Hbr as ->. cbn [own] in *.
  match goal with |- context [last_def R ?ms] => destruct (last_def R ms) as [w|] eqn:Hw end;
    [|done].
  exfalso. revert Hw. apply (last_def_Forall (λ _, False)).
  clear -Hv. unfold EslintConfigNode.rules. cbn [tail]. not_in_base Hv.
Qed.

(** [guard-for-in] of the base preset in the node preset over it. *)
Lemma node_rules_layering_witness :
  own (field (Sample.the Sample.node) "rules") !! "guard-for-in" = Some (VStr "error").
Proof.
  apply (proj2 node_rules_layering
           (Sample.plugin "@stylistic") (Sample.plugin "import") (Sample.plugin "unicorn")
           Sample.globals (Sample.plugin "n") Sample.globals (Sample.the Sample.node)
           (Sample.the (Sample.base.["rules"]))).
  - apply the_Some. vm_compute. reflexivity.
  - apply the_Some. vm_compute. reflexivity.
  - vm_compute. reflexivity.
Defined.

Lemma jsdoc_rules jsdoc cfg :
  EslintConfigBaseJsdoc.config jsdoc = Some cfg →
  ∃ o, obj_lit (EslintConfigBaseJsdoc.rules jsdoc) = Some o ∧ field cfg "rules" = VObj o.
Proof.
  intros (top & Htop & ->)%object_Some.
  destruct (obj_lit_field [_] "rules" _ [] _ Htop ltac:(silent)) as (v & Hv & Hr).
  destruct (object_Some _ _ Hv) as (o & Ho & ->).
  exists o. split; [done|]. by apply field_VObj.
Qed.

(** X7. The jsdoc preset.  The module throws exactly when the plugin it
    imports has no configuration [flat/recommended] to read the rules of;
    otherwise it registers the plugin under the name [jsdoc], its nine own
    entries win over the recommended ones and every other recommended rule
    is kept as the plugin has it. *)
Theorem jsdoc_preset :
  (∀ jsdoc,
      is_Some (EslintConfigBaseJsdoc.config jsdoc) ↔
      ∃ j, jsdoc = Some j ∧ readable j = true ∧ readable (field j "configs") = true ∧
           readable (field (field j "configs") "flat/recommended") = true)
  ∧
  (∀ jsdoc c j R,
      EslintConfigBaseJsdoc.config jsdoc = Some c →
      jsdoc = Some j →
      field c "plugins" = VObj {["jsdoc" := j]} ∧
      own (field c "rules") !! R =
      match last_def R (tail (EslintConfigBaseJsdoc.rules jsdoc)) with
      | Some v => Some v
      | None => own (field (field (field j "configs") "flat/recommended") "rules") !! R
      end).
Proof.
  split.
  - intros jsdoc. split.
    + intros [c (o & Ho & _)%jsdoc_rules].
      apply obj_lit_defined in Ho. unfold EslintConfigBaseJsdoc.rules in Ho.
      apply Forall_cons in Ho as [Hrec _]. cbn [defined] in Hrec.
      apply get_is_Some in Hrec as (fr & Hfr & Hrfr).
      destruct (proj1 (get_is_Some (jsdoc.["configs"]) "flat/recommended"))
        as (cf & Hcf & Hrcf); [by rewrite Hfr|].
      destruct (proj1 (get_is_Some jsdoc "configs")) as (j & -> & Hj); [by rewrite Hcf|].
      exists j. rewrite get_field in Hcf by done. injection Hcf as <-.
      rewrite !get_field in Hfr by done. injection Hfr as <-. done.
    + intros (j & -> & Hj & Hcf & Hfr).
      unfold EslintConfigBaseJsdoc.config, EslintConfigBaseJsdoc.rules.
      rewrite !get_field by done.
      generalize (field (field (field j "configs") "flat/recommended") "rules"). intros r.
      apply is_Some_computed. vm_compute. reflexivity.
  - intros jsdoc c j R Hc ->. split.
    + apply object_Some in Hc as (top & Htop & ->).
      destruct (obj_lit_field [] "plugins" _ [_] _ Htop ltac:(silent)) as (v & Hv & Hr).
      rewrite (field_VObj _ _ _ Hr). cbn in Hv. injection Hv as <-.
      by rewrite insert_empty.
    + destruct (jsdoc_rules _ _ Hc) as (o & Ho & ->). cbn [own].
      rewrite (obj_lit_lookup _ _ R Ho). unfold EslintConfigBaseJsdoc.rules in *.
      rewrite last_def_cons. cbn [tail].
      apply obj_lit_defined, Forall_cons in Ho as [[r Hr] _]. cbn [writes]. rewrite Hr.
      cbn [mbind option_bind].
      apply get_Some in Hr as (fr & Hfr & ->). apply get_Some in Hfr as (cf & Hcf & ->).
      apply get_Some in Hcf as (j' & [= <-] & ->). done.
Qed.

(** The plugin of the sample recommends a warning for [jsdoc/require-jsdoc],
    which the preset turns off, and one for [jsdoc/check-types], which it
    keeps. *)
Lemma jsdoc_preset_witness :
  field (Sample.the Sample.base_jsdoc) "plugins" = VObj {["jsdoc" := Sample.the Sample.jsdoc]}
  ∧ own (field (Sample.the Sample.base_jsdoc) "rules") !! "jsdoc/check-types" =
    match last_def "jsdoc/check-types" (tail (EslintConfigBaseJsdoc.rules Sample.jsdoc)) with
    | Some v => Some v
    | None =>
        own (field (field (field (Sample.the Sample.jsdoc) "configs") "flat/recommended")
               "rules") !! "jsdoc/check-types"
    end.
Proof.
  apply (proj2 jsdoc_preset Sample.jsdoc).
  - apply the_Some. vm_compute. reflexivity.
  - apply the_Some. vm_compute. reflexivity.
Defined.

Lemma base_style_rules stylistic imports unicorn b :
  (EslintConfigBaseStyle.config stylistic imports unicorn).["rules"] = Some b →
  b = VObj (default ∅ (obj_lit EslintConfigBaseStyle.rules)).
Proof.
  intros (bv & (top & Htop & ->)%object_Some & ->)%get_Some.
  destruct (obj_lit_field [_] "rules" _ [] _ Htop ltac:(silent)) as (v & Hv & Hr).
  rewrite (field_VObj _ _ _ Hr).
  destruct (object_Some _ _ Hv) as (o & Ho & ->). by rewrite Ho.
Qed.

Lemma disjoint_computed (m1 m2 : gmap string value) :
  forallb (λ kv : string * value, match m2 !! kv.1 with None => true | Some _ => false end)
          (map_to_list m1) = true →
  m1 ##ₘ m2.
Proof.
  rewrite forallb_forall. intros Hall. apply map_disjoint_alt. intros k.
  destruct (m1 !! k) as [v|] eqn:Hk; [|by left]. right.
  specialize (Hall (k, v)). cbn [fst] in Hall.
  destruct (m2 !! k); [|done].
  discriminate Hall. apply list_elem_of_In, elem_of_map_to_list, Hk.
Qed.

(** X8. The base preset and the base style preset set no rule in common, so
    the order in which their rules are layered does not matter. *)
Theorem base_and_style_commute stylistic imports unicorn builtin b s :
  (EslintConfigBase.config stylistic imports unicorn builtin).["rules"] = Some b →
  (EslintConfigBaseStyle.config stylistic imports unicorn).["rules"] = Some s →
  (∀ R, own b !! R = None ∨ own s !! R = None)
  ∧ obj_lit [Spread (Some b); Spread (Some s)] = obj_lit [Spread (Some s); Spread (Some b)].
Proof.
  intros ->%base_rules ->%base_style_rules. cbn [own].
  assert (default ∅ (obj_lit EslintConfigBase.rules)
          ##ₘ default ∅ (obj_lit EslintConfigBaseStyle.rules)) as Hdisj
    by (apply disjoint_computed; vm_compute; reflexivity).
  revert Hdisj.
  generalize (default ∅ (obj_lit EslintConfigBase.rules))
             (default ∅ (obj_lit EslintConfigBaseStyle.rules)).
  intros A B Hdisj. split; [by apply map_disjoint_alt|].
  unfold obj_lit. cbn. rewrite !(right_id_L ∅ (∪)). f_equal. by apply map_union_comm.
Qed.

Lemma base_and_style_commute_witness :
  (∀ R, own (Sample.the (Sample.base.["rules"])) !! R = None
        ∨ own (Sample.the (Sample.base_style.["rules"])) !! R = None)
  ∧ obj_lit [Spread (Some (Sample.the (Sample.base.["rules"])));
             Spread (Some (Sample.the (Sample.base_style.["rules"])))]
    = obj_lit [Spread (Some (Sample.the (Sample.base_style.["rules"])));
               Spread (Some (Sample.the (Sample.base.["rules"])))].
Proof.
  apply (base_and_style_commute
           (Sample.plugin "@stylistic") (Sample.plugin "import") (Sample.plugin "unicorn")
           Sample.globals).
  - apply the_Some. vm_compute. reflexivity.
  - apply the_Some. vm_compute. reflexivity.
Defined.

Lemma typescript_legacy_base_rules base o :
  obj_lit (EslintConfigTypescriptLegacy.rules base) = Some o →
  ∃ b, base = Some b ∧ readable b = true ∧ readable (field b "rules") = true.
Proof.
  intros Ho. unfold EslintConfigTypescriptLegacy.rules in Ho.
  destruct (base.["rules"]) as [r|] eqn:Hr; [|vm_compute in Ho; done].
  cbn [get mbind option_bind] in Ho. rewrite !prop_readable in Ho.
  destruct (readable r) eqn:Hrd; [|vm_compute in Ho; done].
  destruct (proj1 (get_is_Some base "rules")) as (b & -> & Hb); [by rewrite Hr|].
  exists b. repeat split; [done|]. rewrite get_field in Hr by done. by injection Hr as ->.
Qed.

(** X9. When the legacy TypeScript preset can be evaluated.  The module
    throws exactly when [require.resolve] or its import of the patterns
    fails, or when its base lacks what the preset reads from it: the
    [rules], and an iterable list of [extensions] under
    [settings['import/resolver'].node], which the preset spreads into an
    array. *)
Theorem typescript_legacy_loads base globs base_path :
  is_Some (EslintConfigTypescriptLegacy.exports base globs base_path) ↔
  is_Some base_path ∧ (∃ g, globs = Some g ∧ readable g = true) ∧
  ∃ b, base = Some b ∧ readable b = true ∧ readable (field b "rules") = true ∧
       readable (field b "settings") = true ∧
       readable (field (field b "settings") "import/resolver") = true ∧
       readable (field (field (field b "settings") "import/resolver") "node") = true ∧
       is_Some (iter (field (field (field (field b "settings") "import/resolver") "node")
                        "extensions")).
Proof.
  split.
  - intros [c Hc].
    destruct (typescript_legacy_settings _ _ _ _ Hc) as (ev & exts & Hev & Hexts & _).
    destruct (typescript_legacy_rules _ _ _ _ Hc) as (o & Ho & _).
    destruct (typescript_legacy_base_rules _ _ Ho) as (b & -> & Hb & Hr).
    apply object_Some in Hc as (top & Htop & _).
    apply obj_lit_defined in Htop.
    apply Forall_cons in Htop as [Hpath Htop]. cbn [defined] in Hpath.
    do 6 apply Forall_cons in Htop as [_ Htop].
    apply Forall_cons in Htop as [Hover _]. cbn [defined] in Hover.
    split; [done|]. split.
    + apply (get_is_Some globs "configs").
      destruct (globs.["configs"]); [by eexists|]. vm_compute in Hover. by destruct Hover.
    + exists b. split; [done|]. split; [done|]. split; [done|].
      destruct (proj1 (get_is_Some ((Some b).["settings"].["import/resolver"].["node"])
                         "extensions")) as (n & Hn & Hrn); [by rewrite Hev|].
      destruct (proj1 (get_is_Some ((Some b).["settings"].["import/resolver"]) "node"))
        as (ir & Hir & Hrir); [by rewrite Hn|].
      destruct (proj1 (get_is_Some ((Some b).["settings"]) "import/resolver"))
        as (st & Hst & Hrst); [by rewrite Hir|].
      rewrite get_field in Hst by done. injection Hst as <-.
      rewrite !get_field in Hir by done. injection Hir as <-.
      rewrite !get_field in Hn by done. injection Hn as <-.
      rewrite !get_field in Hev by done. injection Hev as <-.
      repeat split; try done; by rewrite Hexts.
  - intros ([p ->] & (g & -> & Hg) & b & -> & Hb & Hr & Hst & Hir & Hn & [exts Hexts]).
    unfold EslintConfigTypescriptLegacy.exports, EslintConfigTypescriptLegacy.rules.
    rewrite !get_field by done.
    apply is_Some_computed. unfold object, array, obj_lit.
    cbn [foldl define push mbind option_bind fmap option_fmap option_map].
    rewrite Hexts. revert Hexts.
    generalize (field (field b "rules")) (field g). intros f1 f2 _.
    vm_compute. reflexivity.
Qed.

End PresetShape.
(** ** The release script *)

Section Release.

Import Publish.

Implicit Types (h : Host) (t : list event) (o : outcome unit) (e : event).
Implicit Types (cmd : string) (args : list string) (code : option Z).

Lemma stale_false (l r b : string) :
  negb (l =? r)%string && negb (r =? b)%string = false → l = r ∨ r = b.
Proof.
  intros [H|H]%andb_false_iff; apply negb_false_iff, String.eqb_eq in H; auto.
Qed.

Lemma stale_true (l r b : string) :
  negb (l =? r)%string && negb (r =? b)%string = true → l ≠ r ∧ r ≠ b.
Proof.
  intros [H1 H2]%andb_true_iff.
  apply negb_true_iff, String.eqb_neq in H1. apply negb_true_iff, String.eqb_neq in H2. done.
Qed.

End Release.

(** Unfolds a run of the script up to the answers of the host. *)
Ltac run_norm H :=
  cbv [Publish.run Publish.main Publish.runYarn Publish.runAndPassOutput Publish.spawn
       Publish.exec mbind Publish.script_bind mret Publish.script_ret
       Publish.console_error Publish.console_log Publish.process_exit] in H;
  cbn [app] in H.

Ltac run_step H :=
  first
  [ match type of H with context [Publish.spawn_answer ?h ?t ?c ?a] =>
      let code := fresh "code" in
      destruct (Publish.spawn_answer h t c a) as [code|];
      [destruct (Publish.truthy code) eqn:?|] end
  | match type of H with context [Publish.exec_answer ?h ?t ?c] =>
      destruct (Publish.exec_answer h t c) as [?|] end
  | match type of H with context [if ?b then _ else _] => destruct b eqn:? end ].

(** Every run of the script, by the answers of the host. *)
Ltac run_cases H :=
  run_norm H;
  set (yarn := if String.prefix "win" (Publish.platform _) then "yarn.cmd" else "yarn") in *;
  repeat run_step H;
  injection H as <- <-;
  cbn [app].

(** The events of a list written out, one by one. *)
Ltac events H :=
  repeat (apply elem_of_cons in H as [H|H]; [try discriminate H|]);
  try (by apply elem_of_nil in H);
  simplify_eq.

Section Runs.

Import Publish.

Implicit Types (h : Host) (t : list event) (o : outcome unit) (e : event).
Implicit Types (cmd : string) (args : list string) (code : option Z).

(** X10. Nothing is published before the checks have passed: when a run
    starts [lerna publish], everything before it is the update of the
    remotes, the three [git] queries, the linter, the format check and
    [lerna version], in this order and with nothing written to the console;
    each of the four children ended with an exit code of zero or by a
    signal, and the local branch was not behind its remote. *)
Theorem publish_after_checks h t o cmd rest answer :
  run h = (t, o) →
  Spawned cmd ("lerna" :: "publish" :: rest) answer ∈ t →
  ∃ c0 l r b c1 c2 c3 after,
    t = [Spawned "git" ["remote"; "update"] (Exit c0);
         Execed local_rev (Some l);
         Execed remote_rev (Some r);
         Execed merge_base (Some b);
         Spawned cmd ["lint"] (Exit c1);
         Spawned cmd ["format:check"] (Exit c2);
         Spawned cmd (version_args (default "patch" (argv h !! 2%nat))) (Exit c3);
         Spawned cmd ("lerna" :: "publish" :: rest) answer] ++ after
    ∧ truthy c0 = false ∧ truthy c1 = false ∧ truthy c2 = false ∧ truthy c3 = false
    ∧ (trimEnd h l = trimEnd h r ∨ trimEnd h r = trimEnd h b).
Proof.
  intros H Hin. run_cases H; unfold version_args in *; events Hin.
  all: eexists _, _, _, _, _, _, _, _; split; [reflexivity|]; eauto 10 using stale_false.
Qed.

(** X11. The check of the revisions.  When the local revision differs from
    the remote one and the remote one is not the merge base, the script
    writes the message of line 36 and ends with exit code 1, having started
    no command but the update of the remotes; when the two revisions are the
    same, or the remote one is the merge base (the local branch is ahead),
    the script goes on to the linter. *)
Theorem out_of_date_stops h t o l r b :
  run h = (t, o) →
  Execed local_rev (Some l) ∈ t →
  Execed remote_rev (Some r) ∈ t →
  Execed merge_base (Some b) ∈ t →
  (trimEnd h l ≠ trimEnd h r → trimEnd h r ≠ trimEnd h b →
   o = Exited 1 ∧ last t = Some (Errored out_of_date) ∧
   ∀ cmd args answer, Spawned cmd args answer ∈ t → cmd = "git" ∧ args = ["remote"; "update"])
  ∧
  (trimEnd h l = trimEnd h r ∨ trimEnd h r = trimEnd h b →
   ∃ answer,
     t !! 4%nat = Some (Spawned (if String.prefix "win" (platform h) then "yarn.cmd" else "yarn")
                                ["lint"] answer)).
Proof.
  intros H Hl Hr Hb. unfold local_rev, remote_rev, merge_base in *.
  run_cases H; events Hl; events Hr; events Hb.
  all: match goal with
       | Hs : _ && _ = true |- _ => apply stale_true in Hs as [??]
       | Hs : _ && _ = false |- _ => apply stale_false in Hs
       end.
  all: split.
  all: try (intros ? ?; exfalso; naive_solver).
  all: try (intros ?; exfalso; naive_solver).
  all: try (intros ?; by eauto).
  intros _ _. split; [done|]. split; [done|]. intros ? ? ? Hin. by events Hin.
Qed.

(** X12. The script stops at the first command that fails.  After a child
    that ends with an exit code other than zero the only event is the
    message of line 20, which names the code and the command line, and the
    script ends with exit code 1; after a child that cannot be started, or
    an [exec] that is rejected, there is no event at all and the script ends
    with the exception. *)
Theorem stops_at_first_failure h t o i e :
  run h = (t, o) →
  t !! i = Some e →
  failed e = true →
  match e with
  | Spawned cmd args (Exit code) =>
      o = Exited 1 ∧ drop (S i) t = [Errored (exit_message code cmd args)]
  | _ => o = Thrown ∧ drop (S i) t = []
  end.
Proof.
  intros H Hi He. run_cases H.
  all: repeat (destruct i as [|i]; cbn [lookup list_lookup] in Hi;
               [simplify_eq; cbn [failed] in He; first [congruence | done | by split]
               |try discriminate Hi]).
Qed.

(** X13. How a run ends.  The module is evaluated to its end only right
    after [lerna publish] has ended with an exit code of zero or by a
    signal; [process.exit] is called with the code 1 only, right after a
    message on the error stream; an exception ends the run right after the
    command that failed. *)
Theorem ends_of_a_run h t o :
  run h = (t, o) →
  (o = Done tt ∧
   ∃ args code,
     last t = Some (Spawned (if String.prefix "win" (platform h) then "yarn.cmd" else "yarn")
                            ("lerna" :: "publish" :: args) (Exit code))
     ∧ truthy code = false)
  ∨ (o = Exited 1 ∧ ∃ msg, last t = Some (Errored msg))
  ∨ (o = Thrown ∧ ∃ e, last t = Some e ∧ failed e = true).
Proof.
  intros H. run_cases H.
  all: first [ by left; split; [done|]; eexists _, _; split
             | by right; left; split; [done|]; eexists
             | by right; right; split; [done|]; eexists; split ].
Qed.

(** X14. The commands of a run.  The script starts no child process other
    than [git remote update] and four [yarn] commands; [yarn] is started as
    [yarn.cmd] exactly on the platforms whose name starts with [win]; the
    version type is the third argument of the process and [patch] without
    it, and the packages are published under the tag [next] exactly when
    the version type starts with [pre]. *)
Theorem commands_of_a_run h t o cmd args answer :
  run h = (t, o) →
  Spawned cmd args answer ∈ t →
  let yarn := if String.prefix "win" (platform h) then "yarn.cmd" else "yarn" in
  let versionType := default "patch" (argv h !! 2%nat) in
  (cmd, args) ∈
    [("git", ["remote"; "update"]);
     (yarn, ["lint"]);
     (yarn, ["format:check"]);
     (yarn, ["lerna"; "version"; "--no-push"; "--no-commit-hooks"; "--force-publish";
             "--preid"; "pre"; versionType; "-m"; "build: release version %v"]);
     (yarn, if String.prefix "pre" versionType
            then ["lerna"; "publish"; "from-package"; "--dist-tag"; "next"]
            else ["lerna"; "publish"; "from-package"])].
Proof.
  intros H Hin. cbv zeta. run_cases H; events Hin.
  all: try match goal with Hp : String.prefix "pre" _ = _ |- _ => rewrite Hp end.
  all: solve [repeat first [apply list_elem_of_here | apply list_elem_of_further]].
Qed.

(** X15. An exit code of zero and a signal are both taken for success: a
    child that ends with either is followed by the next command, or it is
    the last command of a run that ends normally; no message is written
    for it. *)
Theorem zero_or_signal_goes_on h t o i cmd args code :
  run h = (t, o) →
  t !! i = Some (Spawned cmd args (Exit code)) →
  truthy code = false →
  (∃ cmd' args' answer, t !! S i = Some (Spawned cmd' args' answer))
  ∨ (∃ cmdline stdout, t !! S i = Some (Execed cmdline stdout))
  ∨ (o = Done tt ∧ t !! S i = None).
Proof.
  intros H Hi Hc. run_cases H.
  all: repeat (destruct i as [|i]; cbn [lookup list_lookup] in Hi;
               [simplify_eq; first [congruence | by eauto 10]
               |try discriminate Hi]).
Qed.

(** On a host where a signal ends every child the packages are still
    published, under the tag [next] of the prerelease asked for. *)
Lemma publish_after_checks_witness :
  ∃ c0 l r b c1 c2 c3 after,
    (run SampleHost.signalled).1 =
      [Spawned "git" ["remote"; "update"] (Exit c0);
       Execed local_rev (Some l);
       Execed remote_rev (Some r);
       Execed merge_base (Some b);
       Spawned "yarn" ["lint"] (Exit c1);
       Spawned "yarn" ["format:check"] (Exit c2);
       Spawned "yarn" (version_args (default "patch" (argv SampleHost.signalled !! 2%nat)))
         (Exit c3);
       Spawned "yarn" ("lerna" :: "publish" :: ["from-package"; "--dist-tag"; "next"])
         (Exit None)] ++ after
    ∧ truthy c0 = false ∧ truthy c1 = false ∧ truthy c2 = false ∧ truthy c3 = false
    ∧ (trimEnd SampleHost.signalled l = trimEnd SampleHost.signalled r
       ∨ trimEnd SampleHost.signalled r = trimEnd SampleHost.signalled b).
Proof.
  apply (publish_after_checks SampleHost.signalled _ (Done tt)).
  - vm_compute. reflexivity.
  - apply list_elem_of_In. vm_compute. do 7 right. left. reflexivity.
Defined.

(** A local branch that is behind its remote. *)
Lemma out_of_date_stops_witness :
  (run SampleHost.behind).2 = Exited 1
  ∧ last (run SampleHost.behind).1 = Some (Errored out_of_date)
  ∧ ∀ cmd args answer,
      Spawned cmd args answer ∈ (run SampleHost.behind).1 →
      cmd = "git" ∧ args = ["remote"; "update"].
Proof.
  assert (run SampleHost.behind = ((run SampleHost.behind).1, (run SampleHost.behind).2))
    as Hrun by (vm_compute; reflexivity).
  assert (Execed local_rev (Some ("4f2a9c1" +:+ SampleHost.newline))
            ∈ (run SampleHost.behind).1) as Hl
    by (apply list_elem_of_In; vm_compute; do 1 right; left; reflexivity).
  assert (Execed remote_rev (Some ("9d01b7e" +:+ SampleHost.newline))
            ∈ (run SampleHost.behind).1) as Hr
    by (apply list_elem_of_In; vm_compute; do 2 right; left; reflexivity).
  assert (Execed merge_base (Some ("4f2a9c1" +:+ SampleHost.newline))
            ∈ (run SampleHost.behind).1) as Hb
    by (apply list_elem_of_In; vm_compute; do 3 right; left; reflexivity).
  destruct (out_of_date_stops SampleHost.behind _ _ _ _ _ Hrun Hl Hr Hb) as [Hstop _].
  apply Hstop; vm_compute; discriminate.
Defined.

(** The linter reports errors on a Windows host. *)
Lemma stops_at_first_failure_witness :
  (run SampleHost.lint_fails).2 = Exited 1
  ∧ drop 5 (run SampleHost.lint_fails).1
    = [Errored (exit_message (Some 2%Z) "yarn.cmd" ["lint"])].
Proof.
  apply (stops_at_first_failure SampleHost.lint_fails _ _ 4
           (Spawned "yarn.cmd" ["lint"] (Exit (Some 2%Z)))).
  - vm_compute. reflexivity.
  - vm_compute. reflexivity.
  - vm_compute. reflexivity.
Defined.

Lemma ends_of_a_run_witness :
  ((run SampleHost.clean).2 = Done tt ∧
   ∃ args code,
     last (run SampleHost.clean).1
     = Some (Spawned (if String.prefix "win" (platform SampleHost.clean)
                      then "yarn.cmd" else "yarn")
                     ("lerna" :: "publish" :: args) (Exit code))
     ∧ truthy code = false)
  ∨ ((run SampleHost.clean).2 = Exited 1 ∧ ∃ msg, last (run SampleHost.clean).1 = Some (Errored msg))
  ∨ ((run SampleHost.clean).2 = Thrown
     ∧ ∃ e, last (run SampleHost.clean).1 = Some e ∧ failed e = true).
Proof.
  apply (ends_of_a_run SampleHost.clean). vm_compute. reflexivity.
Defined.

(** The linter on a Windows host. *)
Lemma commands_of_a_run_witness :
  let yarn := if String.prefix "win" (platform SampleHost.lint_fails)
              then "yarn.cmd" else "yarn" in
  let versionType := default "patch" (argv SampleHost.lint_fails !! 2%nat) in
  ("yarn.cmd", ["lint"]) ∈
    [("git", ["remote"; "update"]);
     (yarn, ["lint"]);
     (yarn, ["format:check"]);
     (yarn, ["lerna"; "version"; "--no-push"; "--no-commit-hooks"; "--force-publish";
             "--preid"; "pre"; versionType; "-m"; "build: release version %v"]);
     (yarn, if String.prefix "pre" versionType
            then ["lerna"; "publish"; "from-package"; "--dist-tag"; "next"]
            else ["lerna"; "publish"; "from-package"])].
Proof.
  apply (commands_of_a_run SampleHost.lint_fails (run SampleHost.lint_fails).1 (Exited 1)
           "yarn.cmd" ["lint"] (Exit (Some 2%Z))).
  - vm_compute. reflexivity.
  - apply list_elem_of_In. vm_compute. do 4 right. left. reflexivity.
Defined.

(** The update of the remotes ended by a signal: the script goes on to the
    first query. *)
Lemma zero_or_signal_goes_on_witness :
  (∃ cmd' args' answer, (run SampleHost.signalled).1 !! 1%nat = Some (Spawned cmd' args' answer))
  ∨ (∃ cmdline stdout, (run SampleHost.signalled).1 !! 1%nat = Some (Execed cmdline stdout))
  ∨ ((run SampleHost.signalled).2 = Done tt ∧ (run SampleHost.signalled).1 !! 1%nat = None).
Proof.
  apply (zero_or_signal_goes_on SampleHost.signalled _ _ 0 "git" ["remote"; "update"] None).
  - vm_compute. reflexivity.
  - vm_compute. reflexivity.
  - reflexivity.
Defined.

End Runs.
